(** * positions_job: a shallow embedding of dashboard/update_jobs/positions_job.py

    The job reads its configuration from the process environment, asks the
    Alpaca trading API for the account and its open positions, shapes the
    answer into a plain dictionary and writes it as indented JSON into a
    file whose name carries the agent name and a UTC+8 wall-clock stamp.

    The embedding follows the layout of the Python file:
    - [Py]     the parts of the Python runtime the job calls (strings,
               [pathlib], [datetime], [uuid], exceptions, the [json]
               encoder);
    - [World]  the outside world as the job sees it: environment
               variables, clock, broker answers, file system, output
               streams, threaded through a state-and-exception monad;
    - [Job]    the functions of positions_job.py, one definition each;
    - [Sample] a concrete machine on which the job can be run;
    - the vocabulary of the properties, and the properties themselves.

    Taken from outside the job, as fields of [World.Env]: the conversions
    [float(x)] and [float.__repr__], the broker's answers, the clock, the
    working directory and the failures of the file system ([open], the
    writes, [stat], [exists], [fromtimestamp]).  Paths are those of
    [pathlib] on a POSIX system.  Instants stay within the years of four
    digits, where [datetime] arithmetic does not overflow and [strftime]
    pads the year. *)

From Stdlib Require Import ZArith List String Ascii Bool Arith Lia.
From Stdlib Require Import Permutation Sorted.
Import ListNotations.
Local Open Scope string_scope.
Local Open Scope Z_scope.

(* ===================================================================== *)
(** * The Python runtime *)
(* ===================================================================== *)

Module Py.

(** ** Strings

    A Python [str] is kept as the byte string of its UTF-8 encoding. *)

Definition is_upper (c : ascii) : bool :=
  let n := nat_of_ascii c in (65 <=? n)%nat && (n <=? 90)%nat.

Definition lower_char (c : ascii) : ascii :=
  if is_upper c then ascii_of_nat (nat_of_ascii c + 32) else c.

(** [str.lower()].  Only the letters A-Z are mapped: the bytes of a
    multi-byte UTF-8 sequence are all above 127 and stay in place. *)
Fixpoint lower (s : string) : string :=
  match s with
  | EmptyString => EmptyString
  | String c r => String (lower_char c) (lower r)
  end.

Fixpoint ends_with_rev (suffix_rev s_rev : list ascii) : bool :=
  match suffix_rev, s_rev with
  | [], _ => true
  | a :: p, b :: q => Ascii.eqb a b && ends_with_rev p q
  | _ :: _, [] => false
  end.

(** [s.endswith(suffix)] *)
Definition endswith (s suffix : string) : bool :=
  ends_with_rev (rev (list_ascii_of_string suffix)) (rev (list_ascii_of_string s)).

(** [sub in s] *)
Definition contains (sub s : string) : Prop :=
  exists a b, s = a ++ sub ++ b.

(** Decimal digits of a non-negative number, least significant first,
    at most [n] of them. *)
Fixpoint digits_rev (n : nat) (z : Z) : list ascii :=
  match n with
  | O => []
  | S n' =>
      ascii_of_nat (48 + Z.to_nat (z mod 10)) ::
      (if z / 10 =? 0 then [] else digits_rev n' (z / 10))
  end.

(** [str(n)] for an [int]. *)
Definition int_str (z : Z) : string :=
  let a := Z.abs z in
  let ds := string_of_list_ascii (rev (digits_rev (S (Z.to_nat (Z.log2 a))) a)) in
  if z <? 0 then "-" ++ ds else ds.

(** ['%0<w>d' % z] for [0 <= z]: exactly [w] digits, the low-order ones. *)
Fixpoint zero_pad (w : nat) (z : Z) : string :=
  match w with
  | O => ""
  | S w' => zero_pad w' (z / 10) ++ String (ascii_of_nat (48 + Z.to_nat (z mod 10))) ""
  end.

Definition hex_digit (z : Z) : ascii :=
  let n := Z.to_nat (z mod 16) in
  if (n <? 10)%nat then ascii_of_nat (48 + n) else ascii_of_nat (87 + n).

(** ['%0<w>x' % z] for [0 <= z < 16^w]. *)
Fixpoint hex_pad (w : nat) (z : Z) : string :=
  match w with
  | O => ""
  | S w' => hex_pad w' (z / 16) ++ String (hex_digit z) ""
  end.

(** ** Exceptions

    An instance of [Exception]: its class name and the text [str(e)]
    gives.  These are the exceptions library calls, conversions and file
    operations raise and an [except Exception] clause handles. *)

Record exn : Type := mkExn { exn_class : string; exn_str : string }.

Definition ValueError (msg : string) : exn := mkExn "ValueError" msg.
Definition TypeError (msg : string) : exn := mkExn "TypeError" msg.
Definition RecursionError (msg : string) : exn := mkExn "RecursionError" msg.
Definition FileNotFoundError (msg : string) : exn := mkExn "FileNotFoundError" msg.

Inductive result (A : Type) : Type :=
| Ok (a : A)
| Raise (e : exn).
Arguments Ok {A} a.
Arguments Raise {A} e.

(** ** pathlib

    A [PurePosixPath] as [pathlib] keeps it after parsing: the root ("",
    "/" or "//") and the components that follow.  Parsing drops empty
    components and ".", and keeps ".."; nothing is looked up in the file
    system. *)

Record Path : Type := mkPath { path_root : string; path_parts : list string }.

Definition slash : ascii := "/"%char.

(** [part.lstrip('/')], with the number of slashes stripped. *)
Fixpoint lstrip_slash (part : string) : nat * string :=
  match part with
  | EmptyString => (O, part)
  | String c r =>
      if Ascii.eqb c slash then let (n, rel) := lstrip_slash r in (S n, rel)
      else (O, part)
  end.

(** [_PosixFlavour.splitroot]: exactly two leading slashes are a root of
    their own, any other number of them is the root "/". *)
Definition splitroot (part : string) : string * string :=
  match lstrip_slash part with
  | (O, rel) => ("", rel)
  | (2%nat, rel) => ("//", rel)
  | (_, rel) => ("/", rel)
  end.

(** [if x and x != '.': parsed.append(x)] *)
Definition keep_part (x : string) (parsed : list string) : list string :=
  if String.eqb x "" || String.eqb x "." then parsed else x :: parsed.

(** The components of [rel.split('/')] that [parse_parts] keeps; [cur] is
    the component being read. *)
Fixpoint split_parts (cur rel : string) : list string :=
  match rel with
  | EmptyString => keep_part cur []
  | String c r =>
      if Ascii.eqb c slash then keep_part cur (split_parts "" r)
      else split_parts (cur ++ String c "") r
  end.

(** [PurePosixPath(s)] *)
Definition Path_of (s : string) : Path :=
  let (root, rel) := splitroot s in mkPath root (split_parts "" rel).

(** [p / s]: a rooted [s] replaces [p]. *)
Definition joinpath (p : Path) (s : string) : Path :=
  let q := Path_of s in
  if String.eqb (path_root q) "" then
    mkPath (path_root p) (path_parts p ++ path_parts q)
  else q.

(** [p.parent] *)
Definition path_parent (p : Path) : Path :=
  mkPath (path_root p) (removelast (path_parts p)).

(** [p.name] *)
Definition path_name (p : Path) : string := last (path_parts p) "".

(** ['/'.join(parts)] *)
Fixpoint join_parts (parts : list string) : string :=
  match parts with
  | [] => ""
  | [x] => x
  | x :: r => x ++ "/" ++ join_parts r
  end.

(** [str(p)] *)
Definition path_str (p : Path) : string :=
  match path_parts p with
  | [] => if String.eqb (path_root p) "" then "." else path_root p
  | parts => path_root p ++ join_parts parts
  end.

(** A string without a slash. *)
Fixpoint plain_name (s : string) : bool :=
  match s with
  | EmptyString => true
  | String c r => negb (Ascii.eqb c slash) && plain_name r
  end.

(** ** datetime

    A naive [datetime] is an instant on the proleptic Gregorian time line,
    counted in microseconds from 0001-01-01T00:00:00; a [timedelta] is a
    number of microseconds.  Adding one to the other is exact; the civil
    fields are recovered by [ord2ymd], as [datetime.fromordinal] does. *)

Definition datetime := Z.
Definition timedelta := Z.

Definition us_per_second : Z := 1000000.
Definition us_per_day : Z := 86400 * us_per_second.

Definition timedelta_hours (h : Z) : timedelta := h * 3600 * us_per_second.

Definition datetime_add (t : datetime) (d : timedelta) : datetime := t + d.

Definition is_leap (y : Z) : bool :=
  (y mod 4 =? 0) && (negb (y mod 100 =? 0) || (y mod 400 =? 0)).

Definition days_in_month (leap : bool) (m : Z) : Z :=
  if m =? 2 then (if leap then 29 else 28)
  else if (m =? 4) || (m =? 6) || (m =? 9) || (m =? 11) then 30
  else 31.

(** [_DAYS_BEFORE_MONTH[m]], for a common year. *)
Definition days_before_month (m : Z) : Z :=
  nth (Z.to_nat m) [0; 0; 31; 59; 90; 120; 151; 181; 212; 243; 273; 304; 334] 0.

Definition DI400Y : Z := 146097.
Definition DI100Y : Z := 36524.
Definition DI4Y : Z := 1461.

(** [datetime._ord2ymd]: ordinal (0001-01-01 is day 1) to year, month, day. *)
Definition ord2ymd (ordinal : Z) : Z * Z * Z :=
  let n := ordinal - 1 in
  let n400 := n / DI400Y in
  let n := n mod DI400Y in
  let year := n400 * 400 + 1 in
  let n100 := n / DI100Y in
  let n := n mod DI100Y in
  let n4 := n / DI4Y in
  let n := n mod DI4Y in
  let n1 := n / 365 in
  let n := n mod 365 in
  let year := year + n100 * 100 + n4 * 4 + n1 in
  if (n1 =? 4) || (n100 =? 4) then (year - 1, 12, 31)
  else
    let leapyear := (n1 =? 3) && (negb (n4 =? 24) || (n100 =? 3)) in
    let month := Z.shiftr (n + 50) 5 in
    let preceding :=
      days_before_month month + (if (2 <? month) && leapyear then 1 else 0) in
    if n <? preceding then
      let month := month - 1 in
      let preceding := preceding - days_in_month leapyear month in
      (year, month, n - preceding + 1)
    else (year, month, n - preceding + 1).

Definition dt_ordinal (t : datetime) : Z := t / us_per_day + 1.
Definition dt_year (t : datetime) : Z := fst (fst (ord2ymd (dt_ordinal t))).
Definition dt_month (t : datetime) : Z := snd (fst (ord2ymd (dt_ordinal t))).
Definition dt_day (t : datetime) : Z := snd (ord2ymd (dt_ordinal t)).
Definition dt_hour (t : datetime) : Z := (t mod us_per_day) / (3600 * us_per_second).
Definition dt_minute (t : datetime) : Z := (t mod (3600 * us_per_second)) / (60 * us_per_second).
Definition dt_second (t : datetime) : Z := (t mod (60 * us_per_second)) / us_per_second.
Definition dt_microsecond (t : datetime) : Z := t mod us_per_second.

(** [datetime._ymd2ord] and the constructor [datetime(y, m, d, H, M, S, us)]. *)
Definition days_before_year (y : Z) : Z :=
  let p := y - 1 in p * 365 + p / 4 - p / 100 + p / 400.

Definition ymd2ord (y m d : Z) : Z :=
  days_before_year y + days_before_month m
  + (if (2 <? m) && is_leap y then 1 else 0) + d.

Definition mk_datetime (y m d hh mm ss us : Z) : datetime :=
  (ymd2ord y m d - 1) * us_per_day
  + ((hh * 60 + mm) * 60 + ss) * us_per_second + us.

(** [t.strftime('%Y%m%d_%H%M%S')] (years of four digits). *)
Definition strftime_Ymd_HMS (t : datetime) : string :=
  zero_pad 4 (dt_year t) ++ zero_pad 2 (dt_month t) ++ zero_pad 2 (dt_day t)
  ++ "_" ++ zero_pad 2 (dt_hour t) ++ zero_pad 2 (dt_minute t)
  ++ zero_pad 2 (dt_second t).

(** [t.isoformat(sep)]: the fraction is printed only when it is not zero. *)
Definition isoformat_sep (sep : string) (t : datetime) : string :=
  zero_pad 4 (dt_year t) ++ "-" ++ zero_pad 2 (dt_month t) ++ "-"
  ++ zero_pad 2 (dt_day t) ++ sep ++ zero_pad 2 (dt_hour t) ++ ":"
  ++ zero_pad 2 (dt_minute t) ++ ":" ++ zero_pad 2 (dt_second t)
  ++ (if dt_microsecond t =? 0 then "" else "." ++ zero_pad 6 (dt_microsecond t)).

Definition isoformat (t : datetime) : string := isoformat_sep "T" t.

(** [str(t)], which is [t.isoformat(sep=' ')]. *)
Definition datetime_str (t : datetime) : string := isoformat_sep " " t.

(** ** uuid

    A [uuid.UUID] is its 128-bit integer; [str(u)] prints it as 32
    lower-case hexadecimal digits in groups of 8-4-4-4-12. *)

Record uuid : Type := mkUUID { uuid_int : Z }.

Definition uuid_str (u : uuid) : string :=
  let n := uuid_int u in
  hex_pad 8 (n / 2 ^ 96) ++ "-" ++ hex_pad 4 (n / 2 ^ 80) ++ "-"
  ++ hex_pad 4 (n / 2 ^ 64) ++ "-" ++ hex_pad 4 (n / 2 ^ 48) ++ "-"
  ++ hex_pad 12 n.

(** ** float

    A Python [float] is an IEEE 754 binary64 number, kept as its 64 bits:
    the sign, eleven bits of exponent and fifty-two of fraction.  The job
    stores floats and has them printed; [float.__repr__] is taken from the
    environment. *)

Record float : Type := mkFloat { float_bits : Z }.

Definition float_sign (x : float) : bool := Z.testbit (float_bits x) 63.
Definition float_exponent (x : float) : Z := (float_bits x / 2 ^ 52) mod 2048.
Definition float_fraction (x : float) : Z := float_bits x mod 2 ^ 52.

(** [x != x], and [x == inf or x == -inf] *)
Definition is_nan (x : float) : bool :=
  (float_exponent x =? 2047) && negb (float_fraction x =? 0).

Definition is_inf (x : float) : bool :=
  (float_exponent x =? 2047) && (float_fraction x =? 0).

Definition is_zero (x : float) : bool :=
  (float_exponent x =? 0) && (float_fraction x =? 0).

(** [x == y]: a NaN equals nothing, the two zeros are equal, and any other
    two floats are equal when their bits are. *)
Definition float_eqb (x y : float) : bool :=
  if is_nan x || is_nan y then false
  else if is_zero x && is_zero y then true
  else float_bits x mod 2 ^ 64 =? float_bits y mod 2 ^ 64.

(** ** Values

    The Python objects the job handles.  [PList] stands for lists and
    tuples, which the [json] encoder treats alike; [PObj cls] is an object
    of any other class, of which only the class name is kept.  Dictionary
    keys are hashable objects; a dictionary is kept as its items in
    insertion order. *)

#[local] Set Warnings "-register-all".

Inductive pykey : Type :=
| KStr (s : string)
| KInt (n : Z)
| KFloat (f : float)
| KBool (b : bool)
| KNone
| KObj (cls : string).

Inductive pyval : Type :=
| PNone
| PBool (b : bool)
| PInt (n : Z)
| PFloat (f : float)
| PStr (s : string)
| PList (items : list pyval)
| PDict (items : list (pykey * pyval))
| PUUID (u : uuid)
| PObj (cls : string).

(** [d[k]] for a string key (the first item wins; keys are unique in a
    real dictionary). *)
Fixpoint dict_items_get (k : string) (items : list (pykey * pyval)) : option pyval :=
  match items with
  | [] => None
  | (KStr k', v) :: r => if String.eqb k k' then Some v else dict_items_get k r
  | _ :: r => dict_items_get k r
  end.

Definition dict_get (k : string) (d : pyval) : option pyval :=
  match d with
  | PDict items => dict_items_get k items
  | _ => None
  end.

(** ** The json encoder

    [json.dump(obj, fp, indent=..., cls=...)] writes to [fp] the chunks
    [cls(...).iterencode(obj)] yields.  The encoder below is the pure
    Python one ([json.encoder._make_iterencode]), which [dump] uses; what
    it has produced when an exception stops it has already been written. *)

Definition chr (n : nat) : string := String (ascii_of_nat n) EmptyString.
Definition dquote : string := chr 34.
Definition backslash : string := chr 92.
Definition newline : string := chr 10.

(** ['\\u{0:04x}'.format(n)], with a surrogate pair above the BMP. *)
Definition escape_u (cp : Z) : string :=
  if cp <? 65536 then backslash ++ "u" ++ hex_pad 4 cp
  else
    let v := cp - 65536 in
    backslash ++ "u" ++ hex_pad 4 (55296 + Z.land (Z.shiftr v 10) 1023)
    ++ backslash ++ "u" ++ hex_pad 4 (56320 + Z.land v 1023).

(** The replacement of one code point in [py_encode_basestring_ascii]. *)
Definition escape_cp (cp : Z) : string :=
  if cp =? 34 then backslash ++ dquote
  else if cp =? 92 then backslash ++ backslash
  else if cp =? 8 then backslash ++ "b"
  else if cp =? 12 then backslash ++ "f"
  else if cp =? 10 then backslash ++ "n"
  else if cp =? 13 then backslash ++ "r"
  else if cp =? 9 then backslash ++ "t"
  else if (32 <=? cp) && (cp <=? 126) then chr (Z.to_nat cp)
  else escape_u cp.

Definition byte (c : ascii) : Z := Z.of_nat (nat_of_ascii c).
Definition cont_bits (c : ascii) : Z := Z.land (byte c) 63.

(** Escapes the code points of a string, decoding its UTF-8 bytes. *)
Fixpoint escape_string (s : string) : string :=
  match s with
  | EmptyString => ""
  | String b0 r0 =>
      if byte b0 <? 192 then escape_cp (byte b0) ++ escape_string r0
      else
        match r0 with
        | EmptyString => escape_cp (byte b0)
        | String b1 r1 =>
            if byte b0 <? 224 then
              escape_cp (Z.shiftl (Z.land (byte b0) 31) 6 + cont_bits b1)
              ++ escape_string r1
            else
              match r1 with
              | EmptyString => escape_cp (byte b0)
              | String b2 r2 =>
                  if byte b0 <? 240 then
                    escape_cp (Z.shiftl (Z.land (byte b0) 15) 12
                               + Z.shiftl (cont_bits b1) 6 + cont_bits b2)
                    ++ escape_string r2
                  else
                    match r2 with
                    | EmptyString => escape_cp (byte b0)
                    | String b3 r3 =>
                        escape_cp (Z.shiftl (Z.land (byte b0) 7) 18
                                   + Z.shiftl (cont_bits b1) 12
                                   + Z.shiftl (cont_bits b2) 6 + cont_bits b3)
                        ++ escape_string r3
                    end
              end
        end
  end.

(** [json.encoder.py_encode_basestring_ascii] *)
Definition encode_basestring_ascii (s : string) : string :=
  dquote ++ escape_string s ++ dquote.

(** What an encoder run has yielded, and the exception that stopped it. *)
Definition emitted : Type := string * option exn.

Definition emit (s : string) : emitted := (s, None).
Definition fail (e : exn) : emitted := ("", Some e).

Definition seq (a b : emitted) : emitted :=
  match a with
  | (s, None) => (s ++ fst b, snd b)
  | (s, Some e) => (s, Some e)
  end.

Fixpoint repeat_str (s : string) (n : nat) : string :=
  match n with
  | O => ""
  | S n' => s ++ repeat_str s n'
  end.

(** The key of an item, as [_iterencode_dict] converts it ([skipkeys] is
    false). *)
Definition encode_key (floatstr : float -> string) (k : pykey) : result string :=
  match k with
  | KStr s => Ok s
  | KFloat f => Ok (floatstr f)
  | KBool true => Ok "true"
  | KBool false => Ok "false"
  | KNone => Ok "null"
  | KInt n => Ok (int_str n)
  | KObj cls =>
      Raise (TypeError ("keys must be str, int, float, bool or None, not " ++ cls))
  end.

Section Members.

(** The loops of [_iterencode_list] and [_iterencode_dict] over the
    members of a non-empty container; [member] encodes one of them. *)
Variable member : pyval -> emitted.
Variable _floatstr : float -> string.
Variable opening separator : string.

Fixpoint list_members (first : bool) (lst : list pyval) {struct lst} : emitted :=
  match lst with
  | [] => emit ""
  | value :: r =>
      seq (emit (if first then opening else separator))
        (seq (member value) (list_members false r))
  end.

Fixpoint dict_members (first : bool) (dct : list (pykey * pyval)) {struct dct}
  : emitted :=
  match dct with
  | [] => emit ""
  | (key, value) :: r =>
      match encode_key _floatstr key with
      | Raise e => fail e
      | Ok k =>
          seq (emit ((if first then "" else separator)
                     ++ encode_basestring_ascii k ++ ": "))
            (seq (member value) (dict_members false r))
      end
  end.

End Members.

Section Iterencode.

(** The arguments of [_make_iterencode]. *)
Variable _default : pyval -> result pyval.
Variable _floatstr : float -> string.
Variable _indent : option string.

(** Where [_iterencode] sends the object [_default] returned. *)
Variable again : pyval -> nat -> emitted.

Definition _item_separator : string :=
  match _indent with Some _ => "," | None => ", " end.

Definition newline_indent (level : nat) : string :=
  match _indent with
  | Some i => newline ++ repeat_str i level
  | None => ""
  end.

Fixpoint _iterencode (o : pyval) (level : nat) {struct o} : emitted :=
  match o with
  | PStr s => emit (encode_basestring_ascii s)
  | PNone => emit "null"
  | PBool true => emit "true"
  | PBool false => emit "false"
  | PInt n => emit (int_str n)
  | PFloat f => emit (_floatstr f)
  | PList [] => emit "[]"
  | PList lst =>
      seq (list_members (fun value => _iterencode value (S level))
             ("[" ++ newline_indent (S level))
             (_item_separator ++ newline_indent (S level)) true lst)
        (emit (newline_indent level ++ "]"))
  | PDict [] => emit "{}"
  | PDict dct =>
      seq (emit ("{" ++ newline_indent (S level)))
        (seq (dict_members (fun value => _iterencode value (S level)) _floatstr
                (_item_separator ++ newline_indent (S level)) true dct)
           (emit (newline_indent level ++ "}")))
  | PUUID _ | PObj _ =>
      match _default o with
      | Raise e => fail e
      | Ok o' => again o' level
      end
  end.

End Iterencode.

(** [sys.getrecursionlimit()] *)
Definition recursion_limit : nat := 1000.

(** [_iterencode] calling itself on what [default] returns, as deep as
    the interpreter lets it. *)
Fixpoint iterencode_depth (_default : pyval -> result pyval)
    (_floatstr : float -> string) (_indent : option string) (depth : nat)
    {struct depth} : pyval -> nat -> emitted :=
  match depth with
  | O =>
      _iterencode _default _floatstr _indent
        (fun _ _ => fail (RecursionError "maximum recursion depth exceeded"))
  | S d =>
      _iterencode _default _floatstr _indent
        (iterencode_depth _default _floatstr _indent d)
  end.

(** [json.JSONEncoder.default]: the base class knows no other type. *)
Definition type_name (o : pyval) : string :=
  match o with
  | PNone => "NoneType"
  | PBool _ => "bool"
  | PInt _ => "int"
  | PFloat _ => "float"
  | PStr _ => "str"
  | PList _ => "list"
  | PDict _ => "dict"
  | PUUID _ => "UUID"
  | PObj cls => cls
  end.

Definition json_JSONEncoder_default (o : pyval) : result pyval :=
  Raise (TypeError ("Object of type " ++ type_name o ++ " is not JSON serializable")).

(** [floatstr] of [JSONEncoder.iterencode]; [allow_nan] is true. *)
Definition floatstr (_repr : float -> string) (o : float) : string :=
  if is_nan o then "NaN"
  else if is_inf o then (if float_sign o then "-Infinity" else "Infinity")
  else _repr o.

(** [cls(indent=indent).iterencode(obj)] for an encoder class [cls] whose
    [default] method is given; [_repr] is [float.__repr__] and [indent] the
    number of spaces. *)
Definition json_iterencode (cls_default : pyval -> result pyval)
    (_repr : float -> string) (indent : option nat) (obj : pyval) : emitted :=
  iterencode_depth cls_default (floatstr _repr)
    (option_map (repeat_str " ") indent) recursion_limit obj 0.

End Py.

Import Py.

(* ===================================================================== *)
(** * The outside world *)
(* ===================================================================== *)

Module World.

(** ** The broker's client library

    The attributes of the objects [alpaca.trading.client.TradingClient]
    returns, as far as the job reads them.  Each is whatever Python object
    the library (or a test double) put there. *)

Record Account : Type := mkAccount {
  acc_id : pyval;
  acc_cash : pyval;
  acc_portfolio_value : pyval;
  acc_buying_power : pyval;
  acc_currency : pyval;
  acc_status : pyval;
  acc_trading_blocked : pyval;
  acc_equity : pyval
}.

Record Position : Type := mkPosition {
  pos_symbol : pyval;
  pos_qty : pyval;
  pos_market_value : pyval;
  pos_cost_basis : pyval;
  pos_unrealized_pl : pyval;
  pos_unrealized_plpc : pyval;
  pos_current_price : pyval;
  pos_avg_entry_price : pyval;
  pos_side : pyval;
  pos_exchange : pyval
}.

Record TradingClient : Type := mkClient {
  tc_api_key : string;
  tc_secret_key : string;
  tc_paper : bool
}.

(** What the job did with the client library, in order.  [GetAccount] and
    [GetAllPositions] are the calls that go to the network. *)
Inductive api_event : Type :=
| ClientCreated (c : TradingClient)
| GetAccount (c : TradingClient)
| GetAllPositions (c : TradingClient).

Definition is_network_call (ev : api_event) : bool :=
  match ev with
  | ClientCreated _ => false
  | GetAccount _ | GetAllPositions _ => true
  end.

(** ** Files

    A file as the job sees it: what it holds and when it was last written.
    The state keeps the entries of the snapshot directory under their
    names, and any other file the job writes under its path, as [pathlib]
    prints it; neither ".." nor links are followed, so that two names are
    two files. *)

Record file : Type := mkFile { f_content : string; f_mtime : Z }.

Fixpoint strip_parts (dir parts : list string) : option (list string) :=
  match dir, parts with
  | [], _ => Some parts
  | d :: dir', x :: parts' =>
      if String.eqb d x then strip_parts dir' parts' else None
  | _ :: _, [] => None
  end.

(** The entry of the directory [dir] the path [p] names, if it names one:
    [p] is [dir] followed by one more component. *)
Definition entry_name (dir p : Path) : option string :=
  if String.eqb (path_root dir) (path_root p) then
    match strip_parts (path_parts dir) (path_parts p) with
    | Some [name] => Some name
    | _ => None
    end
  else None.

(** The name under which the state keeps the file at [p]: the name of the
    entry of [dir], or the whole path of a file elsewhere (which always has
    a slash in it, as [dir] has two components or more). *)
Definition file_key (dir p : Path) : string :=
  match entry_name dir p with
  | Some name => name
  | None => path_str p
  end.

(** ** What the job cannot decide

    The process environment, the clock, the interpreter's conversions, the
    broker's answers and the failures of the file system. *)

Record Env : Type := mkEnv {
  environ : string -> option string;        (* os.environ, after load_dotenv *)
  utc_clock : nat -> datetime;              (* what the n-th utcnow() returns *)
  getcwd : result string;                   (* os.getcwd() *)
  script_file : string;                     (* __file__ *)
  builtin_float : pyval -> result float;    (* float(x) *)
  float_repr : float -> string;             (* float.__repr__ *)
  object_str : pyval -> string;             (* str(x), objects without a model *)
  fromtimestamp : Z -> result datetime;     (* datetime.fromtimestamp, local time *)
  mtime_at : nat -> Z;                      (* the time the file system stamps *)
  client_init : TradingClient -> option exn;          (* TradingClient(...) *)
  account_of : TradingClient -> result Account;       (* get_account() *)
  positions_of : TradingClient -> result (list Position); (* get_all_positions() *)
  open_error : string -> option exn;        (* open(path, 'w') refused *)
  write_error : string -> option (nat * exn); (* the write fails after n bytes *)
  stat_error : string -> option exn;        (* path.stat() fails *)
  exists_error : option exn                 (* DATA_DIR.exists() fails *)
}.

(** The three file-system fields take the name under which the state keeps
    the file: see [file_key]. *)

(** ** What the job changes

    [print] and the listing of the snapshot directory are taken to
    succeed: the job's output streams and the directory entries are part of
    the state, and reading them raises nothing ([glob] passes over a
    directory it may not read). *)

Record State : Type := mkState {
  ticks : nat;                              (* utcnow() calls so far *)
  stdout : list string;                     (* one entry for each print *)
  stderr : list exn;                        (* tracebacks printed *)
  api_log : list api_event;
  snapshots : option (list (string * file)); (* DATA_DIR's entries, if it exists *)
  elsewhere : list (string * file)          (* files outside it, by path *)
}.

(** ** Computations: state passing with exceptions.  A raised exception
    keeps the state reached so far. *)

Definition M (A : Type) : Type := State -> result A * State.

Definition ret {A} (a : A) : M A := fun st => (Ok a, st).
Definition raise {A} (e : exn) : M A := fun st => (Raise e, st).

Definition bind {A B} (c : M A) (k : A -> M B) : M B :=
  fun st =>
    match c st with
    | (Ok a, st') => k a st'
    | (Raise e, st') => (Raise e, st')
    end.

(** [try: c  except Exception as e: handler e] *)
Definition try_except {A} (c : M A) (handler : exn -> M A) : M A :=
  fun st =>
    match c st with
    | (Ok a, st') => (Ok a, st')
    | (Raise e, st') => handler e st'
    end.

Definition lift {A} (r : result A) : M A := fun st => (r, st).

Declare Scope py_scope.
Delimit Scope py_scope with py.
Notation "x <- c ;; k" := (bind c (fun x => k))
  (at level 61, c at next level, right associativity) : py_scope.
Notation "c ;; k" := (bind c (fun _ => k))
  (at level 61, right associativity) : py_scope.
Local Open Scope py_scope.

Fixpoint for_each {A B} (f : A -> M B) (l : list A) : M (list B) :=
  match l with
  | [] => ret []
  | a :: r => b <- f a ;; bs <- for_each f r ;; ret (b :: bs)
  end.

(** [print(s)] *)
Definition print (s : string) : M unit :=
  fun st => (Ok tt, mkState (ticks st) (stdout st ++ [s]) (stderr st)
                      (api_log st) (snapshots st) (elsewhere st)).

(** [traceback.print_exc()] in the handler of [e] *)
Definition print_exc (e : exn) : M unit :=
  fun st => (Ok tt, mkState (ticks st) (stdout st) (stderr st ++ [e])
                      (api_log st) (snapshots st) (elsewhere st)).

(** [datetime.datetime.utcnow()] *)
Definition utcnow (E : Env) : M datetime :=
  fun st => (Ok (utc_clock E (ticks st)),
             mkState (S (ticks st)) (stdout st) (stderr st)
               (api_log st) (snapshots st) (elsewhere st)).

Definition record_api (ev : api_event) : M unit :=
  fun st => (Ok tt, mkState (ticks st) (stdout st) (stderr st)
                      (api_log st ++ [ev]) (snapshots st) (elsewhere st)).

(** [TradingClient(key, secret, paper=paper)] *)
Definition TradingClient_new (E : Env) (key secret : string) (paper : bool)
  : M TradingClient :=
  let c := mkClient key secret paper in
  match client_init E c with
  | Some e => raise e
  | None => record_api (ClientCreated c) ;; ret c
  end.

Definition get_account (E : Env) (c : TradingClient) : M Account :=
  record_api (GetAccount c) ;; lift (account_of E c).

Definition get_all_positions (E : Env) (c : TradingClient) : M (list Position) :=
  record_api (GetAllPositions c) ;; lift (positions_of E c).

(** *** The files *)

Fixpoint put_file (name : string) (f : file) (l : list (string * file))
  : list (string * file) :=
  match l with
  | [] => [(name, f)]
  | (n, g) :: r => if String.eqb n name then (n, f) :: r
                   else (n, g) :: put_file name f r
  end.

Fixpoint get_file (name : string) (l : list (string * file)) : option file :=
  match l with
  | [] => None
  | (n, g) :: r => if String.eqb n name then Some g else get_file name r
  end.

(** The file kept under [name], if there is one: an entry of the snapshot
    directory when [name] has no slash, a file elsewhere when it has. *)
Definition read_snapshot (name : string) (st : State) : option file :=
  if plain_name name then
    match snapshots st with
    | Some l => get_file name l
    | None => None
    end
  else get_file name (elsewhere st).

Definition set_snapshot (name : string) (f : file) (st : State) : State :=
  if plain_name name then
    mkState (ticks st) (stdout st) (stderr st) (api_log st)
      (option_map (put_file name f) (snapshots st)) (elsewhere st)
  else
    mkState (ticks st) (stdout st) (stderr st) (api_log st)
      (snapshots st) (put_file name f (elsewhere st)).

(** Whether the directory the file [name] goes into is known to be there:
    the snapshot directory for one of its entries.  For a file elsewhere
    [open_error] alone tells. *)
Definition has_place (name : string) (st : State) : bool :=
  if plain_name name then
    match snapshots st with Some _ => true | None => false end
  else true.

(** [DATA_DIR.exists()]: [False] for a directory that is not there; an
    error of another kind, such as a parent that may not be searched, is
    raised. *)
Definition dir_exists (E : Env) : M bool :=
  fun st =>
    match exists_error E with
    | Some e => (Raise e, st)
    | None =>
        (Ok (match snapshots st with Some _ => true | None => false end), st)
    end.

(** [list(DATA_DIR.glob("*.json"))] *)
Definition glob_json : M (list (string * file)) :=
  fun st => (Ok (match snapshots st with
                 | Some l => filter (fun nf => endswith (fst nf) ".json") l
                 | None => []
                 end), st).

(** [open(path, 'w')], for the file kept under [name]: the file is
    created, or emptied. *)
Definition open_w (E : Env) (path name : string) : M unit :=
  fun st =>
    if has_place name st then
      match open_error E name with
      | Some e => (Raise e, st)
      | None => (Ok tt, set_snapshot name (mkFile "" (mtime_at E (ticks st))) st)
      end
    else
      (Raise (FileNotFoundError
                ("[Errno 2] No such file or directory: '" ++ path ++ "'")), st).

Definition take (n : nat) (s : string) : string := substring 0 n s.

(** The chunks of an encoder run going to the open file: what was yielded
    reaches the file, up to the byte at which the file system gives up. *)
Definition write_chunks (E : Env) (name : string) (out : emitted) : M unit :=
  fun st =>
    let put s := set_snapshot name (mkFile s (mtime_at E (ticks st))) st in
    match write_error E name with
    | Some (n, e) =>
        if (n <? String.length (fst out))%nat
        then (Raise e, put (take n (fst out)))
        else match snd out with
             | Some e' => (Raise e', put (fst out))
             | None => (Ok tt, put (fst out))
             end
    | None =>
        match snd out with
        | Some e' => (Raise e', put (fst out))
        | None => (Ok tt, put (fst out))
        end
    end.

(** [x.stat().st_mtime] for a file of a directory listing *)
Definition stat_mtime (E : Env) (x : string * file) : M Z :=
  match stat_error E (fst x) with
  | Some e => raise e
  | None => ret (f_mtime (snd x))
  end.

(** [path.stat().st_size] *)
Definition stat_size (E : Env) (name : string) : M Z :=
  fun st =>
    match stat_error E name with
    | Some e => (Raise e, st)
    | None =>
        match read_snapshot name st with
        | Some f => (Ok (Z.of_nat (String.length (f_content f))), st)
        | None =>
            (Raise (FileNotFoundError "[Errno 2] No such file or directory"), st)
        end
    end.

End World.

Import World.
Local Open Scope py_scope.

(* ===================================================================== *)
(** * positions_job.py *)
(* ===================================================================== *)

Module Job.

(** ** Module-level configuration *)

(** [os.getenv(name)] and [os.getenv(name, default)] *)
Definition os_getenv (E : Env) (name : string) : option string := environ E name.

Definition os_getenv_default (E : Env) (name default : string) : string :=
  match environ E name with
  | Some v => v
  | None => default
  end.

Definition ALPACA_API_KEY (E : Env) : option string := os_getenv E "ALPACA_API_KEY".
Definition ALPACA_SECRET_KEY (E : Env) : option string := os_getenv E "ALPACA_SECRET_KEY".
Definition ALPACA_PAPER (E : Env) : bool :=
  String.eqb (lower (os_getenv_default E "ALPACA_PAPER" "true")) "true".

(** [Path(__file__).parent] *)
Definition script_dir (E : Env) : Path := path_parent (Path_of (script_file E)).

Definition DATA_DIR (E : Env) : Path :=
  joinpath (joinpath (path_parent (script_dir E)) "data") "snapshots".

(** [not x] for [x] a string or [None] *)
Definition falsy (x : option string) : bool :=
  match x with
  | None => true
  | Some s => String.eqb s ""
  end.

Definition bool_str (b : bool) : string := if b then "True" else "False".

(** [str(x)] *)
Definition str_ (E : Env) (x : pyval) : string :=
  match x with
  | PStr s => s
  | PUUID u => uuid_str u
  | PInt n => int_str n
  | PBool b => bool_str b
  | PNone => "None"
  | PFloat f => float_repr E f
  | _ => object_str E x
  end.

(** [float(x)] *)
Definition float_ (E : Env) (x : pyval) : M float := lift (builtin_float E x).

(** ** get_malaysia_time *)

Definition get_malaysia_time (E : Env) : M datetime :=
  utc_now <- utcnow E ;;
  let malaysia_time := datetime_add utc_now (timedelta_hours 8) in
  ret malaysia_time.

(** ** debug_environment *)

Fixpoint insert_by_mtime (x : string * file) (l : list (string * file))
  : list (string * file) :=
  match l with
  | [] => [x]
  | y :: r => if f_mtime (snd x) <? f_mtime (snd y) then x :: y :: r
              else y :: insert_by_mtime x r
  end.

(** A stable sort by time of modification. *)
Definition sorted_by_mtime (files : list (string * file)) : list (string * file) :=
  fold_left (fun acc x => insert_by_mtime x acc) files [].

(** [sorted(files, key=lambda x: x.stat().st_mtime)]: the key function is
    called on every file, in the order of the listing, before anything is
    compared; the first [stat] that fails ends the call.  The keys are the
    times the files carry. *)
Definition sorted_by_stat (E : Env) (files : list (string * file))
  : M (list (string * file)) :=
  for_each (stat_mtime E) files ;;
  ret (sorted_by_mtime files).

(** [l[-n:]] *)
Definition last_n {A} (n : nat) (l : list A) : list A :=
  skipn (List.length l - n) l.

(** The body of the loops over the files shown. *)
Definition print_file_line (E : Env) (f : string * file) : M unit :=
  st_mtime <- stat_mtime E f ;;
  mtime <- lift (fromtimestamp E st_mtime) ;;
  print ("  " ++ fst f ++ " (modified: " ++ datetime_str mtime ++ ")").

Definition debug_environment (E : Env) : M unit :=
  print "=== ENVIRONMENT DEBUG ===" ;;
  cwd <- lift (getcwd E) ;;
  print ("Current working directory: " ++ cwd) ;;
  print ("Script location: " ++ path_str (script_dir E)) ;;
  print ("Data directory: " ++ path_str (DATA_DIR E)) ;;
  ex <- dir_exists E ;;
  print ("Data directory exists: " ++ bool_str ex) ;;
  utc <- utcnow E ;;
  print ("Current UTC time: " ++ datetime_str utc) ;;
  my <- get_malaysia_time E ;;
  print ("Current Malaysia time: " ++ datetime_str my) ;;
  print ("ALPACA_API_KEY set: " ++ (if falsy (ALPACA_API_KEY E) then "No" else "Yes")) ;;
  print ("ALPACA_SECRET_KEY set: " ++ (if falsy (ALPACA_SECRET_KEY E) then "No" else "Yes")) ;;
  print ("ALPACA_PAPER: " ++ bool_str (ALPACA_PAPER E)) ;;
  ex <- dir_exists E ;;
  (if ex : bool then
     files <- glob_json ;;
     print ("Existing snapshot files: " ++ int_str (Z.of_nat (List.length files))) ;;
     match files with
     | [] => ret tt
     | _ =>
         sorted_files <- sorted_by_stat E files ;;
         let recent_files := last_n 3 sorted_files in
         print "Most recent files:" ;;
         for_each (print_file_line E) recent_files ;;
         ret tt
     end
   else ret tt) ;;
  print ("=== END DEBUG ===" ++ newline).

(** ** fetch_alpaca_data *)

Definition position_data (E : Env) (position : Position) : M pyval :=
  qty <- float_ E (pos_qty position) ;;
  market_value <- float_ E (pos_market_value position) ;;
  cost_basis <- float_ E (pos_cost_basis position) ;;
  unrealized_pl <- float_ E (pos_unrealized_pl position) ;;
  unrealized_plpc <- float_ E (pos_unrealized_plpc position) ;;
  current_price <- float_ E (pos_current_price position) ;;
  avg_entry_price <- float_ E (pos_avg_entry_price position) ;;
  ret (PDict [
    (KStr "symbol", pos_symbol position);
    (KStr "qty", PFloat qty);
    (KStr "market_value", PFloat market_value);
    (KStr "cost_basis", PFloat cost_basis);
    (KStr "unrealized_pl", PFloat unrealized_pl);
    (KStr "unrealized_plpc", PFloat unrealized_plpc);
    (KStr "current_price", PFloat current_price);
    (KStr "avg_entry_price", PFloat avg_entry_price);
    (KStr "side", pos_side position);
    (KStr "exchange", pos_exchange position)]).

Definition fetch_alpaca_data (E : Env) : M pyval :=
  print "Initializing Alpaca client..." ;;
  match ALPACA_API_KEY E, ALPACA_SECRET_KEY E with
  | Some key, Some secret =>
      if falsy (Some key) || falsy (Some secret) then
        raise (ValueError "Missing Alpaca API credentials")
      else
        trading_client <- TradingClient_new E key secret (ALPACA_PAPER E) ;;
        print "Fetching account data..." ;;
        account <- get_account E trading_client ;;
        cash <- float_ E (acc_cash account) ;;
        portfolio_value <- float_ E (acc_portfolio_value account) ;;
        buying_power <- float_ E (acc_buying_power account) ;;
        equity <- float_ E (acc_equity account) ;;
        updated_at <- get_malaysia_time E ;;
        let account_data := PDict [
          (KStr "id", acc_id account);
          (KStr "cash", PFloat cash);
          (KStr "portfolio_value", PFloat portfolio_value);
          (KStr "buying_power", PFloat buying_power);
          (KStr "currency", acc_currency account);
          (KStr "account_status", acc_status account);
          (KStr "trading_blocked", acc_trading_blocked account);
          (KStr "equity", PFloat equity);
          (KStr "updated_at", PStr (isoformat updated_at))] in
        print ("Account data fetched - Portfolio value: $"
               ++ str_ E (acc_portfolio_value account)) ;;
        print "Fetching positions..." ;;
        positions <- get_all_positions E trading_client ;;
        positions_data <- for_each (position_data E) positions ;;
        print ("Positions fetched - " ++ int_str (Z.of_nat (List.length positions_data))
               ++ " positions found") ;;
        cash' <- float_ E (acc_cash account) ;;
        timestamp <- get_malaysia_time E ;;
        let data := PDict [
          (KStr "account", account_data);
          (KStr "positions", PList positions_data);
          (KStr "cash", PFloat cash');
          (KStr "timestamp", PStr (isoformat timestamp))] in
        ret data
  | _, _ => raise (ValueError "Missing Alpaca API credentials")
  end.

(** ** JSONEncoder *)

Definition JSONEncoder_default (obj : pyval) : result pyval :=
  match obj with
  | PUUID u => Ok (PStr (uuid_str u))
  | _ => json_JSONEncoder_default obj
  end.

(** [json.dump(data, f, indent=2, cls=JSONEncoder)], as the chunks it
    hands to [f.write]. *)
Definition json_dump (E : Env) (data : pyval) : emitted :=
  json_iterencode JSONEncoder_default (float_repr E) (Some 2%nat) data.

(** ** save_data *)

Definition save_error_prefix : string := "❌ Error saving file: ".

(** The [try:] block of [save_data]; [name] is the name under which the
    state keeps the file at [filepath]. *)
Definition save_data_try (E : Env) (data : pyval) (filepath : Path)
    (name : string) : M Path :=
  open_w E (path_str filepath) name ;;
  write_chunks E name (json_dump E data) ;;
  print ("✅ Successfully saved data to " ++ path_str filepath) ;;
  size <- stat_size E name ;;
  print ("File size: " ++ int_str size ++ " bytes") ;;
  ret filepath.

Definition save_data (E : Env) (data : pyval) (agent_name : string) : M Path :=
  now <- get_malaysia_time E ;;
  let timestamp := strftime_Ymd_HMS now in
  let filename := agent_name ++ "_" ++ timestamp ++ ".json" in
  let filepath := joinpath (DATA_DIR E) filename in
  print ("Attempting to save data to: " ++ path_str filepath) ;;
  try_except
    (save_data_try E data filepath (file_key (DATA_DIR E) filepath))
    (fun e =>
       print (save_error_prefix ++ exn_str e) ;;
       raise e).

(** ** run_job *)

Definition success_msg : string := "✅ Successfully fetched and saved Alpaca data".
Definition run_job_error_prefix : string := "❌ Error in run_job: ".

(** The [try:] block of [run_job]. *)
Definition run_job_try (E : Env) (agent_name : string) : M (bool * string) :=
  print "Starting Alpaca data fetch..." ;;
  data <- fetch_alpaca_data E ;;
  print "Data fetch successful, saving to file..." ;;
  save_data E data agent_name ;;
  print success_msg ;;
  ret (true, success_msg).

Definition run_job (E : Env) (agent_name : string) : M (bool * string) :=
  debug_environment E ;;
  try_except
    (run_job_try E agent_name)
    (fun e =>
       let error_msg := run_job_error_prefix ++ exn_str e in
       print error_msg ;;
       print "Full traceback:" ;;
       print_exc e ;;
       ret (false, error_msg)).

(** ** The script body *)

Definition main (E : Env) : M unit :=
  started <- get_malaysia_time E ;;
  print ("Starting positions job at " ++ datetime_str started) ;;
  r <- run_job E "default" ;;
  print ("Job completed. Success: " ++ bool_str (fst r)) ;;
  print ("Message: " ++ snd r) ;;
  print (newline ++ "Final check - Files in " ++ path_str (DATA_DIR E) ++ ":") ;;
  ex <- dir_exists E ;;
  if ex : bool then
    listing <- glob_json ;;
    files <- sorted_by_stat E listing ;;
    for_each (print_file_line E) (last_n 5 files) ;;
    ret tt
  else print "  Data directory does not exist!".

End Job.

Import Job.


(* ===================================================================== *)
(** * A sample run

    A paper account holding 1000.0 in cash and no position, a clock that
    advances one second between two readings, and a file system that
    refuses nothing. *)
(* ===================================================================== *)

Module Sample.

(** The floats 1000.0 and 2000.0. *)
Definition f1000 : float := mkFloat 4652007308841189376.
Definition f2000 : float := mkFloat 4656510908468559872.

Definition account : Account :=
  mkAccount (PUUID (mkUUID 24197857200151252728969465429440056815))
    (PFloat f1000) (PFloat f1000) (PFloat f2000) (PStr "USD") (PStr "ACTIVE")
    (PBool false) (PFloat f1000).

Definition env_vars (name : string) : option string :=
  if String.eqb name "ALPACA_API_KEY" then Some "PK-SAMPLE"
  else if String.eqb name "ALPACA_SECRET_KEY" then Some "sample-secret"
  else None.

Definition to_float (x : pyval) : result float :=
  match x with
  | PFloat f => Ok f
  | _ => Raise (TypeError "float() argument must be a string or a real number")
  end.

Definition repr (f : float) : string :=
  if float_bits f =? float_bits f1000 then "1000.0"
  else if float_bits f =? float_bits f2000 then "2000.0"
  else "0.0".

Definition env : Env :=
  mkEnv env_vars
    (fun n => mk_datetime 2024 1 1 0 0 0 0 + Z.of_nat n * us_per_second)
    (Ok "/srv/app") "/srv/app/dashboard/update_jobs/positions_job.py"
    to_float repr (fun _ => "<object>")
    (fun t => Ok (t * us_per_second)) (fun n => Z.of_nat n)
    (fun _ => None) (fun _ => Ok account) (fun _ => Ok [])
    (fun _ => None) (fun _ => None) (fun _ => None) None.

Definition start : State := mkState 0 [] [] [] (Some []) [].

(** The same machine without credentials. *)
Definition env_no_key : Env :=
  mkEnv (fun _ => None) (utc_clock env) (getcwd env) (script_file env)
    (builtin_float env) (float_repr env) (object_str env) (fromtimestamp env)
    (mtime_at env) (client_init env) (account_of env) (positions_of env)
    (open_error env) (write_error env) (stat_error env) (exists_error env).

(** The same machine with a read-only snapshot directory. *)
Definition env_read_only : Env :=
  mkEnv (environ env) (utc_clock env) (getcwd env) (script_file env)
    (builtin_float env) (float_repr env) (object_str env) (fromtimestamp env)
    (mtime_at env) (client_init env) (account_of env) (positions_of env)
    (fun name => Some (mkExn "PermissionError"
                         ("[Errno 13] Permission denied: "
                          ++ "'/srv/app/dashboard/data/snapshots/" ++ name ++ "'")))
    (write_error env) (stat_error env) (exists_error env).

End Sample.

(* ===================================================================== *)
(** * The vocabulary of the properties *)
(* ===================================================================== *)

(** A computation that leaves the state alone: its outcome is the same in
    every state. *)
Definition pure {A} (c : M A) : Prop := exists r, forall st, c st = (r, st).

(** The state after [n] more readings of the clock and the printing of
    [out]. *)
Definition later (n : nat) (out : list string) (st : State) : State :=
  mkState (n + ticks st) (stdout st ++ out) (stderr st) (api_log st)
    (snapshots st) (elsewhere st).

(** [reads n c]: [c] never raises, reads the clock [n] times and changes
    nothing but [stdout]. *)
Definition reads (n : nat) {A} (c : M A) : Prop :=
  forall st, exists a out, c st = (Ok a, later n out st).

(** [quiet n c]: [c] changes nothing but [stdout] and the clock, which it
    has read [n] times when it returns, and [n] times at most when it
    raises. *)
Definition quiet (n : nat) {A} (c : M A) : Prop :=
  forall st,
    match c st with
    | (Ok _, s) => exists out, s = later n out st
    | (Raise _, s) => exists m out, (m <= n)%nat /\ s = later m out st
    end.

(** The client the job builds from its configuration. *)
Definition job_client (E : Env) (key secret : string) : TradingClient :=
  mkClient key secret (ALPACA_PAPER E).

(** The record [fetch_alpaca_data] assembles. *)
Definition snapshot_record (account : Account)
    (cash portfolio_value buying_power equity : float)
    (updated_at : datetime) (positions_data : list pyval) (cash' : float)
    (timestamp : datetime) : pyval :=
  PDict [
    (KStr "account", PDict [
      (KStr "id", acc_id account);
      (KStr "cash", PFloat cash);
      (KStr "portfolio_value", PFloat portfolio_value);
      (KStr "buying_power", PFloat buying_power);
      (KStr "currency", acc_currency account);
      (KStr "account_status", acc_status account);
      (KStr "trading_blocked", acc_trading_blocked account);
      (KStr "equity", PFloat equity);
      (KStr "updated_at", PStr (isoformat updated_at))]);
    (KStr "positions", PList positions_data);
    (KStr "cash", PFloat cash');
    (KStr "timestamp", PStr (isoformat timestamp))].

(** Two bytes that are equal, or the two cases of one letter. *)
Definition same_letter (a b : ascii) : bool :=
  Ascii.eqb a b
  || (is_upper a && (nat_of_ascii a + 32 =? nat_of_ascii b)%nat)
  || (is_upper b && (nat_of_ascii b + 32 =? nat_of_ascii a)%nat).

(** Equality of two strings, compared case-insensitively. *)
Fixpoint caseless_eqb (s t : string) : bool :=
  match s, t with
  | EmptyString, EmptyString => true
  | String a s', String b t' => same_letter a b && caseless_eqb s' t'
  | _, _ => false
  end.

(** The sample run, step by step: the state and the record after the
    fetch, and the state after the record was saved. *)
Module SampleRun.

Definition record : pyval :=
  snapshot_record Sample.account Sample.f1000 Sample.f1000 Sample.f2000
    Sample.f1000 (mk_datetime 2024 1 1 8 0 0 0) [] Sample.f1000
    (mk_datetime 2024 1 1 8 0 1 0).

Definition after_fetch : State :=
  Eval vm_compute in snd (fetch_alpaca_data Sample.env Sample.start).

Definition after_save : State :=
  Eval vm_compute in snd (save_data Sample.env record "default" after_fetch).

End SampleRun.

(** A variable that is absent from the environment, or empty. *)
Definition missing (E : Env) (name : string) : Prop :=
  environ E name = None \/ environ E name = Some "".

(** The exception [fetch_alpaca_data] raises for it. *)
Definition credential_error : exn := ValueError "Missing Alpaca API credentials".

(** What [run_job] makes of the outcome of its [try:] block. *)
Definition run_job_outcome (r : result (bool * string) * State)
  : result (bool * string) * State :=
  match r with
  | (Ok v, s) => (Ok v, s)
  | (Raise e, s) =>
      (Ok (false, run_job_error_prefix ++ exn_str e),
       mkState (ticks s)
         (stdout s ++ [run_job_error_prefix ++ exn_str e; "Full traceback:"])
         (stderr s ++ [e]) (api_log s) (snapshots s) (elsewhere s))
  end.

(** The state in which [run_job] calls [fetch_alpaca_data], and the one in
    which it goes on to [save_data] after a fetch that ended in [s]. *)
Definition state_at_fetch (E : Env) (st : State) : State :=
  snd ((debug_environment E ;; print "Starting Alpaca data fetch...") st).

Definition state_at_save (s : State) : State :=
  snd (print "Data fetch successful, saving to file..." s).

(** The eight hours [get_malaysia_time] adds. *)
Definition utc8 (t : datetime) : datetime := t + 8 * 3600 * 1000000.

(** The file name [save_data] makes up when called in state [st]: the
    clock is read there, once. *)
Definition snapshot_filename (E : Env) (agent_name : string) (st : State)
  : string :=
  agent_name ++ "_" ++ strftime_Ymd_HMS (utc8 (utc_clock E (ticks st))) ++ ".json".

(** The path it joins from it, as a path and as it is printed, and the name
    under which the state keeps the file. *)
Definition snapshot_file (E : Env) (agent_name : string) (st : State) : Path :=
  joinpath (DATA_DIR E) (snapshot_filename E agent_name st).

Definition snapshot_path (E : Env) (agent_name : string) (st : State) : string :=
  path_str (snapshot_file E agent_name st).

Definition snapshot_name (E : Env) (agent_name : string) (st : State) : string :=
  file_key (DATA_DIR E) (snapshot_file E agent_name st).

(** The state in which the [try:] block of [save_data] starts. *)
Definition state_at_open (E : Env) (agent_name : string) (st : State) : State :=
  later 1 ["Attempting to save data to: " ++ snapshot_path E agent_name st] st.

(** The state after the handler of [save_data] has printed the error. *)
Definition error_logged (e : exn) (s : State) : State :=
  mkState (ticks s) (stdout s ++ [save_error_prefix ++ exn_str e]) (stderr s)
    (api_log s) (snapshots s) (elsewhere s).

(** How opening and writing the file [name] can fail in state [st], with
    the exception raised and the content the file is left with ([None]:
    there is no such file). *)
Inductive write_failure (E : Env) (data : pyval) (path name : string)
    (st : State) : exn -> option string -> Prop :=
| no_directory :
    has_place name st = false ->
    write_failure E data path name st
      (FileNotFoundError ("[Errno 2] No such file or directory: '" ++ path ++ "'"))
      None
| open_refused e :
    has_place name st = true ->
    open_error E name = Some e ->
    write_failure E data path name st e
      (option_map f_content (read_snapshot name st))
| write_interrupted n e :
    has_place name st = true ->
    open_error E name = None ->
    write_error E name = Some (n, e) ->
    (n < String.length (fst (json_dump E data)))%nat ->
    write_failure E data path name st e (Some (take n (fst (json_dump E data))))
| encoding_failed e :
    has_place name st = true ->
    open_error E name = None ->
    (forall n e', write_error E name = Some (n, e') ->
                  (String.length (fst (json_dump E data)) <= n)%nat) ->
    snd (json_dump E data) = Some e ->
    write_failure E data path name st e (Some (fst (json_dump E data))).

(** A record the encoder cannot finish: its second value is an object of
    a class [json] does not know. *)
Definition unserializable_record : pyval :=
  PDict [(KStr "a", PInt 1); (KStr "b", PObj "Decimal")].

(** C3 as the specification words it: the stamp in the file name would be
    the capture time of the record, the instant its timestamp field holds. *)
Definition filename_carries_record_time : Prop :=
  forall E st data s1 agent path s2 T,
    fetch_alpaca_data E st = (Ok data, s1) ->
    save_data E data agent s1 = (Ok path, s2) ->
    dict_get "timestamp" data = Some (PStr (isoformat T)) ->
    path_str path
    = path_str (DATA_DIR E) ++ "/" ++ agent ++ "_" ++ strftime_Ymd_HMS T ++ ".json".

Section PyvalInduction.

Variable P : pyval -> Prop.
Hypothesis P_none : P PNone.
Hypothesis P_bool : forall b, P (PBool b).
Hypothesis P_int : forall n, P (PInt n).
Hypothesis P_float : forall f, P (PFloat f).
Hypothesis P_str : forall s, P (PStr s).
Hypothesis P_list : forall l, Forall P l -> P (PList l).
Hypothesis P_dict : forall d, Forall (fun kv => P (snd kv)) d -> P (PDict d).
Hypothesis P_uuid : forall u, P (PUUID u).
Hypothesis P_obj : forall cls, P (PObj cls).

(** Induction on a value, with the property at hand for every member of a
    list and every value of a dictionary. *)
Fixpoint pyval_nested_ind (v : pyval) : P v :=
  match v with
  | PNone => P_none
  | PBool b => P_bool b
  | PInt n => P_int n
  | PFloat f => P_float f
  | PStr s => P_str s
  | PList l =>
      P_list l
        ((fix members (l : list pyval) : Forall P l :=
            match l with
            | [] => Forall_nil P
            | x :: r => Forall_cons x (pyval_nested_ind x) (members r)
            end) l)
  | PDict d =>
      P_dict d
        ((fix members (d : list (pykey * pyval))
            : Forall (fun kv => P (snd kv)) d :=
            match d with
            | [] => Forall_nil _
            | (k, x) :: r =>
                Forall_cons (k, x) (pyval_nested_ind x) (members r)
            end) d)
  | PUUID u => P_uuid u
  | PObj cls => P_obj cls
  end.

End PyvalInduction.

(** The record with every UUID among its values replaced by [str] of it. *)
Fixpoint uuids_as_str (v : pyval) : pyval :=
  match v with
  | PUUID u => PStr (uuid_str u)
  | PList l => PList (map uuids_as_str l)
  | PDict d => PDict (map (fun kv : pykey * pyval => let (k, x) := kv in (k, uuids_as_str x)) d)
  | _ => v
  end.

(** Whether an object of a class the encoder does not know -- not a UUID,
    not a JSON-native value -- occurs among the values of a record. *)
Fixpoint has_object (v : pyval) : bool :=
  match v with
  | PObj _ => true
  | PList l => existsb has_object l
  | PDict d => existsb (fun kv : pykey * pyval => let (_, x) := kv in has_object x) d
  | _ => false
  end.

(** A printable ASCII character other than the quote and the backslash:
    [py_encode_basestring_ascii] copies it. *)
Definition plain_char (c : ascii) : bool :=
  let n := byte c in
  (32 <=? n) && (n <=? 126) && negb (n =? 34) && negb (n =? 92).

(** A string of such characters. *)
Fixpoint plain (s : string) : bool :=
  match s with
  | EmptyString => true
  | String c r => plain_char c && plain r
  end.

Definition is_TypeError (e : exn) : Prop := exn_class e = "TypeError".

(** ** Further vocabulary *)

(** [c] leaves the part [proj] of the state as it found it, whether it
    returns or raises. *)
Definition preserves {X A} (proj : State -> X) (c : M A) : Prop :=
  forall st, proj (snd (c st)) = proj st.

(** A part of the state that does not depend on what was printed, on the
    clock readings made, or on the calls recorded. *)
Definition ignores_stdout {X} (proj : State -> X) : Prop :=
  forall t o o' e a f g,
    proj (mkState t o e a f g) = proj (mkState t o' e a f g).

Definition ignores_ticks {X} (proj : State -> X) : Prop :=
  forall t t' o e a f g,
    proj (mkState t o e a f g) = proj (mkState t' o e a f g).

Definition ignores_api_log {X} (proj : State -> X) : Prop :=
  forall t o e a a' f g,
    proj (mkState t o e a f g) = proj (mkState t o e a' f g).

(** The dictionary [fetch_alpaca_data] appends for one position. *)
Definition position_record (position : Position)
    (qty market_value cost_basis unrealized_pl unrealized_plpc current_price
     avg_entry_price : float) : pyval :=
  PDict [
    (KStr "symbol", pos_symbol position);
    (KStr "qty", PFloat qty);
    (KStr "market_value", PFloat market_value);
    (KStr "cost_basis", PFloat cost_basis);
    (KStr "unrealized_pl", PFloat unrealized_pl);
    (KStr "unrealized_plpc", PFloat unrealized_plpc);
    (KStr "current_price", PFloat current_price);
    (KStr "avg_entry_price", PFloat avg_entry_price);
    (KStr "side", pos_side position);
    (KStr "exchange", pos_exchange position)].

(** [d] is the dictionary of [position]: its seven numeric attributes
    converted by [float], the three others as they are. *)
Definition converts (E : Env) (position : Position) (d : pyval) : Prop :=
  exists qty market_value cost_basis unrealized_pl unrealized_plpc
         current_price avg_entry_price,
    builtin_float E (pos_qty position) = Ok qty /\
    builtin_float E (pos_market_value position) = Ok market_value /\
    builtin_float E (pos_cost_basis position) = Ok cost_basis /\
    builtin_float E (pos_unrealized_pl position) = Ok unrealized_pl /\
    builtin_float E (pos_unrealized_plpc position) = Ok unrealized_plpc /\
    builtin_float E (pos_current_price position) = Ok current_price /\
    builtin_float E (pos_avg_entry_price position) = Ok avg_entry_price /\
    d = position_record position qty market_value cost_basis unrealized_pl
          unrealized_plpc current_price avg_entry_price.

(** What a fetch that returns has printed. *)
Definition fetch_output (E : Env) (account : Account) (n : nat) : list string :=
  ["Initializing Alpaca client...";
   "Fetching account data...";
   "Account data fetched - Portfolio value: $"
   ++ str_ E (acc_portfolio_value account);
   "Fetching positions...";
   "Positions fetched - " ++ int_str (Z.of_nat n) ++ " positions found"].

(** The three things a fetch does with the client library, in order. *)
Definition fetch_calls (c : TradingClient) : list api_event :=
  [ClientCreated c; GetAccount c; GetAllPositions c].

(** [c] adds the events [L] to the log of API calls, in this order, and
    stops short of the rest of them when it raises. *)
Definition logs (L : list api_event) {A} (c : M A) : Prop :=
  forall st,
    match c st with
    | (Ok _, s) => api_log s = (api_log st ++ L)%list
    | (Raise _, s) => exists n, api_log s = (api_log st ++ firstn n L)%list
    end.

(** The client of the job, as the environment configures it. *)
Definition configured_client (E : Env) : TradingClient :=
  mkClient (os_getenv_default E "ALPACA_API_KEY" "")
    (os_getenv_default E "ALPACA_SECRET_KEY" "") (ALPACA_PAPER E).

(** What a save that returns has printed, after the line that announces
    the attempt. *)
Definition save_output (path text : string) : list string :=
  ["✅ Successfully saved data to " ++ path;
   "File size: " ++ int_str (Z.of_nat (String.length text)) ++ " bytes"].

(** The names of the entries of the snapshot directory. *)
Definition snapshot_names (st : State) : list string :=
  match snapshots st with
  | Some l => map fst l
  | None => []
  end.

(** Further sample machines: a portfolio of two positions, a broker that
    refuses the account request, and a position whose quantity is missing. *)
Module Sample2.

Definition aapl : Position :=
  mkPosition (PStr "AAPL") (PFloat Sample.f2000) (PFloat Sample.f1000)
    (PFloat Sample.f1000) (PFloat Sample.f1000) (PFloat Sample.f1000)
    (PFloat Sample.f1000) (PFloat Sample.f1000) (PStr "long") (PStr "NASDAQ").

Definition tsla : Position :=
  mkPosition (PStr "TSLA") (PFloat Sample.f1000) (PFloat Sample.f2000)
    (PFloat Sample.f2000) (PFloat Sample.f1000) (PFloat Sample.f1000)
    (PFloat Sample.f2000) (PFloat Sample.f2000) (PStr "short") (PStr "NASDAQ").

Definition no_qty : Position :=
  mkPosition (PStr "MSFT") PNone (PFloat Sample.f1000)
    (PFloat Sample.f1000) (PFloat Sample.f1000) (PFloat Sample.f1000)
    (PFloat Sample.f1000) (PFloat Sample.f1000) (PStr "long") (PStr "NASDAQ").

Definition with_broker (account : TradingClient -> result Account)
    (positions : TradingClient -> result (list Position)) : Env :=
  mkEnv (environ Sample.env) (utc_clock Sample.env) (getcwd Sample.env)
    (script_file Sample.env) (builtin_float Sample.env)
    (float_repr Sample.env) (object_str Sample.env)
    (fromtimestamp Sample.env) (mtime_at Sample.env)
    (client_init Sample.env) account positions
    (open_error Sample.env) (write_error Sample.env) (stat_error Sample.env)
    (exists_error Sample.env).

Definition env_two_positions : Env :=
  with_broker (fun _ => Ok Sample.account) (fun _ => Ok [aapl; tsla]).

Definition forbidden : exn := mkExn "APIError" "forbidden.".

Definition env_account_refused : Env :=
  with_broker (fun _ => Raise forbidden) (fun _ => Ok []).

Definition env_positions_refused : Env :=
  with_broker (fun _ => Ok Sample.account) (fun _ => Raise forbidden).

Definition env_no_qty : Env :=
  with_broker (fun _ => Ok Sample.account) (fun _ => Ok [aapl; no_qty]).

Definition client : TradingClient := mkClient "PK-SAMPLE" "sample-secret" true.

End Sample2.

(** The dictionaries of the two sample positions. *)
Definition aapl_record : pyval :=
  position_record Sample2.aapl Sample.f2000 Sample.f1000 Sample.f1000
    Sample.f1000 Sample.f1000 Sample.f1000 Sample.f1000.

Definition tsla_record : pyval :=
  position_record Sample2.tsla Sample.f1000 Sample.f2000 Sample.f2000
    Sample.f1000 Sample.f1000 Sample.f2000 Sample.f2000.

(** The sample portfolio, fetched. *)
Module Sample2Run.

Definition record : pyval :=
  snapshot_record Sample.account Sample.f1000 Sample.f1000 Sample.f2000
    Sample.f1000 (mk_datetime 2024 1 1 8 0 0 0) [aapl_record; tsla_record]
    Sample.f1000 (mk_datetime 2024 1 1 8 0 1 0).

Definition after_fetch : State :=
  Eval vm_compute in
    snd (fetch_alpaca_data Sample2.env_two_positions Sample.start).

End Sample2Run.

(** A machine whose clock advances by a millisecond between two readings,
    and the state after a first record was saved on it. *)
Module Sample3.

Definition env : Env :=
  mkEnv (environ Sample.env)
    (fun n => mk_datetime 2024 1 1 0 0 0 0 + Z.of_nat n * 1000)
    (getcwd Sample.env) (script_file Sample.env) (builtin_float Sample.env)
    (float_repr Sample.env) (object_str Sample.env)
    (fromtimestamp Sample.env) (mtime_at Sample.env)
    (client_init Sample.env) (account_of Sample.env) (positions_of Sample.env)
    (open_error Sample.env) (write_error Sample.env) (stat_error Sample.env)
    (exists_error Sample.env).

Definition first : pyval := PDict [(KStr "cash", PInt 1)].
Definition second : pyval := PDict [(KStr "cash", PInt 2)].

Definition after_first : State :=
  Eval vm_compute in snd (save_data env first "default" Sample.start).

Definition after_second : State :=
  Eval vm_compute in snd (save_data env second "default" after_first).

End Sample3.

(** A machine in whose snapshot directory the entry latest.json is a link
    to a file that is gone: the listing shows it, and [stat] fails on it. *)
Module Sample4.

Definition gone : exn :=
  FileNotFoundError
    "[Errno 2] No such file or directory: '/srv/app/dashboard/data/snapshots/latest.json'".

Definition with_environ (vars : string -> option string) : Env :=
  mkEnv vars (utc_clock Sample.env) (getcwd Sample.env)
    (script_file Sample.env) (builtin_float Sample.env)
    (float_repr Sample.env) (object_str Sample.env)
    (fromtimestamp Sample.env) (mtime_at Sample.env)
    (client_init Sample.env) (account_of Sample.env) (positions_of Sample.env)
    (open_error Sample.env) (write_error Sample.env)
    (fun name => if String.eqb name "latest.json" then Some gone else None)
    (exists_error Sample.env).

Definition env : Env := with_environ (environ Sample.env).
Definition env_no_key : Env := with_environ (fun _ => None).

Definition start : State :=
  mkState 0 [] [] [] (Some [("latest.json", mkFile "" 0)]) [].

End Sample4.

(** A key the encoder accepts: a string, a number, a boolean or [None]. *)
Definition basic_key (k : pykey) : bool :=
  match k with
  | KObj _ => false
  | _ => true
  end.

(** A record made of JSON-native values and UUIDs, under keys the encoder
    accepts. *)
Fixpoint serializable (v : pyval) : bool :=
  match v with
  | PObj _ => false
  | PList l => forallb serializable l
  | PDict d =>
      forallb (fun kv : pykey * pyval =>
                 let (k, x) := kv in basic_key k && serializable x) d
  | _ => true
  end.

(** The attributes of a position [fetch_alpaca_data] copies as they are. *)
Definition position_passes (p : Position) : bool :=
  serializable (pos_symbol p) && serializable (pos_side p)
  && serializable (pos_exchange p).

(** The same for the account. *)
Definition account_passes (a : Account) : bool :=
  serializable (acc_id a) && serializable (acc_currency a)
  && serializable (acc_status a) && serializable (acc_trading_blocked a).

(** The state the sample machine is in after one run of the job. *)
Definition sample_after_job : State :=
  Eval vm_compute in snd (run_job Sample.env "default" Sample.start).

(** The files [debug_environment] shows: the last three by time of
    modification. *)
Definition recent_files (files : list (string * file)) : list (string * file) :=
  last_n 3 (sorted_by_mtime files).

(** One file is not more recent than the other. *)
Definition older (f g : string * file) : Prop :=
  f_mtime (snd f) <= f_mtime (snd g).

(** What [DATA_DIR.glob("*.json")] lists in state [st]. *)
Definition json_files (st : State) : list (string * file) :=
  match snapshots st with
  | Some l => filter (fun nf => endswith (fst nf) ".json") l
  | None => []
  end.

(** What stops the printing of the line of a listed file: its [stat], or
    the conversion of its time. *)
Definition unreadable (E : Env) (x : string * file) (e : exn) : Prop :=
  stat_error E (fst x) = Some e \/ fromtimestamp E (f_mtime (snd x)) = Raise e.

(** The state in which the script body calls [run_job]. *)
Definition state_at_job (E : Env) (st : State) : State :=
  later 1 ["Starting positions job at "
           ++ datetime_str (utc8 (utc_clock E (ticks st)))] st.

(* ===================================================================== *)
(** * Properties *)
(* ===================================================================== *)

(** ** Computations that leave the state alone *)

Lemma pure_ret {A} (a : A) : pure (ret a).
Proof. exists (Ok a). reflexivity. Qed.

Lemma pure_lift {A} (r : result A) : pure (lift r).
Proof. exists r. reflexivity. Qed.

Lemma pure_bind {A B} (c : M A) (k : A -> M B) :
  pure c -> (forall a, pure (k a)) -> pure (bind c k).
Proof.
  intros [r Hc] Hk. destruct r as [a | e].
  - destruct (Hk a) as [r' Hr']. exists r'. intro st.
    unfold bind. rewrite Hc. apply Hr'.
  - exists (Raise e). intro st. unfold bind. rewrite Hc. reflexivity.
Qed.

Lemma pure_position_data E position : pure (position_data E position).
Proof.
  unfold position_data, float_.
  repeat (apply pure_bind; [apply pure_lift | intro]).
  apply pure_ret.
Qed.

Lemma pure_for_each {A B} (f : A -> M B) (l : list A) :
  (forall a, pure (f a)) -> pure (for_each f l).
Proof.
  intro Hf. induction l as [| a r IH]; simpl.
  - apply pure_ret.
  - apply pure_bind; [apply Hf | intro b].
    apply pure_bind; [apply IH | intro bs]. apply pure_ret.
Qed.

(** The loop over the positions yields one dictionary for each of them. *)
Lemma for_each_length {A B} (f : A -> M B) (l : list A) st bs st' :
  for_each f l st = (Ok bs, st') -> List.length bs = List.length l.
Proof.
  revert st bs st'. induction l as [| a r IH]; simpl; intros st bs st' H.
  - inversion H. reflexivity.
  - unfold bind in H. destruct (f a st) as [[b | e] s1]; [| discriminate].
    destruct (for_each f r s1) as [[bs' | e] s2] eqn:Hr; [| discriminate].
    inversion H; subst. simpl. f_equal. eapply IH. exact Hr.
Qed.

(** ** Computations that only read the clock and print *)

Lemma later_0_nil st : later 0 [] st = st.
Proof. unfold later. rewrite app_nil_r. destruct st; reflexivity. Qed.

Lemma later_later n m o1 o2 st :
  later m o2 (later n o1 st) = later (n + m) (o1 ++ o2) st.
Proof.
  unfold later; simpl. rewrite <- app_assoc. f_equal. lia.
Qed.

Lemma reads_print s : reads 0 (print s).
Proof. intro st. exists tt, [s]. reflexivity. Qed.

Lemma reads_ret {A} (a : A) : reads 0 (ret a).
Proof. intro st. exists a, []. unfold ret. rewrite later_0_nil. reflexivity. Qed.

Lemma reads_bind n m {A B} (c : M A) (k : A -> M B) :
  reads n c -> (forall a, reads m (k a)) -> reads (n + m) (bind c k).
Proof.
  intros Hc Hk st. destruct (Hc st) as (a & o1 & E1).
  destruct (Hk a (later n o1 st)) as (b & o2 & E2).
  exists b, (o1 ++ o2)%list. unfold bind. rewrite E1, E2.
  rewrite later_later. reflexivity.
Qed.

Lemma reads_for_each {A B} (f : A -> M B) (l : list A) :
  (forall a, reads 0 (f a)) -> reads 0 (for_each f l).
Proof.
  intro Hf. induction l as [| a r IH]; simpl.
  - apply reads_ret.
  - apply (reads_bind 0 0); [apply Hf | intro b].
    apply (reads_bind 0 0); [apply IH | intro bs]. apply reads_ret.
Qed.

Lemma reads_glob_json : reads 0 glob_json.
Proof.
  intro st. eexists; exists []. unfold glob_json. rewrite later_0_nil.
  reflexivity.
Qed.

Lemma reads_utcnow E : reads 1 (utcnow E).
Proof.
  intro st. eexists; exists []. unfold utcnow, later. rewrite app_nil_r.
  reflexivity.
Qed.

(** [get_malaysia_time] reads the clock once and adds eight hours. *)
Lemma get_malaysia_time_run E st :
  get_malaysia_time E st
  = (Ok (utc_clock E (ticks st) + 8 * 3600 * 1000000), later 1 [] st).
Proof.
  unfold get_malaysia_time, bind, utcnow, ret, later, datetime_add,
    timedelta_hours, us_per_second.
  rewrite app_nil_r. reflexivity.
Qed.

Lemma reads_get_malaysia_time E : reads 1 (get_malaysia_time E).
Proof. intro st. rewrite get_malaysia_time_run. eauto. Qed.

Create HintDb reads.

#[local] Hint Resolve reads_print reads_ret reads_glob_json
  reads_utcnow reads_get_malaysia_time : reads.

(** ** Computations that print, read the clock, and may raise *)

Lemma quiet_of_reads n {A} (c : M A) : reads n c -> quiet n c.
Proof.
  intros H st. destruct (H st) as (a & out & ->). exists out. reflexivity.
Qed.

Lemma quiet_lift {A} (r : result A) : quiet 0 (lift r).
Proof.
  intro st. unfold lift. destruct r as [a | e].
  - exists []. symmetry. apply later_0_nil.
  - exists 0%nat, []. split; [lia | symmetry; apply later_0_nil].
Qed.

Lemma quiet_raise {A} e : quiet 0 (@raise A e).
Proof.
  intro st. unfold raise. exists 0%nat, [].
  split; [lia | symmetry; apply later_0_nil].
Qed.

Lemma quiet_bind n m {A B} (c : M A) (k : A -> M B) :
  quiet n c -> (forall a, quiet m (k a)) -> quiet (n + m) (bind c k).
Proof.
  intros Hc Hk st. unfold bind. specialize (Hc st).
  destruct (c st) as [[a | e] s].
  - destruct Hc as [o1 ->]. specialize (Hk a (later n o1 st)).
    destruct (k a (later n o1 st)) as [[b | e] s'].
    + destruct Hk as [o2 ->]. exists (o1 ++ o2)%list. apply later_later.
    + destruct Hk as (m' & o2 & Hm & ->). exists (n + m')%nat, (o1 ++ o2)%list.
      split; [lia | apply later_later].
  - destruct Hc as (n' & o1 & Hn & ->). exists n', o1. split; [lia | reflexivity].
Qed.

Lemma quiet_for_each {A B} (f : A -> M B) (l : list A) :
  (forall a, quiet 0 (f a)) -> quiet 0 (for_each f l).
Proof.
  intro Hf. induction l as [| a r IH]; simpl.
  - apply quiet_of_reads, reads_ret.
  - apply (quiet_bind 0 0); [apply Hf | intro b].
    apply (quiet_bind 0 0); [apply IH | intro bs].
    apply quiet_of_reads, reads_ret.
Qed.

Lemma quiet_dir_exists E : quiet 0 (dir_exists E).
Proof.
  intro st. unfold dir_exists. destruct (exists_error E).
  - exists 0%nat, []. split; [lia | symmetry; apply later_0_nil].
  - exists []. symmetry. apply later_0_nil.
Qed.

Lemma quiet_stat_mtime E x : quiet 0 (stat_mtime E x).
Proof.
  unfold stat_mtime. destruct (stat_error E (fst x)).
  - apply quiet_raise.
  - apply quiet_of_reads, reads_ret.
Qed.

Lemma quiet_print_file_line E f : quiet 0 (print_file_line E f).
Proof.
  unfold print_file_line.
  apply (quiet_bind 0 0); [apply quiet_stat_mtime | intro t].
  apply (quiet_bind 0 0); [apply quiet_lift | intro d].
  apply quiet_of_reads, reads_print.
Qed.

Lemma quiet_sorted_by_stat E files : quiet 0 (sorted_by_stat E files).
Proof.
  unfold sorted_by_stat.
  apply (quiet_bind 0 0); [| intros _; apply quiet_of_reads, reads_ret].
  apply quiet_for_each. intro x. apply quiet_stat_mtime.
Qed.

Create HintDb quiet.

#[local] Hint Resolve quiet_lift quiet_raise quiet_dir_exists quiet_stat_mtime
  quiet_print_file_line quiet_sorted_by_stat : quiet.
#[local] Hint Extern 1 (quiet _ _) =>
  apply quiet_of_reads; solve [auto with reads] : quiet.

(** [debug_environment] prints; it has read the clock twice when it
    returns. *)
Lemma quiet_debug_environment E : quiet 2 (debug_environment E).
Proof.
  unfold debug_environment.
  apply (quiet_bind 0 2); [auto with quiet | intros _].
  apply (quiet_bind 0 2); [auto with quiet | intro cwd].
  repeat (apply (quiet_bind 0 2); [auto with quiet | intros _]).
  apply (quiet_bind 0 2); [auto with quiet | intro ex].
  apply (quiet_bind 0 2); [auto with quiet | intros _].
  apply (quiet_bind 1 1); [auto with quiet | intro utc].
  apply (quiet_bind 0 1); [auto with quiet | intros _].
  apply (quiet_bind 1 0); [auto with quiet | intro my].
  repeat (apply (quiet_bind 0 0); [auto with quiet | intros _]).
  apply (quiet_bind 0 0); [auto with quiet | intro ex'].
  apply (quiet_bind 0 0); [| intros _; auto with quiet].
  destruct ex'; [| auto with quiet].
  apply (quiet_bind 0 0); [auto with quiet | intro files].
  apply (quiet_bind 0 0); [auto with quiet | intros _].
  destruct files; [auto with quiet |].
  apply (quiet_bind 0 0); [auto with quiet | intro sorted_files].
  apply (quiet_bind 0 0); [auto with quiet | intros _].
  apply (quiet_bind 0 0); [| intros _; auto with quiet].
  apply quiet_for_each. intro f. apply quiet_print_file_line.
Qed.

(** A [debug_environment] that returns has read the clock twice and
    printed. *)
Lemma debug_environment_ok E st s0 :
  debug_environment E st = (Ok tt, s0) -> exists out, s0 = later 2 out st.
Proof.
  intro H. pose proof (quiet_debug_environment E st) as Hq.
  rewrite H in Hq. exact Hq.
Qed.

(** ** What a successful fetch went through *)

Lemma bind_ok_inv {A B} (c : M A) (k : A -> M B) st b st' :
  bind c k st = (Ok b, st') ->
  exists a s, c st = (Ok a, s) /\ k a s = (Ok b, st').
Proof.
  unfold bind. destruct (c st) as [[a | e] s]; [| discriminate].
  intro H. exists a, s. split; [reflexivity | exact H].
Qed.

Lemma lift_ok_inv {A} (r : result A) st a s :
  lift r st = (Ok a, s) -> r = Ok a /\ s = st.
Proof. unfold lift. intro H. inversion H. auto. Qed.

(** Splits the first step off a run that returned. *)
Ltac bind_inv H a s Hstep :=
  apply bind_ok_inv in H; destruct H as (a & s & Hstep & H).

(** The same for a [print], whose effect is known. *)
Ltac print_inv H :=
  let a := fresh "u" in
  let s := fresh "s" in
  let Hs := fresh "Hs" in
  let Ha := fresh "Ha" in
  let Hst := fresh "Hst" in
  bind_inv H a s Hs; unfold print in Hs; injection Hs as Ha Hst; subst a s.

(** The same for a conversion to [float]. *)
Ltac float_inv H f Hf :=
  let s := fresh "s" in
  bind_inv H f s Hf; unfold float_ in Hf; apply lift_ok_inv in Hf;
  destruct Hf as [Hf ?]; subst s.

Lemma fetch_ok_inv E st data st' :
  fetch_alpaca_data E st = (Ok data, st') ->
  exists key secret account positions positions_data cash pv bp equity out,
    ALPACA_API_KEY E = Some key /\ ALPACA_SECRET_KEY E = Some secret /\
    falsy (Some key) = false /\ falsy (Some secret) = false /\
    client_init E (job_client E key secret) = None /\
    account_of E (job_client E key secret) = Ok account /\
    positions_of E (job_client E key secret) = Ok positions /\
    builtin_float E (acc_cash account) = Ok cash /\
    builtin_float E (acc_portfolio_value account) = Ok pv /\
    builtin_float E (acc_buying_power account) = Ok bp /\
    builtin_float E (acc_equity account) = Ok equity /\
    List.length positions_data = List.length positions /\
    data = snapshot_record account cash pv bp equity
             (utc_clock E (ticks st) + 8 * 3600 * 1000000) positions_data cash
             (utc_clock E (S (ticks st)) + 8 * 3600 * 1000000) /\
    st' = mkState (2 + ticks st) (stdout st ++ out) (stderr st)
            (api_log st ++ [ClientCreated (job_client E key secret);
                            GetAccount (job_client E key secret);
                            GetAllPositions (job_client E key secret)])
            (snapshots st) (elsewhere st).
Proof.
  unfold fetch_alpaca_data. intro H.
  print_inv H.
  destruct (ALPACA_API_KEY E) as [key |] eqn:Hkey; [| discriminate H].
  destruct (ALPACA_SECRET_KEY E) as [secret |] eqn:Hsec; [| discriminate H].
  destruct (falsy (Some key) || falsy (Some secret)) eqn:Hf; [discriminate H |].
  apply orb_false_elim in Hf. destruct Hf as [Hfk Hfs].
  bind_inv H c s1 Hnew.
  unfold TradingClient_new in Hnew. fold (job_client E key secret) in Hnew.
  destruct (client_init E (job_client E key secret)) eqn:Hinit;
    [discriminate Hnew |].
  inversion Hnew; subst c s1; clear Hnew.
  print_inv H.
  bind_inv H account s2 Hacc.
  unfold get_account in Hacc. bind_inv Hacc u s3 Hrec.
  unfold record_api in Hrec; injection Hrec as _ Hrec; subst s3.
  apply lift_ok_inv in Hacc. destruct Hacc as [Hacc ?]; subst s2.
  float_inv H cash Hcash.
  float_inv H pv Hpv.
  float_inv H bp Hbp.
  float_inv H equity Hequity.
  bind_inv H updated_at s4 Hnow. rewrite get_malaysia_time_run in Hnow.
  inversion Hnow; subst updated_at s4; clear Hnow.
  print_inv H. print_inv H.
  bind_inv H positions s5 Hpos.
  unfold get_all_positions in Hpos. bind_inv Hpos u' s6 Hrec.
  unfold record_api in Hrec; injection Hrec as _ Hrec; subst s6.
  apply lift_ok_inv in Hpos. destruct Hpos as [Hpos ?]; subst s5.
  bind_inv H positions_data s7 Hloop.
  destruct (pure_for_each (position_data E) positions (pure_position_data E))
    as [r Hr].
  pose proof Hloop as Hlen. apply for_each_length in Hlen.
  rewrite Hr in Hloop. inversion Hloop; subst r s7; clear Hloop Hr.
  print_inv H.
  float_inv H cash' Hcash'.
  rewrite Hcash in Hcash'. inversion Hcash'; subst cash'; clear Hcash'.
  bind_inv H timestamp s8 Hnow. rewrite get_malaysia_time_run in Hnow.
  inversion Hnow; subst timestamp s8; clear Hnow.
  inversion H; subst data st'; clear H.
  exists key, secret, account, positions, positions_data, cash, pv, bp, equity.
  eexists. do 12 (split; [first [eassumption | reflexivity] |]).
  split; [reflexivity |].
  unfold later. cbn [ticks stdout stderr api_log snapshots elsewhere Nat.add]. f_equal.
  - repeat rewrite <- app_assoc. reflexivity.
  - repeat rewrite <- app_assoc. reflexivity.
Qed.

(** ** Paper-trading mode *)

Lemma lower_char_is (l c : ascii) :
  In l ["t"; "r"; "u"; "e"]%char ->
  Ascii.eqb (lower_char c) l = same_letter c l.
Proof.
  intros [<- | [<- | [<- | [<- | []]]]];
    destruct c as [[] [] [] [] [] [] [] []]; reflexivity.
Qed.

Lemma lower_is_true (v : string) :
  String.eqb (lower v) "true" = caseless_eqb v "true".
Proof.
  destruct v as [| c1 [| c2 [| c3 [| c4 [| c5 v]]]]];
    cbn [lower String.eqb caseless_eqb];
    repeat (rewrite lower_char_is by (simpl; tauto));
    repeat match goal with
           | |- context [same_letter ?c ?l] => destruct (same_letter c l)
           end; reflexivity.
Qed.

(** C7.  The paper-trading flag is true exactly when ALPACA_PAPER is unset,
    or set to a value that equals "true" when compared case-insensitively;
    with any other value the flag is false (live mode). *)
Theorem paper_mode_iff_unset_or_true (E : Env) :
  ALPACA_PAPER E = true <->
  (environ E "ALPACA_PAPER" = None \/
   exists v, environ E "ALPACA_PAPER" = Some v /\ caseless_eqb v "true" = true).
Proof.
  unfold ALPACA_PAPER, os_getenv_default.
  destruct (environ E "ALPACA_PAPER") as [v |].
  - rewrite lower_is_true. split.
    + intro H. right. exists v. split; [reflexivity | exact H].
    + intros [H | (v' & Hv & H)]; [discriminate H |].
      injection Hv as <-. exact H.
  - split; [intros _; left; reflexivity | intros _; reflexivity].
Qed.

(** ** Timestamps *)

(** C6.  [get_malaysia_time] returns the UTC reading of the clock plus
    eight hours (28800 seconds), whatever that reading is, and nothing else
    enters the result; both timestamps of a fetched record,
    account.updated_at and timestamp, are such readings in ISO format. *)
Theorem malaysia_time_is_utc_plus_8h (E : Env) (st : State) :
  get_malaysia_time E st
  = (Ok (utc_clock E (ticks st) + 28800 * 1000000),
     mkState (S (ticks st)) (stdout st) (stderr st) (api_log st) (snapshots st)
       (elsewhere st))
  /\
  forall data st',
    fetch_alpaca_data E st = (Ok data, st') ->
    (exists account_data,
        dict_get "account" data = Some account_data /\
        dict_get "updated_at" account_data
        = Some (PStr (isoformat (utc_clock E (ticks st) + 28800 * 1000000))))
    /\ dict_get "timestamp" data
       = Some (PStr (isoformat (utc_clock E (S (ticks st)) + 28800 * 1000000))).
Proof.
  split.
  - rewrite get_malaysia_time_run. unfold later. rewrite app_nil_r. reflexivity.
  - intros data st' H. apply fetch_ok_inv in H.
    destruct H as (key & secret & account & positions & positions_data & cash
                   & pv & bp & equity & out & _ & _ & _ & _ & _ & _ & _ & _ & _
                   & _ & _ & _ & Hdata & _).
    subst data. split.
    + eexists. split; reflexivity.
    + reflexivity.
Qed.

(** ** The fetched record *)

(** C5.  In the record of a successful fetch the top-level cash field
    equals the cash field of the account, and when the API reports no
    position the positions field is the empty sequence. *)
Theorem fetched_record_cash_and_positions (E : Env) (st st' : State)
    (data : pyval) (H : fetch_alpaca_data E st = (Ok data, st')) :
  (exists account_data cash,
      dict_get "account" data = Some account_data /\
      dict_get "cash" account_data = Some (PFloat cash) /\
      dict_get "cash" data = Some (PFloat cash))
  /\
  (forall key secret,
      ALPACA_API_KEY E = Some key ->
      ALPACA_SECRET_KEY E = Some secret ->
      positions_of E (mkClient key secret (ALPACA_PAPER E)) = Ok [] ->
      dict_get "positions" data = Some (PList [])).
Proof.
  apply fetch_ok_inv in H.
  destruct H as (key & secret & account & positions & positions_data & cash
                 & pv & bp & equity & out & Hkey & Hsec & _ & _ & _ & _ & Hpos
                 & _ & _ & _ & _ & Hlen & Hdata & _).
  subst data. split.
  - eexists. exists cash. repeat split; reflexivity.
  - intros key' secret' Hkey' Hsec' Hnone.
    rewrite Hkey in Hkey'. injection Hkey' as <-.
    rewrite Hsec in Hsec'. injection Hsec' as <-.
    unfold job_client in Hpos. rewrite Hpos in Hnone. injection Hnone as ->.
    destruct positions_data; [reflexivity | discriminate Hlen].
Qed.

Lemma sample_fetch_run :
  fetch_alpaca_data Sample.env Sample.start
  = (Ok SampleRun.record, SampleRun.after_fetch).
Proof. vm_compute. reflexivity. Qed.

Lemma sample_save_run :
  save_data Sample.env SampleRun.record "default" SampleRun.after_fetch
  = (Ok (Path_of "/srv/app/dashboard/data/snapshots/default_20240101_080002.json"),
     SampleRun.after_save).
Proof. vm_compute. reflexivity. Qed.

Lemma malaysia_time_is_utc_plus_8h_witness :
  exists account_data,
    dict_get "account" SampleRun.record = Some account_data /\
    dict_get "updated_at" account_data = Some (PStr "2024-01-01T08:00:00")
    /\ dict_get "timestamp" SampleRun.record = Some (PStr "2024-01-01T08:00:01").
Proof.
  destruct (proj2 (malaysia_time_is_utc_plus_8h Sample.env Sample.start)
              SampleRun.record SampleRun.after_fetch sample_fetch_run)
    as [(account_data & Ha & Hu) Ht].
  exists account_data. split; [exact Ha |]. split; [exact Hu | exact Ht].
Defined.

Lemma fetched_record_cash_and_positions_witness :
  fetch_alpaca_data Sample.env Sample.start
  = (Ok SampleRun.record, SampleRun.after_fetch)
  /\ dict_get "cash" SampleRun.record = Some (PFloat Sample.f1000)
  /\ dict_get "positions" SampleRun.record = Some (PList []).
Proof.
  pose proof (fetched_record_cash_and_positions Sample.env Sample.start
                SampleRun.after_fetch SampleRun.record sample_fetch_run)
    as [(account_data & cash & Ha & Hc & Hd) Hp].
  split; [exact sample_fetch_run |]. split.
  - reflexivity.
  - exact (Hp "PK-SAMPLE" "sample-secret" eq_refl eq_refl eq_refl).
Defined.

(** ** Missing credentials *)

Lemma missing_falsy E name : missing E name -> falsy (os_getenv E name) = true.
Proof. unfold os_getenv. intros [-> | ->]; reflexivity. Qed.

Lemma fetch_without_credentials E st :
  missing E "ALPACA_API_KEY" \/ missing E "ALPACA_SECRET_KEY" ->
  fetch_alpaca_data E st
  = (Raise credential_error, later 0 ["Initializing Alpaca client..."] st).
Proof.
  intro H. unfold fetch_alpaca_data, bind. cbn [print].
  assert (Hf : falsy (ALPACA_API_KEY E) || falsy (ALPACA_SECRET_KEY E) = true).
  { destruct H as [H | H]; apply missing_falsy in H;
      unfold ALPACA_API_KEY, ALPACA_SECRET_KEY; rewrite H;
      [reflexivity | apply orb_true_r]. }
  destruct (ALPACA_API_KEY E) as [key |]; [| reflexivity].
  destruct (ALPACA_SECRET_KEY E) as [secret |]; [| reflexivity].
  rewrite Hf. reflexivity.
Qed.

Lemma run_job_after_debug E agent st s0 :
  debug_environment E st = (Ok tt, s0) ->
  run_job E agent st = run_job_outcome (run_job_try E agent s0).
Proof.
  intro Hd. unfold run_job, bind at 1. rewrite Hd.
  unfold try_except, run_job_outcome.
  destruct (run_job_try E agent s0) as [[r | e] s]; [reflexivity |].
  unfold bind, print, print_exc, ret.
  cbn [ticks stdout stderr api_log snapshots elsewhere]. rewrite <- app_assoc. reflexivity.
Qed.

(** The [try:] block, by the outcome of its two steps. *)
Lemma run_job_try_run E agent s0 :
  run_job_try E agent s0
  = match fetch_alpaca_data E (snd (print "Starting Alpaca data fetch..." s0)) with
    | (Raise e, s) => (Raise e, s)
    | (Ok data, s) =>
        match save_data E data agent
                (snd (print "Data fetch successful, saving to file..." s)) with
        | (Raise e, s') => (Raise e, s')
        | (Ok _, s') => (Ok (true, success_msg), snd (print success_msg s'))
        end
    end.
Proof.
  unfold run_job_try, bind. cbn [print snd].
  destruct (fetch_alpaca_data E _) as [[data | e] s]; [| reflexivity].
  destruct (save_data E data agent _) as [[path | e] s']; reflexivity.
Qed.

(** An exception of [debug_environment] is one of [run_job]: the call
    comes before the [try:]. *)
Lemma run_job_debug_raises E agent st e s :
  debug_environment E st = (Raise e, s) -> run_job E agent st = (Raise e, s).
Proof. intro Hd. unfold run_job, bind at 1. rewrite Hd. reflexivity. Qed.

Lemma debug_environment_api_log E st :
  api_log (snd (debug_environment E st)) = api_log st.
Proof.
  pose proof (quiet_debug_environment E st) as Hq.
  destruct (debug_environment E st) as [[u | e] s]; cbn [snd].
  - destruct Hq as [out ->]. reflexivity.
  - destruct Hq as (m & out & _ & ->). reflexivity.
Qed.




(** ** The failure boundary of run_job *)

Lemma contains_suffix (p s : string) : contains s (p ++ s).
Proof.
  exists p, "". f_equal. induction s as [| c s IH]; simpl; [| rewrite <- IH];
    reflexivity.
Qed.



(** ** Paths *)

Lemma append_assoc_string (a b c : string) : a ++ b ++ c = (a ++ b) ++ c.
Proof. induction a as [| x a IH]; simpl; [| rewrite IH]; reflexivity. Qed.

Lemma append_nil_r_string (a : string) : a ++ "" = a.
Proof. induction a as [| x a IH]; simpl; [| rewrite IH]; reflexivity. Qed.

Lemma length_append s t :
  String.length (s ++ t) = (String.length s + String.length t)%nat.
Proof. induction s as [| c s IH]; simpl; [| rewrite IH]; reflexivity. Qed.

Lemma length_zero_pad w z : String.length (zero_pad w z) = w.
Proof.
  revert z. induction w as [| w IH]; intro z; simpl; [reflexivity |].
  rewrite length_append, IH. simpl. lia.
Qed.

(** The stamp always has fifteen characters. *)
Lemma length_strftime t : String.length (strftime_Ymd_HMS t) = 15%nat.
Proof.
  unfold strftime_Ymd_HMS. rewrite !length_append, !length_zero_pad.
  reflexivity.
Qed.

Lemma plain_name_app s t :
  plain_name (s ++ t) = plain_name s && plain_name t.
Proof.
  induction s as [| c s IH]; simpl; [reflexivity |].
  rewrite IH. apply andb_assoc.
Qed.

Lemma plain_zero_pad w z : plain_name (zero_pad w z) = true.
Proof.
  revert z. induction w as [| w IH]; intro z; simpl; [reflexivity |].
  rewrite plain_name_app, IH.
  change (negb (Ascii.eqb (ascii_of_nat (48 + Z.to_nat (z mod 10))) slash)
          && true = true).
  assert (Hd : 0 <= z mod 10 < 10) by (apply Z.mod_pos_bound; lia).
  destruct (Ascii.eqb_spec (ascii_of_nat (48 + Z.to_nat (z mod 10))) slash)
    as [Heq |]; [| reflexivity].
  apply (f_equal nat_of_ascii) in Heq.
  rewrite nat_ascii_embedding in Heq by lia.
  change (nat_of_ascii slash) with 47%nat in Heq. lia.
Qed.

Lemma plain_strftime t : plain_name (strftime_Ymd_HMS t) = true.
Proof.
  unfold strftime_Ymd_HMS. rewrite !plain_name_app, !plain_zero_pad.
  reflexivity.
Qed.

(** The file name is as plain as the agent name. *)
Lemma plain_snapshot_filename E agent st :
  plain_name (snapshot_filename E agent st) = plain_name agent.
Proof.
  unfold snapshot_filename. rewrite !plain_name_app, plain_strftime.
  simpl. rewrite !andb_true_r. reflexivity.
Qed.

Lemma length_snapshot_filename E agent st :
  (20 < String.length (snapshot_filename E agent st))%nat.
Proof.
  unfold snapshot_filename. rewrite !length_append, length_strftime.
  simpl. lia.
Qed.

Lemma split_parts_plain cur s :
  plain_name s = true -> split_parts cur s = keep_part (cur ++ s) [].
Proof.
  revert cur. induction s as [| c s IH]; intros cur H; simpl in *.
  - rewrite append_nil_r_string. reflexivity.
  - apply andb_prop in H. destruct H as [Hc Hs].
    destruct (Ascii.eqb c slash); [discriminate Hc |].
    rewrite (IH _ Hs). rewrite <- append_assoc_string. reflexivity.
Qed.

Lemma lstrip_slash_plain s : plain_name s = true -> lstrip_slash s = (O, s).
Proof.
  destruct s as [| c s]; simpl; [reflexivity |].
  intro H. apply andb_prop in H. destruct H as [Hc _].
  destruct (Ascii.eqb c slash); [discriminate Hc | reflexivity].
Qed.

(** A name without a slash, longer than one character, is a path of one
    component. *)
Lemma Path_of_plain s :
  plain_name s = true -> (1 < String.length s)%nat -> Path_of s = mkPath "" [s].
Proof.
  intros Hp Hl. unfold Path_of, splitroot. rewrite (lstrip_slash_plain s Hp).
  rewrite (split_parts_plain "" s Hp). simpl. unfold keep_part.
  destruct s as [| c [| d s]]; simpl in Hl; try lia.
  destruct (String.eqb_spec (String c (String d s)) ".") as [Heq |];
    [discriminate Heq | reflexivity].
Qed.

Lemma joinpath_plain p s :
  plain_name s = true -> (1 < String.length s)%nat ->
  joinpath p s = mkPath (path_root p) (path_parts p ++ [s]).
Proof.
  intros Hp Hl. unfold joinpath. rewrite (Path_of_plain s Hp Hl). reflexivity.
Qed.

Lemma strip_parts_app dir rest : strip_parts dir (dir ++ rest) = Some rest.
Proof.
  induction dir as [| d dir IH]; simpl; [reflexivity |].
  rewrite String.eqb_refl. exact IH.
Qed.

Lemma entry_name_child p name :
  entry_name p (mkPath (path_root p) (path_parts p ++ [name])) = Some name.
Proof.
  unfold entry_name. cbn [path_root path_parts].
  rewrite String.eqb_refl, strip_parts_app. reflexivity.
Qed.

Lemma join_parts_snoc parts name :
  parts <> [] -> join_parts (parts ++ [name]) = join_parts parts ++ "/" ++ name.
Proof.
  induction parts as [| x [| y r] IH]; intro H.
  - contradiction H. reflexivity.
  - reflexivity.
  - change (x ++ "/" ++ join_parts ((y :: r) ++ [name])
            = (x ++ "/" ++ join_parts (y :: r)) ++ "/" ++ name).
    rewrite IH by discriminate. rewrite <- !append_assoc_string. reflexivity.
Qed.

Lemma path_str_child root parts name :
  parts <> [] ->
  path_str (mkPath root (parts ++ [name]))
  = path_str (mkPath root parts) ++ "/" ++ name.
Proof.
  intro H. unfold path_str. cbn [path_root path_parts].
  destruct parts as [| x r]; [contradiction H; reflexivity |].
  destruct ((x :: r) ++ [name])%list as [| y t] eqn:Happ; [discriminate Happ |].
  rewrite <- Happ, join_parts_snoc by discriminate.
  rewrite <- append_assoc_string. reflexivity.
Qed.

(** The snapshot directory has a parent: its path ends in data/snapshots. *)
Lemma DATA_DIR_parts E :
  exists parts,
    DATA_DIR E
    = mkPath (path_root (script_dir E)) (parts ++ ["snapshots"])
    /\ parts <> [].
Proof.
  exists (path_parts (path_parent (script_dir E)) ++ ["data"])%list.
  split; [reflexivity |]. destruct (path_parts _); discriminate.
Qed.

(** For an agent name without a slash the file is an entry of the snapshot
    directory, under the name [save_data] made up. *)
Lemma snapshot_file_plain E agent st :
  plain_name agent = true ->
  snapshot_path E agent st
  = path_str (DATA_DIR E) ++ "/" ++ snapshot_filename E agent st
  /\ path_name (snapshot_file E agent st) = snapshot_filename E agent st
  /\ snapshot_name E agent st = snapshot_filename E agent st.
Proof.
  intro Hp. unfold snapshot_path, snapshot_name, snapshot_file, file_key.
  rewrite joinpath_plain.
  - rewrite entry_name_child. split; [| split; [| reflexivity]].
    + destruct (DATA_DIR_parts E) as (parts & -> & Hne).
      cbn [path_root path_parts]. apply path_str_child.
      destruct parts; [contradiction Hne; reflexivity | discriminate].
    + unfold path_name. cbn [path_parts]. apply last_last.
  - rewrite plain_snapshot_filename. exact Hp.
  - pose proof (length_snapshot_filename E agent st). lia.
Qed.

(** The name under which the state keeps the file [save_data] writes
    tells where the file is: the name of an entry of the snapshot directory
    has no slash, the path of a file elsewhere has one. *)
Lemma keep_part_plain x l :
  plain_name x = true -> Forall (fun y => plain_name y = true) l ->
  Forall (fun y => plain_name y = true) (keep_part x l).
Proof.
  intros Hx Hl. unfold keep_part.
  destruct (String.eqb x "" || String.eqb x "."); [exact Hl |].
  constructor; assumption.
Qed.

Lemma split_parts_components cur rel :
  plain_name cur = true ->
  Forall (fun y => plain_name y = true) (split_parts cur rel).
Proof.
  revert cur. induction rel as [| c r IH]; intros cur Hcur; simpl.
  - apply keep_part_plain; [exact Hcur | constructor].
  - destruct (Ascii.eqb c slash) eqn:Hc.
    + apply keep_part_plain; [exact Hcur | apply IH; reflexivity].
    + apply IH. rewrite plain_name_app, Hcur. simpl. rewrite Hc. reflexivity.
Qed.

Lemma Path_of_components s :
  Forall (fun y => plain_name y = true) (path_parts (Path_of s)).
Proof.
  unfold Path_of. destruct (splitroot s) as [root rel].
  apply split_parts_components. reflexivity.
Qed.

Lemma Path_of_root s :
  path_root (Path_of s) = "" \/ plain_name (path_root (Path_of s)) = false.
Proof.
  unfold Path_of, splitroot. destruct (lstrip_slash s) as [n rel].
  destruct n as [| [| [| n]]]; [left | right | right | right]; reflexivity.
Qed.

Lemma strip_parts_inv dir parts rest :
  strip_parts dir parts = Some rest -> parts = (dir ++ rest)%list.
Proof.
  revert parts. induction dir as [| d dir IH]; intros parts H; simpl in *.
  - injection H as ->. reflexivity.
  - destruct parts as [| x parts]; [discriminate H |].
    destruct (String.eqb_spec d x) as [-> |]; [| discriminate H].
    rewrite (IH _ H). reflexivity.
Qed.

Lemma plain_join_parts x y r : plain_name (join_parts (x :: y :: r)) = false.
Proof.
  change (plain_name (x ++ "/" ++ join_parts (y :: r)) = false).
  rewrite plain_name_app. apply andb_false_r.
Qed.

Lemma file_key_tells_the_place E filename :
  match entry_name (DATA_DIR E) (joinpath (DATA_DIR E) filename) with
  | Some name => plain_name name = true
  | None => plain_name (path_str (joinpath (DATA_DIR E) filename)) = false
  end.
Proof.
  pose proof (Path_of_components filename) as Hparts.
  destruct (entry_name _ _) as [name |] eqn:Hentry.
  - unfold entry_name in Hentry.
    destruct (String.eqb _ _); [| discriminate Hentry].
    destruct (strip_parts _ _) as [[| n [| ? ?]] |] eqn:Hstrip;
      try discriminate Hentry.
    injection Hentry as ->. apply strip_parts_inv in Hstrip.
    assert (Hin : In name (path_parts (Path_of filename))).
    { unfold joinpath in Hstrip.
      destruct (String.eqb (path_root (Path_of filename)) "");
        cbn [path_parts] in Hstrip.
      - apply app_inv_head in Hstrip. rewrite Hstrip. left. reflexivity.
      - rewrite Hstrip. apply in_or_app. right. left. reflexivity. }
    rewrite Forall_forall in Hparts. apply Hparts. exact Hin.
  - clear Hentry. unfold joinpath.
    destruct (String.eqb_spec (path_root (Path_of filename)) "") as [Hrel | Hroot].
    + destruct (DATA_DIR_parts E) as (parts & -> & Hne).
      unfold path_str. cbn [path_root path_parts].
      destruct parts as [| x r]; [contradiction Hne; reflexivity |].
      destruct (((x :: r) ++ ["snapshots"]) ++ path_parts (Path_of filename))%list
        as [| a [| b t]] eqn:Happ.
      * discriminate Happ.
      * destruct r; discriminate Happ.
      * rewrite plain_name_app, plain_join_parts. apply andb_false_r.
    + destruct (Path_of_root filename) as [Hr | Hr]; [contradiction |].
      unfold path_str. destruct (path_parts (Path_of filename)).
      * destruct (String.eqb_spec (path_root (Path_of filename)) "");
          [contradiction | exact Hr].
      * rewrite plain_name_app, Hr. reflexivity.
Qed.

(** ** Writing the snapshot *)

Lemma save_data_run E data agent st :
  save_data E data agent st
  = match save_data_try E data (snapshot_file E agent st)
            (snapshot_name E agent st) (state_at_open E agent st) with
    | (Ok path, s) => (Ok path, s)
    | (Raise e, s) => (Raise e, error_logged e s)
    end.
Proof.
  unfold save_data, bind at 1. rewrite get_malaysia_time_run.
  unfold bind at 1. cbn [print]. unfold try_except.
  fold (utc8 (utc_clock E (ticks st))). fold (snapshot_filename E agent st).
  fold (snapshot_file E agent st). fold (snapshot_name E agent st).
  fold (snapshot_path E agent st).
  replace (mkState _ _ _ _ _ _) with (state_at_open E agent st).
  - destruct (save_data_try E data _ _ _) as [[path | e] s]; reflexivity.
  - unfold state_at_open, later.
    cbn [ticks stdout stderr api_log snapshots elsewhere].
    rewrite <- app_assoc. reflexivity.
Qed.

Lemma get_put_file name f l : get_file name (put_file name f l) = Some f.
Proof.
  induction l as [| [n g] r IH]; simpl.
  - rewrite String.eqb_refl. reflexivity.
  - destruct (String.eqb n name) eqn:Hn; simpl; rewrite Hn; [reflexivity | exact IH].
Qed.

Lemma put_put_file name f g l :
  put_file name g (put_file name f l) = put_file name g l.
Proof.
  induction l as [| [n h] r IH]; simpl.
  - rewrite String.eqb_refl. reflexivity.
  - destruct (String.eqb n name) eqn:Hn; simpl; rewrite Hn; [reflexivity |].
    f_equal. exact IH.
Qed.

Lemma read_set_snapshot name f st :
  has_place name st = true -> read_snapshot name (set_snapshot name f st) = Some f.
Proof.
  unfold has_place, read_snapshot, set_snapshot.
  destruct (plain_name name); cbn [snapshots elsewhere].
  - destruct (snapshots st) as [l |]; [intros _ | discriminate].
    simpl. apply get_put_file.
  - intros _. apply get_put_file.
Qed.

Lemma set_set_snapshot name f g st :
  set_snapshot name g (set_snapshot name f st) = set_snapshot name g st.
Proof.
  unfold set_snapshot.
  destruct (plain_name name);
    cbn [ticks stdout stderr api_log snapshots elsewhere]; f_equal.
  - destruct (snapshots st) as [l |]; [simpl; f_equal | reflexivity].
    apply put_put_file.
  - apply put_put_file.
Qed.

Lemma has_place_set_snapshot name n f st :
  has_place name (set_snapshot n f st) = has_place name st.
Proof.
  unfold has_place, set_snapshot.
  destruct (plain_name name); [| reflexivity].
  destruct (plain_name n); cbn [snapshots]; [| reflexivity].
  destruct (snapshots st); reflexivity.
Qed.

Lemma read_without_place name st :
  has_place name st = false -> read_snapshot name st = None.
Proof.
  unfold has_place, read_snapshot. destruct (plain_name name); [| discriminate].
  destruct (snapshots st); [discriminate | reflexivity].
Qed.

Lemma save_data_try_failure E data path name st e left :
  write_failure E data (path_str path) name st e left ->
  exists s, save_data_try E data path name st = (Raise e, s)
            /\ stdout s = stdout st
            /\ option_map f_content (read_snapshot name s) = left.
Proof.
  assert (Hout : forall f, stdout (set_snapshot name f st) = stdout st).
  { intro f. unfold set_snapshot. destruct (plain_name name); reflexivity. }
  intro H. unfold save_data_try, bind at 1, open_w.
  destruct H as [Hdir | e Hdir Hopen | n e Hdir Hopen Hw Hn | e Hdir Hopen Hw He];
    rewrite Hdir.
  - eexists. split; [reflexivity |]. split; [reflexivity |].
    rewrite (read_without_place name st Hdir). reflexivity.
  - rewrite Hopen. eexists. split; [reflexivity |]. split; reflexivity.
  - rewrite Hopen. unfold bind at 1, write_chunks. rewrite Hw.
    apply Nat.ltb_lt in Hn. rewrite Hn.
    eexists. split; [reflexivity |]. rewrite set_set_snapshot.
    split; [apply Hout |].
    rewrite read_set_snapshot by exact Hdir. reflexivity.
  - rewrite Hopen. unfold bind at 1, write_chunks. rewrite He.
    destruct (write_error E name) as [[n e'] |] eqn:Hwe.
    + specialize (Hw n e' eq_refl). apply Nat.ltb_ge in Hw. rewrite Hw.
      eexists. split; [reflexivity |]. rewrite set_set_snapshot.
      split; [apply Hout |].
      rewrite read_set_snapshot by exact Hdir. reflexivity.
    + eexists. split; [reflexivity |]. rewrite set_set_snapshot.
      split; [apply Hout |].
      rewrite read_set_snapshot by exact Hdir. reflexivity.
Qed.



(** What a successful [save_data_try] went through. *)
Lemma save_data_try_ok_inv E data path name st p st' :
  save_data_try E data path name st = (Ok p, st') ->
  p = path /\
  exists text,
    json_dump E data = (text, None) /\
    option_map f_content (read_snapshot name st') = Some text.
Proof.
  unfold save_data_try. intro H.
  bind_inv H u s1 Hopen. unfold open_w in Hopen.
  destruct (has_place name st) eqn:Hdir; [| discriminate Hopen].
  destruct (open_error E name); [discriminate Hopen |].
  injection Hopen as _ Hs1. subst s1.
  bind_inv H u' s2 Hwrite. unfold write_chunks in Hwrite.
  rewrite set_set_snapshot in Hwrite.
  destruct (json_dump E data) as [text err] eqn:Hdump. cbn [fst snd] in Hwrite.
  set (written := mkFile text (mtime_at E (ticks (set_snapshot name
                    (mkFile "" (mtime_at E (ticks st))) st)))) in *.
  assert (Hok : err = None /\ s2 = set_snapshot name written st).
  { destruct (write_error E name) as [[n e] |].
    - destruct (n <? String.length text)%nat; [discriminate Hwrite |].
      destruct err; [discriminate Hwrite |].
      injection Hwrite as _ Hs2. auto.
    - destruct err; [discriminate Hwrite |].
      injection Hwrite as _ Hs2. auto. }
  destruct Hok as [-> Hs2]. clear Hwrite.
  assert (Hread : forall o, read_snapshot name (snd (print o s2)) = Some written).
  { intro o. subst s2. rewrite <- (read_set_snapshot name written st Hdir).
    unfold read_snapshot. reflexivity. }
  unfold bind at 1 in H.
  destruct (print _ s2) as [[[] | e] s3] eqn:Hp1; [| discriminate Hp1].
  assert (Hs3 : read_snapshot name s3 = Some written).
  { specialize (Hread ("✅ Successfully saved data to " ++ path_str path)).
    rewrite Hp1 in Hread. exact Hread. }
  bind_inv H size s4 Hstat. unfold stat_size in Hstat.
  destruct (stat_error E name); [discriminate Hstat |].
  rewrite Hs3 in Hstat. injection Hstat as _ Hs4. subst s4.
  unfold bind at 1, print at 1, ret in H. injection H as Hp Hst'.
  split; [symmetry; exact Hp |].
  exists text. split; [reflexivity |].
  subst st'. unfold read_snapshot in *.
  cbn [snapshots elsewhere] in *. rewrite Hs3. reflexivity.
Qed.

(** C3, as the code has it.  A [save_data] that returns has written the
    record, serialized as JSON with an indentation of two spaces, to the
    file at the path [pathlib] joins from DATA_DIR and
    <agent_name>_<YYYYMMDD_HHMMSS>.json, where the stamp is the UTC+8 time
    [save_data] itself reads from the clock when it is called (not a time
    taken from the record).  For an agent name without a slash the file is
    <DATA_DIR>/<agent_name>_<YYYYMMDD_HHMMSS>.json, an entry of the snapshot
    directory of that name: default_<T as YYYYMMDD_HHMMSS>.json for the
    agent name "default" and the reading T. *)
Theorem save_data_names_file_by_save_time (E : Env) (data : pyval)
    (agent : string) (st st' : State) (path : Path)
    (H : save_data E data agent st = (Ok path, st')) :
  let saved_at := utc_clock E (ticks st) + 8 * 3600 * 1000000 in
  let filename := agent ++ "_" ++ strftime_Ymd_HMS saved_at ++ ".json" in
  path = joinpath (DATA_DIR E) filename
  /\ (exists text,
        json_iterencode JSONEncoder_default (float_repr E) (Some 2%nat) data
        = (text, None)
        /\ option_map f_content (read_snapshot (file_key (DATA_DIR E) path) st')
           = Some text)
  /\ (plain_name agent = true ->
      path_str path = path_str (DATA_DIR E) ++ "/" ++ filename
      /\ path_name path = filename
      /\ file_key (DATA_DIR E) path = filename).
Proof.
  rewrite save_data_run in H.
  destruct (save_data_try E data _ _ _) as [[p | e] s] eqn:Htry;
    [| discriminate H].
  injection H as -> ->.
  apply save_data_try_ok_inv in Htry. destruct Htry as [-> Htext].
  cbv zeta. split; [reflexivity |]. split; [exact Htext |].
  apply snapshot_file_plain.
Qed.

Lemma save_data_names_file_by_save_time_witness :
  path_str (Path_of "/srv/app/dashboard/data/snapshots/default_20240101_080002.json")
  = path_str (DATA_DIR Sample.env) ++ "/" ++ "default" ++ "_"
    ++ strftime_Ymd_HMS (mk_datetime 2024 1 1 8 0 2 0) ++ ".json"
  /\ exists text,
       json_iterencode JSONEncoder_default Sample.repr (Some 2%nat)
         SampleRun.record = (text, None)
       /\ option_map f_content
            (read_snapshot "default_20240101_080002.json" SampleRun.after_save)
          = Some text.
Proof.
  destruct (save_data_names_file_by_save_time Sample.env SampleRun.record
              "default" SampleRun.after_fetch SampleRun.after_save _
              sample_save_run) as (_ & Htext & Hplain).
  destruct (Hplain eq_refl) as (Hstr & _ & _).
  split; [exact Hstr | exact Htext].
Defined.

(** The sample run refutes it: the record is stamped 08:00:01, and the
    file, whose name comes from a later reading of the clock, 08:00:02. *)
Lemma filename_does_not_carry_record_time : ~ filename_carries_record_time.
Proof.
  intro claim.
  specialize (claim Sample.env Sample.start SampleRun.record
                SampleRun.after_fetch "default" _ SampleRun.after_save
                (mk_datetime 2024 1 1 8 0 1 0)
                sample_fetch_run sample_save_run eq_refl).
  vm_compute in claim. discriminate claim.
Qed.

(** An agent name that starts with a slash takes the file out of the
    snapshot directory: the path is that of the name, and the directory
    has no new entry. *)
Example rooted_agent_name_leaves_DATA_DIR :
  exists s,
    save_data Sample.env SampleRun.record "/tmp/a" SampleRun.after_fetch
    = (Ok (Path_of "/tmp/a_20240101_080002.json"), s)
    /\ snapshots s = Some []
    /\ option_map f_content (read_snapshot "/tmp/a_20240101_080002.json" s)
       = Some (fst (json_dump Sample.env SampleRun.record)).
Proof. eexists. split; [vm_compute; reflexivity | split; reflexivity]. Qed.

(** ** The JSON encoder *)

Lemma list_members_ext (m1 m2 : pyval -> emitted) (u : pyval -> pyval)
    opening separator l :
  Forall (fun v => m1 v = m2 (u v)) l ->
  forall first,
    list_members m1 opening separator first l
    = list_members m2 opening separator first (map u l).
Proof.
  induction 1 as [| x r Hx _ IH]; intro first; simpl; [reflexivity |].
  rewrite Hx, IH. reflexivity.
Qed.

Lemma dict_members_ext (m1 m2 : pyval -> emitted) (u : pyval -> pyval)
    fs separator d :
  Forall (fun kv => m1 (snd kv) = m2 (u (snd kv))) d ->
  forall first,
    dict_members m1 fs separator first d
    = dict_members m2 fs separator first
        (map (fun kv : pykey * pyval => let (k, x) := kv in (k, u x)) d).
Proof.
  induction 1 as [| [k x] r Hx _ IH]; intro first; simpl; [reflexivity |].
  simpl in Hx. rewrite Hx, IH. reflexivity.
Qed.

(** The custom encoder yields what the standard one yields for the record
    in which the UUIDs are already strings. *)
Lemma custom_iterencode fs ind again1 again2 :
  (forall s level, again1 (PStr s) level = emit (encode_basestring_ascii s)) ->
  forall v level,
    _iterencode JSONEncoder_default fs ind again1 v level
    = _iterencode json_JSONEncoder_default fs ind again2 (uuids_as_str v) level.
Proof.
  intro Hagain. induction v using pyval_nested_ind; intro level;
    try reflexivity.
  - destruct l as [| x r]; [reflexivity |].
    cbn [uuids_as_str map _iterencode]. f_equal.
    apply (list_members_ext _ _ uuids_as_str _ _ (x :: r)).
    eapply Forall_impl; [| exact H]. intros v Hv. apply Hv.
  - destruct d as [| [k x] r]; [reflexivity |].
    cbn [uuids_as_str map _iterencode]. f_equal. f_equal.
    apply (dict_members_ext _ _ uuids_as_str _ _ ((k, x) :: r)).
    eapply Forall_impl; [| exact H]. intros v Hv. apply Hv.
  - cbn [uuids_as_str _iterencode JSONEncoder_default]. apply Hagain.
Qed.

Lemma iterencode_depth_str dflt fs ind d s level :
  iterencode_depth dflt fs ind d (PStr s) level
  = emit (encode_basestring_ascii s).
Proof. destruct d; reflexivity. Qed.

Lemma recursion_limit_S : recursion_limit = S (pred recursion_limit).
Proof. reflexivity. Qed.

Lemma json_dump_custom E data :
  json_dump E data
  = json_iterencode json_JSONEncoder_default (float_repr E) (Some 2%nat)
      (uuids_as_str data).
Proof.
  unfold json_dump, json_iterencode. rewrite recursion_limit_S.
  cbn [iterencode_depth]. apply custom_iterencode.
  intros s level. apply iterencode_depth_str.
Qed.

(** *** A UUID between quotes *)

Lemma plain_app s t : plain s = true -> plain t = true -> plain (s ++ t) = true.
Proof.
  induction s as [| c s IH]; simpl; intros Hs Ht; [exact Ht |].
  apply andb_true_iff in Hs. destruct Hs as [Hc Hs].
  rewrite Hc. simpl. apply IH; assumption.
Qed.

Lemma escape_plain_char c : plain_char c = true -> escape_cp (byte c) = String c "".
Proof.
  unfold plain_char, escape_cp. intro H.
  repeat (apply andb_true_iff in H; destruct H as [H ?]).
  apply negb_true_iff in H0, H1.
  apply Z.leb_le in H, H2.
  rewrite H0, H1.
  replace (byte c =? 8) with false by (symmetry; apply Z.eqb_neq; lia).
  replace (byte c =? 12) with false by (symmetry; apply Z.eqb_neq; lia).
  replace (byte c =? 10) with false by (symmetry; apply Z.eqb_neq; lia).
  replace (byte c =? 13) with false by (symmetry; apply Z.eqb_neq; lia).
  replace (byte c =? 9) with false by (symmetry; apply Z.eqb_neq; lia).
  apply Z.leb_le in H, H2. rewrite H, H2. simpl.
  unfold chr, byte. rewrite Nat2Z.id, ascii_nat_embedding. reflexivity.
Qed.

Lemma escape_plain s : plain s = true -> escape_string s = s.
Proof.
  induction s as [| c s IH]; simpl; intro H; [reflexivity |].
  apply andb_true_iff in H. destruct H as [Hc Hs].
  assert (Hlt : (byte c <? 192) = true).
  { unfold plain_char in Hc.
    repeat (apply andb_true_iff in Hc; destruct Hc as [Hc ?]).
    apply Z.ltb_lt. apply Z.leb_le in H1. lia. }
  rewrite Hlt, (escape_plain_char c Hc), (IH Hs). reflexivity.
Qed.

Lemma plain_hex_digit z : plain_char (hex_digit z) = true.
Proof.
  unfold hex_digit.
  assert (Hn : (Z.to_nat (z mod 16) < 16)%nat).
  { assert (H16 : 0 < 16) by lia.
    pose proof (Z.mod_pos_bound z 16 H16). lia. }
  revert Hn. generalize (Z.to_nat (z mod 16)). intros n Hn.
  do 16 (destruct n as [| n]; [reflexivity |]). lia.
Qed.

Lemma plain_hex_pad w z : plain (hex_pad w z) = true.
Proof.
  revert z. induction w as [| w IH]; intro z; simpl; [reflexivity |].
  apply plain_app; [apply IH |]. simpl. rewrite plain_hex_digit. reflexivity.
Qed.

Lemma plain_uuid_str u : plain (uuid_str u) = true.
Proof.
  unfold uuid_str.
  repeat (apply plain_app; [first [apply plain_hex_pad | reflexivity] |]).
  apply plain_hex_pad.
Qed.

(** C4.  [JSONEncoder.default] turns a UUID into [str] of it, which the
    encoder writes as a JSON string, the canonical form between quotes;
    and the encoding of any record is the standard encoding of that record
    with each UUID among its values replaced by its string form: a UUID
    never becomes a nested object and never is the cause of an error, and
    the other values are encoded as the standard encoder encodes them. *)
Theorem uuid_serialized_as_its_string (E : Env) (data : pyval) :
  (forall u, JSONEncoder_default (PUUID u) = Ok (PStr (uuid_str u)))
  /\ (forall u, json_dump E (PUUID u) = (dquote ++ uuid_str u ++ dquote, None))
  /\ json_dump E data
     = json_iterencode json_JSONEncoder_default (float_repr E) (Some 2%nat)
         (uuids_as_str data).
Proof.
  split; [reflexivity |]. split; [| apply json_dump_custom].
  intro u. rewrite json_dump_custom. unfold json_iterencode.
  cbn [uuids_as_str]. rewrite iterencode_depth_str.
  unfold emit, encode_basestring_ascii. rewrite escape_plain; [reflexivity |].
  apply plain_uuid_str.
Qed.

(** *** Objects the encoder does not know *)

Lemma snd_seq a b :
  snd (seq a b) = match snd a with Some e => Some e | None => snd b end.
Proof. destruct a as [s [e |]]; reflexivity. Qed.

Section MemberErrors.

Variable member : pyval -> emitted.
Variable fs : float -> string.
Variable opening separator : string.

Lemma list_members_raise l :
  Forall (fun v => has_object v = true -> snd (member v) <> None) l ->
  existsb has_object l = true ->
  forall first, snd (list_members member opening separator first l) <> None.
Proof.
  induction 1 as [| x r Hx _ IH]; simpl; intros Hex first; [discriminate Hex |].
  rewrite !snd_seq. simpl.
  destruct (snd (member x)) eqn:Hm; [discriminate |].
  apply orb_true_iff in Hex. destruct Hex as [Hex | Hex].
  - exfalso. apply (Hx Hex). reflexivity.
  - apply IH. exact Hex.
Qed.

Lemma list_members_class l :
  Forall (fun v => forall e, snd (member v) = Some e -> is_TypeError e) l ->
  forall first e,
    snd (list_members member opening separator first l) = Some e ->
    is_TypeError e.
Proof.
  induction 1 as [| x r Hx _ IH]; simpl; intros first e He; [discriminate He |].
  rewrite !snd_seq in He. simpl in He.
  destruct (snd (member x)) eqn:Hm.
  - injection He as <-. apply Hx. reflexivity.
  - eapply IH. exact He.
Qed.

Lemma dict_members_raise d :
  Forall (fun kv => has_object (snd kv) = true -> snd (member (snd kv)) <> None) d ->
  existsb (fun kv : pykey * pyval => let (_, x) := kv in has_object x) d = true ->
  forall first, snd (dict_members member fs separator first d) <> None.
Proof.
  induction 1 as [| [k x] r Hx _ IH]; simpl; intros Hex first;
    [discriminate Hex |].
  destruct (encode_key fs k); [| discriminate].
  rewrite !snd_seq. simpl. simpl in Hx.
  destruct (snd (member x)) eqn:Hm; [discriminate |].
  apply orb_true_iff in Hex. destruct Hex as [Hex | Hex].
  - exfalso. apply (Hx Hex). reflexivity.
  - apply IH. exact Hex.
Qed.

Lemma dict_members_class d :
  Forall (fun kv => forall e, snd (member (snd kv)) = Some e -> is_TypeError e) d ->
  forall first e,
    snd (dict_members member fs separator first d) = Some e -> is_TypeError e.
Proof.
  induction 1 as [| [k x] r Hx _ IH]; simpl; intros first e He;
    [discriminate He |].
  destruct (encode_key fs k) eqn:Hk.
  - rewrite !snd_seq in He. simpl in He, Hx.
    destruct (snd (member x)) eqn:Hm.
    + injection He as <-. apply Hx. reflexivity.
    + eapply IH. exact He.
  - destruct k; try discriminate Hk.
    + destruct b; discriminate Hk.
    + injection Hk as <-. injection He as <-. reflexivity.
Qed.

End MemberErrors.

(** With an object among its values, a record makes the encoder raise;
    and whatever makes this encoder raise is a [TypeError]. *)
Lemma custom_iterencode_errors fs ind again :
  (forall s level, again (PStr s) level = emit (encode_basestring_ascii s)) ->
  forall v level,
    (has_object v = true ->
     snd (_iterencode JSONEncoder_default fs ind again v level) <> None)
    /\ (forall e,
           snd (_iterencode JSONEncoder_default fs ind again v level) = Some e ->
           is_TypeError e).
Proof.
  intro Hagain. induction v using pyval_nested_ind; intro level;
    try (split; [discriminate | (discriminate || (destruct b; discriminate))]).
  - destruct l as [| x r]; [split; discriminate |].
    cbn [_iterencode has_object]. rewrite snd_seq. split.
    + intro Hex.
      pose proof (list_members_raise
                    (fun value => _iterencode JSONEncoder_default fs ind again
                                    value (S level))
                    ("[" ++ newline_indent ind (S level))
                    (_item_separator ind ++ newline_indent ind (S level))
                    (x :: r)) as Hr.
      destruct (snd (list_members _ _ _ true (x :: r))) eqn:Hm; [discriminate |].
      exfalso. refine (Hr _ Hex true Hm).
      eapply Forall_impl; [| exact H]. intros v Hv. apply Hv.
    + intros e He.
      destruct (snd (list_members _ _ _ true (x :: r))) eqn:Hm;
        [| discriminate He].
      injection He as <-. revert Hm. apply list_members_class.
      eapply Forall_impl; [| exact H]. intros v Hv. apply Hv.
  - destruct d as [| [k x] r]; [split; discriminate |].
    cbn [_iterencode has_object]. rewrite !snd_seq. cbn [emit snd]. split.
    + intro Hex.
      pose proof (dict_members_raise
                    (fun value => _iterencode JSONEncoder_default fs ind again
                                    value (S level))
                    fs (_item_separator ind ++ newline_indent ind (S level))
                    ((k, x) :: r)) as Hr.
      destruct (snd (dict_members _ _ _ true ((k, x) :: r))) eqn:Hm;
        [discriminate |].
      exfalso. refine (Hr _ Hex true Hm).
      eapply Forall_impl; [| exact H]. intros v Hv. apply Hv.
    + intros e He.
      destruct (snd (dict_members _ _ _ true ((k, x) :: r))) eqn:Hm;
        [| discriminate He].
      injection He as <-. revert Hm. apply dict_members_class.
      eapply Forall_impl; [| exact H]. intros v Hv. apply Hv.
  - cbn [_iterencode JSONEncoder_default has_object]. rewrite Hagain.
    split; discriminate.
  - cbn [_iterencode JSONEncoder_default has_object]. split.
    + discriminate.
    + intros e He. injection He as <-. reflexivity.
Qed.

Lemma json_dump_object_raises E data :
  has_object data = true ->
  exists e, snd (json_dump E data) = Some e /\ is_TypeError e.
Proof.
  intro H. unfold json_dump, json_iterencode. rewrite recursion_limit_S.
  cbn [iterencode_depth].
  destruct (custom_iterencode_errors (floatstr (float_repr E))
              (option_map (repeat_str " ") (Some 2%nat))
              (iterencode_depth JSONEncoder_default (floatstr (float_repr E))
                 (option_map (repeat_str " ") (Some 2%nat)) (pred recursion_limit))
              (fun s level => iterencode_depth_str _ _ _ _ s level) data 0%nat)
    as [Hraise Hclass].
  destruct (snd (_iterencode _ _ _ _ data 0%nat)) as [e |] eqn:He.
  - exists e. split; [reflexivity | apply Hclass; reflexivity].
  - exfalso. apply (Hraise H). reflexivity.
Qed.

(** An encoder that raises makes the [try:] block of [save_data] raise. *)
Lemma save_data_try_raises E data path name st e :
  snd (json_dump E data) = Some e ->
  exists e' s, save_data_try E data path name st = (Raise e', s).
Proof.
  intro He. unfold save_data_try, bind at 1, open_w.
  destruct (has_place name st); [| eauto].
  destruct (open_error E name); [eauto |].
  unfold bind at 1, write_chunks. rewrite He.
  destruct (write_error E name) as [[n e'] |]; [| eauto].
  destruct (n <? String.length (fst (json_dump E data)))%nat; eauto.
Qed.

(** C10.  [JSONEncoder.default] treats only UUIDs: for any other object it
    hands over to the base class, which raises a [TypeError]; so a record
    with such an object among its values is not serialized: the encoder
    raises a [TypeError] and [save_data] raises instead of returning. *)
Theorem other_objects_are_not_serializable (E : Env) (data : pyval)
    (H : has_object data = true) :
  (forall obj, (forall u, obj <> PUUID u) ->
     JSONEncoder_default obj = json_JSONEncoder_default obj
     /\ json_JSONEncoder_default obj
        = Raise (TypeError ("Object of type " ++ type_name obj
                            ++ " is not JSON serializable")))
  /\ (exists e, snd (json_dump E data) = Some e /\ exn_class e = "TypeError")
  /\ (forall agent st, exists e st', save_data E data agent st = (Raise e, st')).
Proof.
  split; [| split].
  - intros obj Hobj. split; [| reflexivity].
    destruct obj; try reflexivity. contradiction (Hobj u). reflexivity.
  - apply json_dump_object_raises. exact H.
  - intros agent st.
    destruct (json_dump_object_raises E data H) as (e & He & _).
    destruct (save_data_try_raises E data (snapshot_file E agent st)
                (snapshot_name E agent st) (state_at_open E agent st) e He)
      as (e' & s & Htry).
    rewrite save_data_run, Htry. eauto.
Qed.

Lemma other_objects_are_not_serializable_witness :
  snd (json_dump Sample.env unserializable_record)
  = Some (TypeError "Object of type Decimal is not JSON serializable")
  /\ exists e st',
       save_data Sample.env unserializable_record "default" Sample.start
       = (Raise e, st').
Proof.
  destruct (other_objects_are_not_serializable Sample.env
              unserializable_record eq_refl) as (_ & _ & Hsave).
  split; [reflexivity | exact (Hsave "default" Sample.start)].
Defined.

(** ** The three outcomes on the sample machine *)


Example run_job_sample_succeeds :
  fst (run_job Sample.env "default" Sample.start) = Ok (true, success_msg).
Proof. vm_compute. reflexivity. Qed.

Example paper_mode_samples :
  map (fun v => ALPACA_PAPER
                  (mkEnv (fun name => if String.eqb name "ALPACA_PAPER" then v
                                      else None)
                     (utc_clock Sample.env) (Ok "") "" Sample.to_float Sample.repr
                     (object_str Sample.env) (fromtimestamp Sample.env)
                     (mtime_at Sample.env) (client_init Sample.env)
                     (account_of Sample.env) (positions_of Sample.env)
                     (open_error Sample.env) (write_error Sample.env)
                     (stat_error Sample.env) None))
    [None; Some "true"; Some "TRUE"; Some "True"; Some "false"; Some "1";
     Some ""; Some "true "; Some "yes"]
  = [true; true; true; true; false; false; false; false; false].
Proof. reflexivity. Qed.

Example malaysia_time_rolls_the_date :
  strftime_Ymd_HMS (utc8 (mk_datetime 2024 2 29 20 30 0 0)) = "20240301_043000".
Proof. reflexivity. Qed.

(* ===================================================================== *)
(** * Further properties *)
(* ===================================================================== *)

(** ** Running a computation step by step *)

Lemma bind_eq {A B} (c : M A) (k : A -> M B) st :
  bind c k st
  = match c st with
    | (Ok a, s) => k a s
    | (Raise e, s) => (Raise e, s)
    end.
Proof. reflexivity. Qed.

(** A step that returns hands its value and its state to what follows. *)
Lemma bind_ok {A B} (c : M A) (k : A -> M B) st a s r :
  c st = (Ok a, s) -> k a s = r -> bind c k st = r.
Proof. intros Hc Hk. rewrite bind_eq, Hc. exact Hk. Qed.

(** After a step: the fields of the state reached are computed. *)
Ltac next := cbv beta; cbn [ticks stdout stderr api_log snapshots elsewhere].

Lemma state_eq (s s' : State) :
  ticks s = ticks s' -> stdout s = stdout s' -> stderr s = stderr s' ->
  api_log s = api_log s' -> snapshots s = snapshots s' ->
  elsewhere s = elsewhere s' -> s = s'.
Proof. destruct s, s'. simpl. intros -> -> -> -> -> ->. reflexivity. Qed.

(** ** Parts of the state a computation leaves alone *)

Lemma preserves_ret {X A} (proj : State -> X) (a : A) : preserves proj (ret a).
Proof. intro st. reflexivity. Qed.

Lemma preserves_raise {X A} (proj : State -> X) e : preserves proj (@raise A e).
Proof. intro st. reflexivity. Qed.

Lemma preserves_lift {X A} (proj : State -> X) (r : result A) :
  preserves proj (lift r).
Proof. intro st. reflexivity. Qed.

Lemma preserves_bind {X A B} (proj : State -> X) (c : M A) (k : A -> M B) :
  preserves proj c -> (forall a, preserves proj (k a)) ->
  preserves proj (bind c k).
Proof.
  intros Hc Hk st. rewrite bind_eq. specialize (Hc st).
  destruct (c st) as [[a | e] s]; simpl in *; [| exact Hc].
  rewrite (Hk a s). exact Hc.
Qed.

Lemma preserves_try_except {X A} (proj : State -> X) (c : M A) h :
  preserves proj c -> (forall e, preserves proj (h e)) ->
  preserves proj (try_except c h).
Proof.
  intros Hc Hh st. unfold try_except. specialize (Hc st).
  destruct (c st) as [[a | e] s]; simpl in *; [exact Hc |].
  rewrite (Hh e s). exact Hc.
Qed.

Lemma preserves_for_each {X A B} (proj : State -> X) (f : A -> M B) l :
  (forall a, preserves proj (f a)) -> preserves proj (for_each f l).
Proof.
  intro Hf. induction l as [| a r IH]; simpl.
  - apply preserves_ret.
  - apply preserves_bind; [apply Hf | intro b].
    apply preserves_bind; [apply IH | intro bs; apply preserves_ret].
Qed.

Lemma preserves_print {X} (proj : State -> X) s :
  ignores_stdout proj -> preserves proj (print s).
Proof. intros H [t o e a f g]. symmetry. apply H. Qed.

Lemma preserves_utcnow {X} (proj : State -> X) E :
  ignores_ticks proj -> preserves proj (utcnow E).
Proof. intros H [t o e a f g]. symmetry. apply H. Qed.

Lemma preserves_record_api {X} (proj : State -> X) ev :
  ignores_api_log proj -> preserves proj (record_api ev).
Proof. intros H [t o e a f g]. symmetry. apply H. Qed.

Lemma preserves_get_malaysia_time {X} (proj : State -> X) E :
  ignores_ticks proj -> preserves proj (get_malaysia_time E).
Proof.
  intro H. unfold get_malaysia_time.
  apply preserves_bind; [apply preserves_utcnow; exact H | intro t].
  apply preserves_ret.
Qed.

Lemma preserves_dir_exists {X} (proj : State -> X) E :
  preserves proj (dir_exists E).
Proof. intro st. unfold dir_exists. destruct (exists_error E); reflexivity. Qed.

Lemma preserves_glob_json {X} (proj : State -> X) : preserves proj glob_json.
Proof. intro st. reflexivity. Qed.

(** [fetch_alpaca_data] changes nothing that is independent of the clock,
    of [stdout] and of the log of API calls. *)
Lemma preserves_fetch {X} (proj : State -> X) E :
  ignores_stdout proj -> ignores_ticks proj -> ignores_api_log proj ->
  preserves proj (fetch_alpaca_data E).
Proof.
  intros Ho Ht Ha. unfold fetch_alpaca_data.
  apply preserves_bind; [apply preserves_print; exact Ho | intros _].
  destruct (ALPACA_API_KEY E) as [key |]; [| apply preserves_raise].
  destruct (ALPACA_SECRET_KEY E) as [secret |]; [| apply preserves_raise].
  destruct (falsy (Some key) || falsy (Some secret)); [apply preserves_raise |].
  apply preserves_bind.
  { unfold TradingClient_new. destruct (client_init E _); [apply preserves_raise |].
    apply preserves_bind; [apply preserves_record_api; exact Ha | intros _].
    apply preserves_ret. }
  intro c. apply preserves_bind; [apply preserves_print; exact Ho | intros _].
  apply preserves_bind.
  { unfold get_account.
    apply preserves_bind; [apply preserves_record_api; exact Ha | intros _].
    apply preserves_lift. }
  intro account.
  do 4 (apply preserves_bind; [apply preserves_lift | intro]).
  apply preserves_bind; [apply preserves_get_malaysia_time; exact Ht | intro].
  do 2 (apply preserves_bind; [apply preserves_print; exact Ho | intros _]).
  apply preserves_bind.
  { unfold get_all_positions.
    apply preserves_bind; [apply preserves_record_api; exact Ha | intros _].
    apply preserves_lift. }
  intro positions. apply preserves_bind.
  { apply preserves_for_each. intro p. unfold position_data, float_.
    repeat (apply preserves_bind; [apply preserves_lift | intro]).
    apply preserves_ret. }
  intro pd. apply preserves_bind; [apply preserves_print; exact Ho | intros _].
  apply preserves_bind; [apply preserves_lift | intro].
  apply preserves_bind; [apply preserves_get_malaysia_time; exact Ht | intro].
  apply preserves_ret.
Qed.

(** ** The loop over the positions *)

Lemma position_data_run E position st :
  position_data E position st
  = (match builtin_float E (pos_qty position) with
     | Raise e => Raise e
     | Ok qty =>
     match builtin_float E (pos_market_value position) with
     | Raise e => Raise e
     | Ok market_value =>
     match builtin_float E (pos_cost_basis position) with
     | Raise e => Raise e
     | Ok cost_basis =>
     match builtin_float E (pos_unrealized_pl position) with
     | Raise e => Raise e
     | Ok unrealized_pl =>
     match builtin_float E (pos_unrealized_plpc position) with
     | Raise e => Raise e
     | Ok unrealized_plpc =>
     match builtin_float E (pos_current_price position) with
     | Raise e => Raise e
     | Ok current_price =>
     match builtin_float E (pos_avg_entry_price position) with
     | Raise e => Raise e
     | Ok avg_entry_price =>
         Ok (position_record position qty market_value cost_basis
               unrealized_pl unrealized_plpc current_price avg_entry_price)
     end end end end end end end, st).
Proof.
  unfold position_data, float_, lift, bind, ret.
  repeat match goal with
         | |- context [builtin_float E ?x] =>
             destruct (builtin_float E x); try reflexivity
         end.
Qed.

Lemma position_data_ok_iff E position st d st' :
  position_data E position st = (Ok d, st') <-> converts E position d /\ st' = st.
Proof.
  rewrite position_data_run. unfold converts. split.
  - intro H.
    destruct (builtin_float E (pos_qty position)) as [f1 |]; [| discriminate H].
    destruct (builtin_float E (pos_market_value position)) as [f2 |];
      [| discriminate H].
    destruct (builtin_float E (pos_cost_basis position)) as [f3 |];
      [| discriminate H].
    destruct (builtin_float E (pos_unrealized_pl position)) as [f4 |];
      [| discriminate H].
    destruct (builtin_float E (pos_unrealized_plpc position)) as [f5 |];
      [| discriminate H].
    destruct (builtin_float E (pos_current_price position)) as [f6 |];
      [| discriminate H].
    destruct (builtin_float E (pos_avg_entry_price position)) as [f7 |];
      [| discriminate H].
    injection H as <- <-. split; [| reflexivity].
    exists f1, f2, f3, f4, f5, f6, f7. repeat split; reflexivity.
  - intros [(f1 & f2 & f3 & f4 & f5 & f6 & f7 & H1 & H2 & H3 & H4 & H5 & H6
             & H7 & ->) ->].
    rewrite H1, H2, H3, H4, H5, H6, H7. reflexivity.
Qed.

Lemma for_each_positions_ok_iff E positions st ds st' :
  for_each (position_data E) positions st = (Ok ds, st')
  <-> Forall2 (converts E) positions ds /\ st' = st.
Proof.
  revert ds st st'. induction positions as [| p r IH]; intros ds st st'; simpl.
  - unfold ret. split.
    + intro H. injection H as <- <-. split; [constructor | reflexivity].
    + intros [H ->]. inversion H. reflexivity.
  - rewrite bind_eq. split.
    + intro H. destruct (position_data E p st) as [[d | e] s] eqn:Hp;
        [| discriminate H].
      apply position_data_ok_iff in Hp. destruct Hp as [Hd ->].
      rewrite bind_eq in H.
      destruct (for_each (position_data E) r st) as [[ds' | e] s] eqn:Hr;
        [| discriminate H].
      apply IH in Hr. destruct Hr as [Hds ->].
      unfold ret in H. injection H as <- <-.
      split; [constructor; assumption | reflexivity].
    + intros [H ->]. inversion H as [| p' d r' ds' Hd Hds]; subst.
      assert (Hp : position_data E p st = (Ok d, st))
        by (apply position_data_ok_iff; auto).
      assert (Hr : for_each (position_data E) r st = (Ok ds', st))
        by (apply IH; auto).
      rewrite Hp, bind_eq, Hr. reflexivity.
Qed.

(** ** A fetch that returns *)

(** The state a fetch that returns leaves: two more readings of the clock,
    five lines printed, three entries in the log of API calls. *)
Lemma fetch_ok_iff E st data st' :
  fetch_alpaca_data E st = (Ok data, st')
  <-> exists key secret account positions positions_data cash pv bp equity,
        environ E "ALPACA_API_KEY" = Some key /\ key <> "" /\
        environ E "ALPACA_SECRET_KEY" = Some secret /\ secret <> "" /\
        client_init E (job_client E key secret) = None /\
        account_of E (job_client E key secret) = Ok account /\
        builtin_float E (acc_cash account) = Ok cash /\
        builtin_float E (acc_portfolio_value account) = Ok pv /\
        builtin_float E (acc_buying_power account) = Ok bp /\
        builtin_float E (acc_equity account) = Ok equity /\
        positions_of E (job_client E key secret) = Ok positions /\
        Forall2 (converts E) positions positions_data /\
        data = snapshot_record account cash pv bp equity
                 (utc8 (utc_clock E (ticks st))) positions_data cash
                 (utc8 (utc_clock E (S (ticks st)))) /\
        st' = mkState (2 + ticks st)
                (stdout st ++ fetch_output E account (List.length positions_data))
                (stderr st)
                (api_log st ++ fetch_calls (job_client E key secret))
                (snapshots st) (elsewhere st).
Proof.
  split.
  - unfold fetch_alpaca_data. intro H.
    print_inv H.
    unfold ALPACA_API_KEY, ALPACA_SECRET_KEY, os_getenv in H.
    destruct (environ E "ALPACA_API_KEY") as [key |] eqn:Hkey; [| discriminate H].
    destruct (environ E "ALPACA_SECRET_KEY") as [secret |] eqn:Hsec;
      [| discriminate H].
    destruct (falsy (Some key) || falsy (Some secret)) eqn:Hf; [discriminate H |].
    apply orb_false_elim in Hf. destruct Hf as [Hfk Hfs].
    simpl in Hfk, Hfs. apply String.eqb_neq in Hfk, Hfs.
    bind_inv H c s1 Hnew.
    unfold TradingClient_new in Hnew. fold (job_client E key secret) in Hnew.
    destruct (client_init E (job_client E key secret)) eqn:Hinit;
      [discriminate Hnew |].
    inversion Hnew; subst c s1; clear Hnew.
    print_inv H.
    bind_inv H account s2 Hacc.
    unfold get_account in Hacc. bind_inv Hacc u s3 Hrec.
    unfold record_api in Hrec; injection Hrec as _ Hrec; subst s3.
    apply lift_ok_inv in Hacc. destruct Hacc as [Hacc ?]; subst s2.
    float_inv H cash Hcash.
    float_inv H pv Hpv.
    float_inv H bp Hbp.
    float_inv H equity Hequity.
    bind_inv H updated_at s4 Hnow. rewrite get_malaysia_time_run in Hnow.
    inversion Hnow; subst updated_at s4; clear Hnow.
    print_inv H. print_inv H.
    bind_inv H positions s5 Hpos.
    unfold get_all_positions in Hpos. bind_inv Hpos u' s6 Hrec.
    unfold record_api in Hrec; injection Hrec as _ Hrec; subst s6.
    apply lift_ok_inv in Hpos. destruct Hpos as [Hpos ?]; subst s5.
    bind_inv H positions_data s7 Hloop.
    apply for_each_positions_ok_iff in Hloop. destruct Hloop as [Hloop ->].
    print_inv H.
    float_inv H cash' Hcash'.
    rewrite Hcash in Hcash'. inversion Hcash'; subst cash'; clear Hcash'.
    bind_inv H timestamp s8 Hnow. rewrite get_malaysia_time_run in Hnow.
    inversion Hnow; subst timestamp s8; clear Hnow.
    inversion H; subst data st'; clear H.
    exists key, secret, account, positions, positions_data, cash, pv, bp, equity.
    do 12 (split; [first [eassumption | reflexivity] |]).
    split; [reflexivity |].
    unfold later, fetch_output, fetch_calls.
    cbn [ticks stdout stderr api_log snapshots elsewhere Nat.add]. f_equal.
    + repeat rewrite <- app_assoc. reflexivity.
    + repeat rewrite <- app_assoc. reflexivity.
  - intros (key & secret & account & positions & positions_data & cash & pv
            & bp & equity & Hkey & Hk & Hsec & Hs & Hinit & Hacc & Hcash & Hpv
            & Hbp & Hequity & Hpos & Hloop & -> & ->).
    unfold fetch_alpaca_data.
    eapply bind_ok; [reflexivity | next].
    unfold ALPACA_API_KEY, ALPACA_SECRET_KEY, os_getenv. rewrite Hkey, Hsec.
    apply String.eqb_neq in Hk, Hs. unfold falsy. rewrite Hk, Hs. cbn [orb].
    eapply bind_ok.
    { unfold TradingClient_new. fold (job_client E key secret). rewrite Hinit.
      reflexivity. }
    next. eapply bind_ok; [reflexivity | next].
    eapply bind_ok.
    { unfold get_account. eapply bind_ok; [reflexivity | next].
      unfold lift. rewrite Hacc. reflexivity. }
    next. unfold float_.
    eapply bind_ok; [unfold lift; rewrite Hcash; reflexivity | next].
    eapply bind_ok; [unfold lift; rewrite Hpv; reflexivity | next].
    eapply bind_ok; [unfold lift; rewrite Hbp; reflexivity | next].
    eapply bind_ok; [unfold lift; rewrite Hequity; reflexivity | next].
    eapply bind_ok; [apply get_malaysia_time_run | next].
    eapply bind_ok; [reflexivity | next].
    eapply bind_ok; [reflexivity | next].
    eapply bind_ok.
    { unfold get_all_positions. eapply bind_ok; [reflexivity | next].
      unfold lift. rewrite Hpos. reflexivity. }
    next. eapply bind_ok.
    { apply for_each_positions_ok_iff. split; [exact Hloop | reflexivity]. }
    next. eapply bind_ok; [reflexivity | next].
    eapply bind_ok; [unfold lift; rewrite Hcash; reflexivity | next].
    eapply bind_ok; [apply get_malaysia_time_run | next].
    unfold ret. apply f_equal2; [reflexivity |].
    unfold later, fetch_output, fetch_calls.
    cbn [ticks stdout stderr api_log snapshots elsewhere Nat.add].
    apply state_eq; cbn [ticks stdout stderr api_log snapshots elsewhere];
      try reflexivity.
    + rewrite app_nil_r, <- !app_assoc. reflexivity.
    + rewrite <- !app_assoc. reflexivity.
Qed.

(** ** The calls a computation makes *)

Lemma logs_nil_of_preserves {A} (c : M A) : preserves api_log c -> logs [] c.
Proof.
  intros H st. specialize (H st). destruct (c st) as [[a | e] s]; simpl in H.
  - rewrite app_nil_r. exact H.
  - exists 0%nat. simpl. rewrite app_nil_r. exact H.
Qed.

Lemma logs_record_api ev : logs [ev] (record_api ev).
Proof. intro st. reflexivity. Qed.

Lemma logs_raise L {A} e : logs L (@raise A e).
Proof. intro st. exists 0%nat. simpl. rewrite app_nil_r. reflexivity. Qed.

(** What follows a step needs considering only for the values the step
    can return. *)
Lemma logs_bind_returned L1 L2 {A B} (P : A -> Prop) (c : M A)
    (k : A -> M B) :
  (forall st a s, c st = (Ok a, s) -> P a) ->
  logs L1 c -> (forall a, P a -> logs L2 (k a)) -> logs (L1 ++ L2) (bind c k).
Proof.
  intros HP Hc Hk st. rewrite bind_eq. specialize (Hc st).
  destruct (c st) as [[a | e] s] eqn:Hrun.
  - specialize (Hk a (HP st a s Hrun) s). destruct (k a s) as [[b | e] s'].
    + rewrite Hk, Hc, app_assoc. reflexivity.
    + destruct Hk as [n Hn]. exists (List.length L1 + n)%nat.
      rewrite Hn, Hc, <- app_assoc. f_equal.
      rewrite firstn_app_2. reflexivity.
  - destruct Hc as [n Hn]. exists (Nat.min n (List.length L1)).
    rewrite Hn. f_equal. rewrite firstn_app.
    replace (Nat.min n (List.length L1) - List.length L1)%nat with 0%nat by lia.
    simpl. rewrite app_nil_r.
    destruct (Nat.le_ge_cases n (List.length L1)) as [Hle | Hge].
    + rewrite Nat.min_l by exact Hle. reflexivity.
    + rewrite Nat.min_r by exact Hge.
      rewrite firstn_all, firstn_all2 by exact Hge. reflexivity.
Qed.

Lemma logs_bind L1 L2 {A B} (c : M A) (k : A -> M B) :
  logs L1 c -> (forall a, logs L2 (k a)) -> logs (L1 ++ L2) (bind c k).
Proof.
  intros Hc Hk. apply (logs_bind_returned L1 L2 (fun _ => True)); auto.
Qed.

Lemma ignores_stdout_api_log : ignores_stdout api_log.
Proof. intros t o o' e a f. reflexivity. Qed.

Lemma ignores_ticks_api_log : ignores_ticks api_log.
Proof. intros t t' o e a f. reflexivity. Qed.

(** With both credentials at hand, a fetch builds the client, asks for the
    account, then for the positions. *)
Lemma logs_fetch_with_credentials E key secret :
  ALPACA_API_KEY E = Some key -> ALPACA_SECRET_KEY E = Some secret ->
  logs (fetch_calls (job_client E key secret)) (fetch_alpaca_data E).
Proof.
  intros Hkey Hsec. unfold fetch_alpaca_data. rewrite Hkey, Hsec.
  set (c := job_client E key secret).
  assert (Hp : forall s, logs [] (print s)).
  { intro s. apply logs_nil_of_preserves, preserves_print,
      ignores_stdout_api_log. }
  assert (Hl : forall A (r : result A), logs [] (lift r)).
  { intros A r. apply logs_nil_of_preserves, preserves_lift. }
  assert (Ht : logs [] (get_malaysia_time E)).
  { apply logs_nil_of_preserves, preserves_get_malaysia_time,
      ignores_ticks_api_log. }
  assert (Hr : forall A (a : A), logs [] (ret a)).
  { intros A a. apply logs_nil_of_preserves, preserves_ret. }
  apply (logs_bind [] (fetch_calls c)); [apply Hp | intros _].
  destruct (falsy (Some key) || falsy (Some secret)); [apply logs_raise |].
  apply (logs_bind_returned [ClientCreated c] [GetAccount c; GetAllPositions c]
           (fun c' => c' = c)).
  { intros st c' s. unfold TradingClient_new.
    change (mkClient key secret (ALPACA_PAPER E)) with c.
    destruct (client_init E c); [unfold raise; intro H; discriminate H |].
    rewrite bind_eq. cbn [record_api ret]. intro H. injection H as H _.
    symmetry. exact H. }
  { unfold TradingClient_new.
    change (mkClient key secret (ALPACA_PAPER E)) with c.
    destruct (client_init E c); [apply logs_raise |].
    apply (logs_bind [ClientCreated c] []); [apply logs_record_api |].
    intros _. apply Hr. }
  intros c' ->. apply (logs_bind [] [GetAccount c; GetAllPositions c]);
    [apply Hp | intros _].
  apply (logs_bind [GetAccount c] [GetAllPositions c]).
  { unfold get_account.
    apply (logs_bind [GetAccount c] []); [apply logs_record_api |].
    intros _. apply Hl. }
  intro account. unfold float_.
  do 4 (apply (logs_bind [] [GetAllPositions c]); [apply Hl | intro]).
  apply (logs_bind [] [GetAllPositions c]); [apply Ht | intro].
  do 2 (apply (logs_bind [] [GetAllPositions c]); [apply Hp | intros _]).
  apply (logs_bind [GetAllPositions c] []).
  { unfold get_all_positions.
    apply (logs_bind [GetAllPositions c] []); [apply logs_record_api |].
    intros _. apply Hl. }
  intro positions. apply (logs_bind [] []).
  { apply logs_nil_of_preserves, preserves_for_each. intro p.
    unfold position_data, float_.
    repeat (apply preserves_bind; [apply preserves_lift | intro]).
    apply preserves_ret. }
  intro pd. apply (logs_bind [] []); [apply Hp | intros _].
  apply (logs_bind [] []); [apply Hl | intro].
  apply (logs_bind [] []); [apply Ht | intro]. apply Hr.
Qed.

(** ** The files the state keeps *)

Lemma get_put_other name other f l :
  other <> name -> get_file other (put_file name f l) = get_file other l.
Proof.
  intro Hne. induction l as [| [n h] r IH]; simpl.
  - apply String.eqb_neq in Hne. rewrite String.eqb_sym, Hne. reflexivity.
  - destruct (String.eqb n name) eqn:Hn; simpl.
    + apply String.eqb_eq in Hn. subst n.
      apply String.eqb_neq in Hne. rewrite String.eqb_sym, Hne. reflexivity.
    + destruct (String.eqb n other); [reflexivity | exact IH].
Qed.

Lemma ticks_set_snapshot name f st : ticks (set_snapshot name f st) = ticks st.
Proof. unfold set_snapshot. destruct (plain_name name); reflexivity. Qed.

Lemma later_set_snapshot k out name f st :
  later k out (set_snapshot name f st) = set_snapshot name f (later k out st).
Proof. unfold set_snapshot, later. destruct (plain_name name); reflexivity. Qed.

Lemma print_run o st : print o st = (Ok tt, later 0 [o] st).
Proof. reflexivity. Qed.

Lemma open_w_run E path name st :
  has_place name st = true -> open_error E name = None ->
  open_w E path name st
  = (Ok tt, set_snapshot name (mkFile "" (mtime_at E (ticks st))) st).
Proof. intros H1 H2. unfold open_w. rewrite H1, H2. reflexivity. Qed.

(** The write after the file was opened returns exactly when the encoder
    does not raise and the file system takes all of the text. *)
Lemma write_chunks_ok_iff E name out f st s :
  write_chunks E name out (set_snapshot name f st) = (Ok tt, s)
  <-> snd out = None
      /\ (forall n e, write_error E name = Some (n, e) ->
                      (String.length (fst out) <= n)%nat)
      /\ s = set_snapshot name (mkFile (fst out) (mtime_at E (ticks st))) st.
Proof.
  unfold write_chunks. cbv zeta. rewrite ticks_set_snapshot.
  destruct (write_error E name) as [[n e] |].
  - destruct (n <? String.length (fst out))%nat eqn:Hn.
    + split; [discriminate |]. intros (_ & Hw & _).
      specialize (Hw n e eq_refl). apply Nat.ltb_lt in Hn. lia.
    + rewrite set_set_snapshot. destruct (snd out).
      * split; [discriminate | intros (H & _); discriminate H].
      * split.
        -- intro H. injection H as <-. split; [reflexivity |].
           split; [| reflexivity]. intros n' e' Hne. injection Hne as <- <-.
           apply Nat.ltb_ge. exact Hn.
        -- intros (_ & _ & ->). reflexivity.
  - rewrite set_set_snapshot. destruct (snd out).
    + split; [discriminate | intros (H & _); discriminate H].
    + split.
      * intro H. injection H as <-. split; [reflexivity |].
        split; [| reflexivity]. intros n' e' Hne. discriminate Hne.
      * intros (_ & _ & ->). reflexivity.
Qed.

(** ** A save that returns *)

Lemma save_data_try_ok_iff E data path name st p st' :
  save_data_try E data path name st = (Ok p, st')
  <-> exists text,
        has_place name st = true /\
        open_error E name = None /\
        json_dump E data = (text, None) /\
        (forall n e, write_error E name = Some (n, e) ->
                     (String.length text <= n)%nat) /\
        stat_error E name = None /\
        p = path /\
        st' = set_snapshot name (mkFile text (mtime_at E (ticks st)))
                (later 0 (save_output (path_str path) text) st).
Proof.
  unfold save_data_try. split.
  - intro H.
    bind_inv H u s1 Hopen. unfold open_w in Hopen.
    destruct (has_place name st) eqn:Hdir; [| discriminate Hopen].
    destruct (open_error E name) eqn:Ho; [discriminate Hopen |].
    injection Hopen as _ <-.
    bind_inv H u' s2 Hwrite. destruct u'.
    apply write_chunks_ok_iff in Hwrite. destruct Hwrite as (Herr & Hw & ->).
    destruct (json_dump E data) as [text err] eqn:Hdump. cbn [fst snd] in *.
    subst err.
    bind_inv H u3 s3 Hp. rewrite print_run in Hp. injection Hp as _ <-.
    rewrite later_set_snapshot in H.
    bind_inv H size s4 Hstat. unfold stat_size in Hstat.
    destruct (stat_error E name) eqn:Hst; [discriminate Hstat |].
    rewrite read_set_snapshot in Hstat by exact Hdir.
    cbn [f_content] in Hstat. injection Hstat as <- <-.
    bind_inv H u5 s5 Hp2. rewrite print_run in Hp2. injection Hp2 as _ <-.
    unfold ret in H. injection H as <- <-.
    exists text. do 6 (split; [first [assumption | reflexivity] |]).
    rewrite later_set_snapshot, later_later. reflexivity.
  - intros (text & Hdir & Ho & Hdump & Hw & Hst & -> & ->).
    eapply bind_ok; [apply open_w_run; assumption |].
    eapply bind_ok.
    { apply write_chunks_ok_iff. rewrite Hdump. cbn [fst snd].
      split; [reflexivity |]. split; [exact Hw | reflexivity]. }
    eapply bind_ok; [apply print_run |]. rewrite later_set_snapshot.
    eapply bind_ok.
    { unfold stat_size. rewrite Hst, read_set_snapshot by exact Hdir.
      reflexivity. }
    eapply bind_ok; [apply print_run |].
    unfold ret. rewrite later_set_snapshot, later_later. reflexivity.
Qed.

(** [save_data] returns exactly when the directory the file goes into is
    there, the file can be opened, the encoder does not raise, the file
    system takes all of the text and [stat] works; it has then read the
    clock once, printed three lines, and put the whole text into the file
    named after that reading. *)
Lemma save_data_ok_iff E data agent st p st' :
  save_data E data agent st = (Ok p, st')
  <-> exists text,
        has_place (snapshot_name E agent st) st = true /\
        open_error E (snapshot_name E agent st) = None /\
        json_dump E data = (text, None) /\
        (forall n e, write_error E (snapshot_name E agent st) = Some (n, e) ->
                     (String.length text <= n)%nat) /\
        stat_error E (snapshot_name E agent st) = None /\
        p = snapshot_file E agent st /\
        st' = set_snapshot (snapshot_name E agent st)
                (mkFile text (mtime_at E (S (ticks st))))
                (later 1
                   (("Attempting to save data to: "
                     ++ snapshot_path E agent st)%string
                    :: save_output (snapshot_path E agent st) text) st).
Proof.
  rewrite save_data_run. split.
  - intro H.
    destruct (save_data_try E data _ _ _) as [[q | e] s] eqn:Htry;
      [| discriminate H].
    injection H as -> ->. apply save_data_try_ok_iff in Htry.
    destruct Htry as (text & Hdir & Ho & Hdump & Hw & Hst & -> & ->).
    exists text. do 6 (split; [first [assumption | reflexivity] |]).
    unfold state_at_open. rewrite later_later. reflexivity.
  - intros (text & Hdir & Ho & Hdump & Hw & Hst & -> & ->).
    assert (Htry : save_data_try E data (snapshot_file E agent st)
                     (snapshot_name E agent st) (state_at_open E agent st)
                   = (Ok (snapshot_file E agent st),
                      set_snapshot (snapshot_name E agent st)
                        (mkFile text
                           (mtime_at E (ticks (state_at_open E agent st))))
                        (later 0 (save_output (snapshot_path E agent st) text)
                           (state_at_open E agent st)))).
    { apply save_data_try_ok_iff. exists text.
      do 6 (split; [first [assumption | reflexivity] |]). reflexivity. }
    rewrite Htry. unfold state_at_open. rewrite later_later. reflexivity.
Qed.

(** ** What a fetch does, and what it leaves alone *)

Lemma job_client_configured E key secret :
  environ E "ALPACA_API_KEY" = Some key ->
  environ E "ALPACA_SECRET_KEY" = Some secret ->
  job_client E key secret = configured_client E.
Proof.
  intros Hk Hs. unfold job_client, configured_client, os_getenv_default.
  rewrite Hk, Hs. reflexivity.
Qed.

(** Whatever its outcome, a fetch has added to the log of API calls a
    beginning of: client built, account asked, positions asked. *)
Lemma fetch_log_any E st :
  exists n,
    api_log (snd (fetch_alpaca_data E st))
    = (api_log st ++ firstn n (fetch_calls (configured_client E)))%list.
Proof.
  destruct (environ E "ALPACA_API_KEY") as [key |] eqn:Hkey.
  - destruct (environ E "ALPACA_SECRET_KEY") as [secret |] eqn:Hsec.
    + pose proof (logs_fetch_with_credentials E key secret Hkey Hsec st) as H.
      rewrite (job_client_configured E key secret Hkey Hsec) in H.
      destruct (fetch_alpaca_data E st) as [[data | e] s]; simpl.
      * exists 3%nat. exact H.
      * exact H.
    + exists 0%nat. rewrite (fetch_without_credentials E st).
      * simpl. rewrite app_nil_r. reflexivity.
      * right. left. exact Hsec.
  - exists 0%nat. rewrite (fetch_without_credentials E st).
    + simpl. rewrite app_nil_r. reflexivity.
    + left. left. exact Hkey.
Qed.

(** X5.  Whether it returns or raises, [fetch_alpaca_data] leaves the
    snapshot directory, the files elsewhere and [stderr] as they were, and
    what it has done with the client library is a beginning of: build the
    client, ask for the account, ask for the positions -- each at most
    once, in this order. *)
Theorem fetch_touches_no_file (E : Env) (st : State) :
  snapshots (snd (fetch_alpaca_data E st)) = snapshots st
  /\ elsewhere (snd (fetch_alpaca_data E st)) = elsewhere st
  /\ stderr (snd (fetch_alpaca_data E st)) = stderr st
  /\ exists n,
       api_log (snd (fetch_alpaca_data E st))
       = (api_log st ++ firstn n (fetch_calls (configured_client E)))%list.
Proof.
  split; [| split; [| split]].
  - apply (preserves_fetch snapshots); intros ? ? ? ? ? ? ?; reflexivity.
  - apply (preserves_fetch elsewhere); intros ? ? ? ? ? ? ?; reflexivity.
  - apply (preserves_fetch stderr); intros ? ? ? ? ? ? ?; reflexivity.
  - apply fetch_log_any.
Qed.

(** X1.  With both credentials non-empty, a client that can be built, an
    account and positions the broker returns and numeric attributes that
    [float] accepts, [fetch_alpaca_data] returns the record made of them;
    it has read the clock twice, printed five lines and made its three
    calls with the client built from the two keys and the paper flag. *)
Theorem fetch_returns_record (E : Env) (st : State) (key secret : string)
    (account : Account) (positions : list Position)
    (positions_data : list pyval) (cash pv bp equity : float)
    (Hkey : environ E "ALPACA_API_KEY" = Some key) (Hk : key <> "")
    (Hsec : environ E "ALPACA_SECRET_KEY" = Some secret) (Hs : secret <> "")
    (Hinit : client_init E (mkClient key secret (ALPACA_PAPER E)) = None)
    (Hacc : account_of E (mkClient key secret (ALPACA_PAPER E)) = Ok account)
    (Hcash : builtin_float E (acc_cash account) = Ok cash)
    (Hpv : builtin_float E (acc_portfolio_value account) = Ok pv)
    (Hbp : builtin_float E (acc_buying_power account) = Ok bp)
    (Hequity : builtin_float E (acc_equity account) = Ok equity)
    (Hpos : positions_of E (mkClient key secret (ALPACA_PAPER E)) = Ok positions)
    (Hloop : Forall2 (converts E) positions positions_data) :
  fetch_alpaca_data E st
  = (Ok (snapshot_record account cash pv bp equity
           (utc_clock E (ticks st) + 8 * 3600 * 1000000) positions_data cash
           (utc_clock E (S (ticks st)) + 8 * 3600 * 1000000)),
     mkState (2 + ticks st)
       (stdout st ++ fetch_output E account (List.length positions_data))
       (stderr st)
       (api_log st
        ++ [ClientCreated (mkClient key secret (ALPACA_PAPER E));
            GetAccount (mkClient key secret (ALPACA_PAPER E));
            GetAllPositions (mkClient key secret (ALPACA_PAPER E))])
       (snapshots st) (elsewhere st)).
Proof.
  apply fetch_ok_iff.
  exists key, secret, account, positions, positions_data, cash, pv, bp, equity.
  repeat (split; [assumption |]). split; reflexivity.
Qed.

Lemma converts_aapl E :
  builtin_float E = Sample.to_float -> converts E Sample2.aapl aapl_record.
Proof.
  intro H. unfold converts. rewrite H.
  exists Sample.f2000, Sample.f1000, Sample.f1000, Sample.f1000, Sample.f1000,
    Sample.f1000, Sample.f1000.
  repeat split; reflexivity.
Qed.

Lemma converts_tsla E :
  builtin_float E = Sample.to_float -> converts E Sample2.tsla tsla_record.
Proof.
  intro H. unfold converts. rewrite H.
  exists Sample.f1000, Sample.f2000, Sample.f2000, Sample.f1000, Sample.f1000,
    Sample.f2000, Sample.f2000.
  repeat split; reflexivity.
Qed.

Lemma fetch_returns_record_witness :
  exists st',
    fetch_alpaca_data Sample2.env_two_positions Sample.start
    = (Ok (snapshot_record Sample.account Sample.f1000 Sample.f1000
             Sample.f2000 Sample.f1000 (mk_datetime 2024 1 1 8 0 0 0)
             [aapl_record; tsla_record] Sample.f1000
             (mk_datetime 2024 1 1 8 0 1 0)), st')
    /\ api_log st' = fetch_calls Sample2.client.
Proof.
  eexists. split.
  - apply (fetch_returns_record Sample2.env_two_positions Sample.start
             "PK-SAMPLE" "sample-secret" Sample.account
             [Sample2.aapl; Sample2.tsla] [aapl_record; tsla_record]
             Sample.f1000 Sample.f1000 Sample.f2000 Sample.f1000);
      try reflexivity; try discriminate.
    repeat constructor; [apply converts_aapl | apply converts_tsla];
      reflexivity.
  - reflexivity.
Defined.

Lemma fetched_positions_in_api_order_helper E st data st' :
  fetch_alpaca_data E st = (Ok data, st') ->
  exists positions positions_data,
    positions_of E (configured_client E) = Ok positions
    /\ Forall2 (converts E) positions positions_data.
Proof.
  intro H. apply fetch_ok_iff in H.
  destruct H as (key & secret & account & positions & positions_data & cash
                 & pv & bp & equity & Hkey & _ & Hsec & _ & _ & _ & _ & _ & _
                 & _ & Hpos & Hloop & _ & _).
  rewrite (job_client_configured E key secret Hkey Hsec) in Hpos.
  exists positions, positions_data. split; assumption.
Qed.

(** X2.  The positions field of a returned record has one dictionary for
    each position the API returned, in the API's order: the seven numeric
    attributes converted by [float], symbol, side and exchange as they
    came. *)
Theorem fetched_positions_in_api_order (E : Env) (st st' : State)
    (data : pyval) (H : fetch_alpaca_data E st = (Ok data, st')) :
  exists positions positions_data,
    positions_of E (configured_client E) = Ok positions
    /\ dict_get "positions" data = Some (PList positions_data)
    /\ Forall2 (converts E) positions positions_data.
Proof.
  apply fetch_ok_iff in H.
  destruct H as (key & secret & account & positions & positions_data & cash
                 & pv & bp & equity & Hkey & _ & Hsec & _ & _ & _ & _ & _ & _
                 & _ & Hpos & Hloop & -> & _).
  rewrite (job_client_configured E key secret Hkey Hsec) in Hpos.
  exists positions, positions_data. repeat split; assumption || reflexivity.
Qed.

Lemma sample2_fetch_run :
  fetch_alpaca_data Sample2.env_two_positions Sample.start
  = (Ok Sample2Run.record, Sample2Run.after_fetch).
Proof. vm_compute. reflexivity. Qed.

Lemma fetched_positions_in_api_order_witness :
  exists positions_data,
    dict_get "positions" Sample2Run.record = Some (PList positions_data)
    /\ Forall2 (converts Sample2.env_two_positions)
         [Sample2.aapl; Sample2.tsla] positions_data.
Proof.
  destruct (fetched_positions_in_api_order Sample2.env_two_positions
              Sample.start Sample2Run.after_fetch Sample2Run.record
              sample2_fetch_run)
    as (positions & positions_data & Hpos & Hget & Hall).
  injection Hpos as <-. exists positions_data. split; assumption.
Defined.

(** A step that raises ends the run. *)
Lemma bind_raise {A B} (c : M A) (k : A -> M B) st e s :
  c st = (Raise e, s) -> bind c k st = (Raise e, s).
Proof. intro Hc. rewrite bind_eq, Hc. reflexivity. Qed.

(** X3.  When the broker refuses the account request with [e],
    [fetch_alpaca_data] raises that very [e]; the positions have not been
    asked for and the clock has not been read. *)
Theorem fetch_raises_what_get_account_raises (E : Env) (st : State)
    (key secret : string) (e : exn)
    (Hkey : environ E "ALPACA_API_KEY" = Some key) (Hk : key <> "")
    (Hsec : environ E "ALPACA_SECRET_KEY" = Some secret) (Hs : secret <> "")
    (Hinit : client_init E (mkClient key secret (ALPACA_PAPER E)) = None)
    (Hacc : account_of E (mkClient key secret (ALPACA_PAPER E)) = Raise e) :
  fetch_alpaca_data E st
  = (Raise e,
     mkState (ticks st)
       (stdout st ++ ["Initializing Alpaca client..."; "Fetching account data..."])
       (stderr st)
       (api_log st
        ++ [ClientCreated (mkClient key secret (ALPACA_PAPER E));
            GetAccount (mkClient key secret (ALPACA_PAPER E))])
       (snapshots st) (elsewhere st)).
Proof.
  unfold fetch_alpaca_data.
  eapply bind_ok; [reflexivity | next].
  unfold ALPACA_API_KEY, ALPACA_SECRET_KEY, os_getenv. rewrite Hkey, Hsec.
  apply String.eqb_neq in Hk, Hs. unfold falsy. rewrite Hk, Hs. cbn [orb].
  eapply bind_ok.
  { unfold TradingClient_new. rewrite Hinit. reflexivity. }
  next. eapply bind_ok; [reflexivity | next].
  apply bind_raise. unfold get_account.
  eapply bind_ok; [reflexivity | next].
  unfold lift. rewrite Hacc. rewrite <- !app_assoc. reflexivity.
Qed.

Lemma fetch_raises_what_get_account_raises_witness :
  exists st',
    fetch_alpaca_data Sample2.env_account_refused Sample.start
    = (Raise Sample2.forbidden, st')
    /\ api_log st' = [ClientCreated Sample2.client; GetAccount Sample2.client].
Proof.
  eexists. split.
  - apply (fetch_raises_what_get_account_raises Sample2.env_account_refused
             Sample.start "PK-SAMPLE" "sample-secret" Sample2.forbidden);
      try reflexivity; discriminate.
  - reflexivity.
Defined.

(** X4.  When one of the positions has a numeric attribute that [float]
    does not accept, [fetch_alpaca_data] raises: no record is returned with
    the other positions. *)
Theorem fetch_is_all_or_nothing (E : Env) (st : State)
    (positions : list Position)
    (Hpos : positions_of E (configured_client E) = Ok positions)
    (Hbad : Exists (fun p => forall d, ~ converts E p d) positions) :
  exists e s, fetch_alpaca_data E st = (Raise e, s).
Proof.
  destruct (fetch_alpaca_data E st) as [[data | e] s] eqn:Hrun; [| eauto].
  exfalso. apply fetched_positions_in_api_order_helper in Hrun.
  destruct Hrun as (positions' & positions_data & Hpos' & Hloop).
  rewrite Hpos in Hpos'. injection Hpos' as <-.
  clear Hpos. induction Hloop as [| p d r ds Hd _ IH].
  - inversion Hbad.
  - inversion Hbad as [? ? Hp | ? ? Hr]; subst.
    + exact (Hp d Hd).
    + exact (IH Hr).
Qed.

Lemma fetch_is_all_or_nothing_witness :
  exists e s, fetch_alpaca_data Sample2.env_no_qty Sample.start = (Raise e, s).
Proof.
  apply (fetch_is_all_or_nothing Sample2.env_no_qty Sample.start
           [Sample2.aapl; Sample2.no_qty]).
  - reflexivity.
  - apply Exists_cons_tl, Exists_cons_hd.
    intros d (qty & ? & ? & ? & ? & ? & ? & Hqty & _). discriminate Hqty.
Defined.

(** ** What a save does, and what it leaves alone *)



Lemma read_set_other name other f st :
  other <> name ->
  read_snapshot other (set_snapshot name f st) = read_snapshot other st.
Proof.
  intro H. unfold read_snapshot, set_snapshot.
  destruct (plain_name other), (plain_name name);
    cbn [snapshots elsewhere]; try reflexivity.
  - destruct (snapshots st); [simpl; apply get_put_other; exact H | reflexivity].
  - apply get_put_other. exact H.
Qed.

Lemma read_set_there name n f st :
  read_snapshot name st <> None ->
  read_snapshot name (set_snapshot n f st) <> None.
Proof.
  intro H. destruct (String.eqb_spec name n) as [-> | Hne].
  - rewrite read_set_snapshot; [discriminate |].
    unfold has_place, read_snapshot in *.
    destruct (plain_name n); [| reflexivity].
    destruct (snapshots st); [reflexivity | contradiction H; reflexivity].
  - rewrite read_set_other by exact Hne. exact H.
Qed.

(** The state a [try:] block of [save_data] ends in, whatever the outcome:
    something was printed and at most the one file was written. *)
Lemma save_data_try_effect E data path name st :
  exists out (written : option file),
    snd (save_data_try E data path name st)
    = match written with
      | Some f => set_snapshot name f (later 0 out st)
      | None => later 0 out st
      end.
Proof.
  assert (Hleaf : forall f,
    exists out written,
      set_snapshot name f st
      = match written with
        | Some f => set_snapshot name f (later 0 out st)
        | None => later 0 out st
        end).
  { intro f. exists [], (Some f). rewrite later_0_nil. reflexivity. }
  unfold save_data_try. rewrite bind_eq. unfold open_w.
  destruct (has_place name st) eqn:Hdir.
  2: { exists [], None. rewrite later_0_nil. reflexivity. }
  destruct (open_error E name).
  { exists [], None. rewrite later_0_nil. reflexivity. }
  rewrite bind_eq. unfold write_chunks. cbv zeta. rewrite ticks_set_snapshot.
  assert (Hrest : forall text,
    exists out written,
      snd ((print ("✅ Successfully saved data to " ++ path_str path) ;;
            size <- stat_size E name ;;
            print ("File size: " ++ int_str size ++ " bytes") ;;
            ret path)
             (set_snapshot name (mkFile text (mtime_at E (ticks st))) st))
      = match written with
        | Some f => set_snapshot name f (later 0 out st)
        | None => later 0 out st
        end).
  { intro text. rewrite bind_eq, print_run, later_set_snapshot.
    rewrite bind_eq. unfold stat_size.
    destruct (stat_error E name).
    - eexists. exists (Some (mkFile text (mtime_at E (ticks st)))). reflexivity.
    - rewrite read_set_snapshot by exact Hdir.
      rewrite bind_eq, print_run, later_set_snapshot, later_later.
      eexists. exists (Some (mkFile text (mtime_at E (ticks st)))).
      reflexivity. }
  destruct (write_error E name) as [[n e] |].
  - destruct (n <? String.length (fst (json_dump E data)))%nat.
    + cbn [snd]. rewrite set_set_snapshot. apply Hleaf.
    + destruct (snd (json_dump E data)) as [e' |].
      * cbn [snd]. rewrite set_set_snapshot. apply Hleaf.
      * cbv iota beta. rewrite set_set_snapshot. apply Hrest.
  - destruct (snd (json_dump E data)) as [e' |].
    + cbn [snd]. rewrite set_set_snapshot. apply Hleaf.
    + cbv iota beta. rewrite set_set_snapshot. apply Hrest.
Qed.

Lemma save_data_effect E data agent st :
  exists out (written : option file),
    snd (save_data E data agent st)
    = match written with
      | Some f => set_snapshot (snapshot_name E agent st) f (later 1 out st)
      | None => later 1 out st
      end.
Proof.
  rewrite save_data_run.
  destruct (save_data_try_effect E data (snapshot_file E agent st)
              (snapshot_name E agent st) (state_at_open E agent st))
    as (out & written & Heff).
  unfold state_at_open in *. rewrite later_later in Heff.
  destruct (save_data_try E data _ _ _) as [[p | e] s]; cbn [snd] in *; subst s.
  - eexists. exists written. reflexivity.
  - exists ((("Attempting to save data to: " ++ snapshot_path E agent st)%string
             :: out) ++ [(save_error_prefix ++ exn_str e)%string])%list, written.
    change (error_logged e ?s)
      with (later 0 [(save_error_prefix ++ exn_str e)%string] s).
    destruct written as [f |].
    + rewrite later_set_snapshot, later_later. reflexivity.
    + rewrite later_later. reflexivity.
Qed.

Lemma save_data_touches_one_file_helper E data agent st :
  api_log (snd (save_data E data agent st)) = api_log st.
Proof.
  destruct (save_data_effect E data agent st) as (out & [f |] & ->);
    [unfold set_snapshot; destruct (plain_name _) |]; reflexivity.
Qed.


(** ** The names of the snapshot files *)

Lemma append_same_length_inj a1 a2 x y :
  String.length x = String.length y -> a1 ++ x = a2 ++ y -> a1 = a2 /\ x = y.
Proof.
  intro Hlen. revert a2. induction a1 as [| c a1 IH]; intros a2 H.
  - destruct a2 as [| c2 a2]; [split; [reflexivity | exact H] |].
    exfalso. simpl in H. apply (f_equal String.length) in H.
    simpl in H. rewrite length_append in H. lia.
  - destruct a2 as [| c2 a2].
    + exfalso. simpl in H. apply (f_equal String.length) in H.
      simpl in H. rewrite length_append in H. lia.
    + simpl in H. injection H as -> H. destruct (IH a2 H) as [-> ->].
      split; reflexivity.
Qed.

Lemma append_inj_r p x y : p ++ x = p ++ y -> x = y.
Proof.
  induction p as [| c p IH]; simpl; intro H; [exact H |].
  injection H as H. apply IH. exact H.
Qed.

(** X8.  For agent names without a slash and clock readings in years of
    four digits, two calls of [save_data] name the same path exactly when
    the agent names are equal and the stamps are equal: the stamp having a
    fixed width, no such agent name gives the path of another agent. *)
Theorem snapshot_names_tell_agents_apart (E : Env) (a1 a2 : string)
    (s1 s2 : State)
    (Hplain1 : plain_name a1 = true) (Hplain2 : plain_name a2 = true)
    (Hyear1 : 1000 <= dt_year (utc8 (utc_clock E (ticks s1))) <= 9999)
    (Hyear2 : 1000 <= dt_year (utc8 (utc_clock E (ticks s2))) <= 9999) :
  snapshot_path E a1 s1 = snapshot_path E a2 s2
  <-> a1 = a2
      /\ strftime_Ymd_HMS (utc8 (utc_clock E (ticks s1)))
         = strftime_Ymd_HMS (utc8 (utc_clock E (ticks s2))).
Proof.
  destruct (snapshot_file_plain E a1 s1 Hplain1) as (-> & _ & _).
  destruct (snapshot_file_plain E a2 s2 Hplain2) as (-> & _ & _).
  unfold snapshot_filename. split.
  - intro H. apply append_inj_r in H. apply (append_inj_r "/") in H.
    apply append_same_length_inj in H.
    + destruct H as [-> H]. split; [reflexivity |].
      apply (append_inj_r "_") in H.
      apply append_same_length_inj in H; [apply H | reflexivity].
    + rewrite !length_append, !length_strftime. reflexivity.
  - intros [-> ->]. reflexivity.
Qed.

Lemma snapshot_names_tell_agents_apart_witness :
  snapshot_path Sample.env "default" Sample.start
  = snapshot_path Sample.env "default" SampleRun.after_fetch
  <-> "default" = "default"
      /\ strftime_Ymd_HMS (utc8 (utc_clock Sample.env 0))
         = strftime_Ymd_HMS (utc8 (utc_clock Sample.env 2)).
Proof.
  apply (snapshot_names_tell_agents_apart Sample.env "default" "default"
           Sample.start SampleRun.after_fetch);
    vm_compute; first [reflexivity | split; discriminate].
Defined.

(** Without the restriction two agent names can give one path: [pathlib]
    drops the empty component of a//b. *)
Example slashes_make_agents_collide :
  snapshot_path Sample.env "a//b" Sample.start
  = snapshot_path Sample.env "a/b" Sample.start.
Proof. vm_compute. reflexivity. Qed.

(** ** Saving twice *)

Lemma names_put_existing name f l :
  In name (map fst l) -> map fst (put_file name f l) = map fst l.
Proof.
  induction l as [| [n g] r IH]; simpl; [intros [] |].
  intro H. destruct (String.eqb n name) eqn:Hn; simpl; [reflexivity |].
  f_equal. apply IH. destruct H as [H | H]; [| exact H].
  apply String.eqb_neq in Hn. contradiction.
Qed.

Lemma names_put_in name f l : In name (map fst (put_file name f l)).
Proof.
  induction l as [| [n g] r IH]; simpl; [left; reflexivity |].
  destruct (String.eqb n name) eqn:Hn; simpl.
  - left. apply String.eqb_eq. exact Hn.
  - right. exact IH.
Qed.

Lemma snapshot_names_set_set name f g k out st :
  snapshot_names (set_snapshot name g (later k out (set_snapshot name f st)))
  = snapshot_names (set_snapshot name f st).
Proof.
  unfold snapshot_names, set_snapshot, later.
  destruct (plain_name name); cbn [snapshots]; [| reflexivity].
  destruct (snapshots st) as [l |]; [| reflexivity]. cbn [option_map].
  apply names_put_existing, names_put_in.
Qed.

(** X9.  When [save_data] returns twice for the same agent with both
    clock readings in the same second, the second call writes to the file
    of the first: the path is the same, the directory has no more entries
    than after the first call, and the file holds the second record. *)
Theorem same_second_overwrites (E : Env) (first second : pyval)
    (agent : string) (st s1 s2 : State) (p1 p2 : Path)
    (H1 : save_data E first agent st = (Ok p1, s1))
    (H2 : save_data E second agent s1 = (Ok p2, s2))
    (Hsame : strftime_Ymd_HMS (utc_clock E (ticks st) + 8 * 3600 * 1000000)
             = strftime_Ymd_HMS (utc_clock E (S (ticks st)) + 8 * 3600 * 1000000)) :
  p2 = p1
  /\ snapshot_names s2 = snapshot_names s1
  /\ exists text,
       json_dump E second = (text, None)
       /\ option_map f_content (read_snapshot (snapshot_name E agent st) s2)
          = Some text.
Proof.
  apply save_data_ok_iff in H1.
  destruct H1 as (text1 & Hdir & _ & _ & _ & _ & -> & Hs1).
  assert (Hticks : ticks s1 = S (ticks st))
    by (rewrite Hs1; apply ticks_set_snapshot).
  assert (Hfilename : snapshot_filename E agent s1 = snapshot_filename E agent st).
  { unfold snapshot_filename, utc8. rewrite Hticks, Hsame. reflexivity. }
  assert (Hfile : snapshot_file E agent s1 = snapshot_file E agent st)
    by (unfold snapshot_file; rewrite Hfilename; reflexivity).
  assert (Hname : snapshot_name E agent s1 = snapshot_name E agent st)
    by (unfold snapshot_name; rewrite Hfile; reflexivity).
  apply save_data_ok_iff in H2.
  destruct H2 as (text2 & Hdir' & _ & Hdump & _ & _ & -> & ->).
  rewrite Hname in *.
  split; [exact Hfile |]. split.
  - rewrite Hs1. apply snapshot_names_set_set.
  - exists text2. split; [exact Hdump |].
    rewrite read_set_snapshot; [reflexivity | exact Hdir'].
Qed.

Lemma sample3_first_run :
  save_data Sample3.env Sample3.first "default" Sample.start
  = (Ok (Path_of "/srv/app/dashboard/data/snapshots/default_20240101_080000.json"),
     Sample3.after_first).
Proof. vm_compute. reflexivity. Qed.

Lemma sample3_second_run :
  save_data Sample3.env Sample3.second "default" Sample3.after_first
  = (Ok (Path_of "/srv/app/dashboard/data/snapshots/default_20240101_080000.json"),
     Sample3.after_second).
Proof. vm_compute. reflexivity. Qed.

Lemma same_second_overwrites_witness :
  snapshot_names Sample3.after_second = ["default_20240101_080000.json"]
  /\ exists text,
       json_dump Sample3.env Sample3.second = (text, None)
       /\ option_map f_content
            (read_snapshot "default_20240101_080000.json" Sample3.after_second)
          = Some text.
Proof.
  destruct (same_second_overwrites Sample3.env Sample3.first Sample3.second
              "default" Sample.start Sample3.after_first Sample3.after_second
              _ _ sample3_first_run sample3_second_run eq_refl)
    as (_ & Hnames & Hfile).
  split; [exact Hnames | exact Hfile].
Defined.

(** ** Listing the snapshots *)

Lemma list_ascii_app s t :
  list_ascii_of_string (s ++ t)
  = (list_ascii_of_string s ++ list_ascii_of_string t)%list.
Proof. induction s as [| c s IH]; simpl; [| rewrite IH]; reflexivity. Qed.

Lemma ends_with_rev_app p q : ends_with_rev p (p ++ q) = true.
Proof.
  induction p as [| c p IH]; simpl; [reflexivity |].
  rewrite Ascii.eqb_refl. exact IH.
Qed.

Lemma endswith_append s suffix : endswith (s ++ suffix) suffix = true.
Proof.
  unfold endswith. rewrite list_ascii_app, rev_app_distr.
  apply ends_with_rev_app.
Qed.

Lemma append_assoc_4 a b c d : a ++ b ++ c ++ d = (a ++ b ++ c) ++ d.
Proof.
  induction a as [| x a IH]; simpl.
  - induction b as [| y b IHb]; simpl; [| rewrite IHb]; reflexivity.
  - rewrite IH. reflexivity.
Qed.

Lemma in_put_file name f l : In (name, f) (put_file name f l).
Proof.
  induction l as [| [n g] r IH]; simpl; [left; reflexivity |].
  destruct (String.eqb n name) eqn:Hn; simpl.
  - left. apply String.eqb_eq in Hn. subst n. reflexivity.
  - right. exact IH.
Qed.

(** X10.  For an agent name without a path separator, the file a
    [save_data] that returns has written is among the files
    [DATA_DIR.glob("*.json")] lists afterwards, so the next
    [debug_environment] counts it. *)
Theorem saved_snapshot_is_listed (E : Env) (data : pyval) (agent : string)
    (st st' : State) (path : Path)
    (Hplain : plain_name agent = true)
    (H : save_data E data agent st = (Ok path, st')) :
  exists files f,
    glob_json st' = (Ok files, st')
    /\ In (snapshot_name E agent st, f) files
    /\ json_dump E data = (f_content f, None).
Proof.
  apply save_data_ok_iff in H.
  destruct H as (text & Hdir & _ & Hdump & _ & _ & _ & ->).
  destruct (snapshot_file_plain E agent st Hplain) as (_ & _ & Hname).
  rewrite Hname in *.
  assert (Hentry : plain_name (snapshot_filename E agent st) = true)
    by (rewrite plain_snapshot_filename; exact Hplain).
  unfold has_place in Hdir. rewrite Hentry in Hdir.
  destruct (snapshots st) as [l |] eqn:Hl; [| discriminate Hdir].
  unfold glob_json, set_snapshot. rewrite Hentry. cbn [snapshots later].
  rewrite Hl. cbn [option_map].
  eexists. exists (mkFile text (mtime_at E (S (ticks st)))).
  split; [reflexivity |]. split; [| exact Hdump].
  apply filter_In. split; [apply in_put_file |].
  cbn [fst]. unfold snapshot_filename. rewrite append_assoc_4.
  apply endswith_append.
Qed.

Lemma saved_snapshot_is_listed_witness :
  exists files f,
    glob_json Sample3.after_first = (Ok files, Sample3.after_first)
    /\ In ("default_20240101_080000.json", f) files
    /\ json_dump Sample3.env Sample3.first = (f_content f, None).
Proof.
  exact (saved_snapshot_is_listed Sample3.env Sample3.first "default"
           Sample.start Sample3.after_first _ eq_refl sample3_first_run).
Defined.

(** ** Records the encoder accepts *)

Section MemberSuccess.

Variable member : pyval -> emitted.
Variable fs : float -> string.
Variable opening separator : string.

Lemma list_members_ok l :
  Forall (fun v => snd (member v) = None <-> serializable v = true) l ->
  forall first,
    snd (list_members member opening separator first l) = None
    <-> forallb serializable l = true.
Proof.
  induction 1 as [| x r Hx _ IH]; intro first; simpl; [tauto |].
  rewrite !snd_seq. simpl. rewrite andb_true_iff, <- Hx, <- (IH false).
  destruct (snd (member x)); split; try tauto; try discriminate.
Qed.

Lemma dict_members_ok d :
  Forall (fun kv => snd (member (snd kv)) = None
                    <-> serializable (snd kv) = true) d ->
  forall first,
    snd (dict_members member fs separator first d) = None
    <-> forallb (fun kv : pykey * pyval =>
                   let (k, x) := kv in basic_key k && serializable x) d = true.
Proof.
  induction 1 as [| [k x] r Hx _ IH]; intro first; simpl; [tauto |].
  simpl in Hx. rewrite !andb_true_iff, <- Hx, <- (IH false).
  destruct k as [s | n | f | b | | cls]; simpl;
    try (destruct b); rewrite ?snd_seq; simpl;
    destruct (snd (member x)); split; try tauto; try discriminate;
    try (intros [[H _] _]; discriminate H);
    try (intros [[_ H] _]; discriminate H).
Qed.

End MemberSuccess.

Lemma custom_iterencode_ok fs ind again :
  (forall s level, again (PStr s) level = emit (encode_basestring_ascii s)) ->
  forall v level,
    snd (_iterencode JSONEncoder_default fs ind again v level) = None
    <-> serializable v = true.
Proof.
  intro Hagain. induction v using pyval_nested_ind; intro level;
    try (simpl; tauto); try (destruct b; simpl; tauto).
  - destruct l as [| x r]; [simpl; tauto |].
    cbn [_iterencode serializable]. rewrite snd_seq.
    rewrite <- (list_members_ok
                  (fun value => _iterencode JSONEncoder_default fs ind again
                                  value (S level))
                  ("[" ++ newline_indent ind (S level))
                  (_item_separator ind ++ newline_indent ind (S level))
                  (x :: r)) with (first := true).
    + destruct (snd (list_members _ _ _ true (x :: r))); simpl;
        split; try tauto; discriminate.
    + eapply Forall_impl; [| exact H]. intros v Hv. apply Hv.
  - destruct d as [| [k x] r]; [simpl; tauto |].
    cbn [_iterencode serializable]. rewrite !snd_seq. cbn [emit snd].
    rewrite <- (dict_members_ok
                  (fun value => _iterencode JSONEncoder_default fs ind again
                                  value (S level))
                  fs (_item_separator ind ++ newline_indent ind (S level))
                  ((k, x) :: r)) with (first := true).
    + destruct (snd (dict_members _ _ _ true ((k, x) :: r))); simpl;
        split; try tauto; discriminate.
    + eapply Forall_impl; [| exact H]. intros v Hv. apply Hv.
  - cbn [_iterencode JSONEncoder_default serializable]. rewrite Hagain.
    simpl. tauto.
  - cbn [_iterencode JSONEncoder_default serializable]. simpl.
    split; discriminate.
Qed.

Lemma json_dump_ok_iff E data :
  snd (json_dump E data) = None <-> serializable data = true.
Proof.
  unfold json_dump, json_iterencode. rewrite recursion_limit_S.
  cbn [iterencode_depth]. apply custom_iterencode_ok.
  intros s level. apply iterencode_depth_str.
Qed.

Lemma encoder_accepts_helper E data :
  (exists text, json_dump E data = (text, None)) <-> serializable data = true.
Proof.
  rewrite <- json_dump_ok_iff. split.
  - intros [text ->]. reflexivity.
  - intro H. exists (fst (json_dump E data)).
    destruct (json_dump E data). simpl in *. subst. reflexivity.
Qed.

(** X11.  [json.dump] with the job's [JSONEncoder] runs to the end exactly
    for the records made of JSON-native values and UUIDs under keys that
    are strings, numbers, booleans or [None]; a UUID used as a key is not
    accepted, [default] being consulted for values only. *)
Theorem encoder_accepts_exactly_serializable (E : Env) (data : pyval) :
  (exists text, json_dump E data = (text, None)) <-> serializable data = true.
Proof. apply encoder_accepts_helper. Qed.

Lemma serializable_converts E p d :
  converts E p d -> serializable d = position_passes p.
Proof.
  intros (f1 & f2 & f3 & f4 & f5 & f6 & f7 & _ & _ & _ & _ & _ & _ & _ & ->).
  unfold position_record, position_passes. simpl.
  rewrite !andb_true_r. rewrite andb_assoc. reflexivity.
Qed.

Lemma serializable_positions E positions ds :
  Forall2 (converts E) positions ds ->
  forallb serializable ds = forallb position_passes positions.
Proof.
  induction 1 as [| p d r ds' Hd _ IH]; simpl; [reflexivity |].
  rewrite (serializable_converts E p d Hd), IH. reflexivity.
Qed.

(** X12.  The record of a fetch that returns can be encoded exactly when
    the attributes the fetch copies as they came can be: id, currency,
    status and trading_blocked of the account, symbol, side and exchange
    of each position.  The fields the job computes never stand in the way. *)
Theorem fetched_record_is_encodable (E : Env) (st st' : State) (data : pyval)
    (H : fetch_alpaca_data E st = (Ok data, st')) :
  exists account positions,
    account_of E (configured_client E) = Ok account
    /\ positions_of E (configured_client E) = Ok positions
    /\ ((exists text, json_dump E data = (text, None))
        <-> account_passes account && forallb position_passes positions = true).
Proof.
  apply fetch_ok_iff in H.
  destruct H as (key & secret & account & positions & positions_data & cash
                 & pv & bp & equity & Hkey & _ & Hsec & _ & _ & Hacc & _ & _ & _
                 & _ & Hpos & Hloop & -> & _).
  rewrite (job_client_configured E key secret Hkey Hsec) in Hacc, Hpos.
  exists account, positions. split; [exact Hacc |]. split; [exact Hpos |].
  rewrite encoder_accepts_helper. unfold snapshot_record, account_passes.
  cbn [serializable forallb basic_key andb].
  rewrite (serializable_positions E positions positions_data Hloop).
  rewrite !andb_true_r.
  destruct (serializable (acc_id account)), (serializable (acc_currency account)),
    (serializable (acc_status account)),
    (serializable (acc_trading_blocked account)),
    (forallb position_passes positions); simpl; tauto.
Qed.

Lemma fetched_record_is_encodable_witness :
  exists text, json_dump Sample2.env_two_positions Sample2Run.record = (text, None).
Proof.
  destruct (fetched_record_is_encodable Sample2.env_two_positions Sample.start
              Sample2Run.after_fetch Sample2Run.record sample2_fetch_run)
    as (account & positions & Hacc & Hpos & Hiff).
  apply Hiff. injection Hacc as <-. injection Hpos as <-. reflexivity.
Defined.

(** ** The whole job *)

Lemma state_at_fetch_is E st s0 :
  debug_environment E st = (Ok tt, s0) ->
  state_at_fetch E st = later 0 ["Starting Alpaca data fetch..."] s0.
Proof. intro Hd. unfold state_at_fetch. rewrite bind_eq, Hd. reflexivity. Qed.

(** [run_job], by the outcome of its two steps, once [debug_environment]
    has returned. *)
Lemma run_job_cases E agent st s0 :
  debug_environment E st = (Ok tt, s0) ->
  run_job E agent st
  = match fetch_alpaca_data E (state_at_fetch E st) with
    | (Raise e, s) => run_job_outcome (Raise e, s)
    | (Ok data, s) =>
        match save_data E data agent (state_at_save s) with
        | (Raise e, s') => run_job_outcome (Raise e, s')
        | (Ok _, s') => (Ok (true, success_msg), snd (print success_msg s'))
        end
    end.
Proof.
  intro Hd.
  rewrite (run_job_after_debug E agent st _ Hd), run_job_try_run.
  unfold state_at_fetch. rewrite bind_eq, Hd. unfold state_at_save.
  destruct (fetch_alpaca_data E _) as [[data | e] s]; [| reflexivity].
  destruct (save_data E data agent _) as [[path | e] s']; reflexivity.
Qed.

Lemma state_at_fetch_frame E st s0 :
  debug_environment E st = (Ok tt, s0) ->
  ticks (state_at_fetch E st) = (2 + ticks st)%nat
  /\ stderr (state_at_fetch E st) = stderr st
  /\ api_log (state_at_fetch E st) = api_log st
  /\ snapshots (state_at_fetch E st) = snapshots st
  /\ elsewhere (state_at_fetch E st) = elsewhere st.
Proof.
  intro Hd. rewrite (state_at_fetch_is E st s0 Hd).
  destruct (debug_environment_ok E st s0 Hd) as [out ->].
  repeat split; reflexivity.
Qed.

Lemma fetch_ok_ticks E st data st' :
  fetch_alpaca_data E st = (Ok data, st') -> ticks st' = (2 + ticks st)%nat.
Proof.
  intro H. apply fetch_ok_iff in H.
  destruct H as (key & secret & account & positions & positions_data
                 & cash & pv & bp & equity & _ & _ & _ & _ & _ & _ & _
                 & _ & _ & _ & _ & _ & _ & ->).
  reflexivity.
Qed.

Lemma fetch_keeps_stderr E st :
  stderr (snd (fetch_alpaca_data E st)) = stderr st.
Proof. apply (preserves_fetch stderr); intros ? ? ? ? ? ? ?; reflexivity. Qed.

Lemma fetch_keeps_snapshots E st :
  snapshots (snd (fetch_alpaca_data E st)) = snapshots st.
Proof. apply (preserves_fetch snapshots); intros ? ? ? ? ? ? ?; reflexivity. Qed.

Lemma fetch_keeps_elsewhere E st :
  elsewhere (snd (fetch_alpaca_data E st)) = elsewhere st.
Proof. apply (preserves_fetch elsewhere); intros ? ? ? ? ? ? ?; reflexivity. Qed.

(** X13.  Whatever happens, one run of the job builds at most one client
    and sends at most one account request and one positions request, in
    this order -- nothing is tried again; a run that returns [True] has
    made all three calls. *)
Theorem run_job_never_retries (E : Env) (agent : string) (st : State) :
  (exists n,
      api_log (snd (run_job E agent st))
      = (api_log st ++ firstn n (fetch_calls (configured_client E)))%list)
  /\ (forall msg st',
         run_job E agent st = (Ok (true, msg), st') ->
         api_log st' = (api_log st ++ fetch_calls (configured_client E))%list).
Proof.
  pose proof (debug_environment_api_log E st) as Hdlog.
  destruct (debug_environment E st) as [[[] | e0] s0] eqn:Hd; cbn [snd] in Hdlog.
  2: { rewrite (run_job_debug_raises E agent st e0 s0 Hd). split.
       - exists 0%nat. cbn [snd firstn]. rewrite app_nil_r. exact Hdlog.
       - intros msg st' H. discriminate H. }
  rewrite (run_job_cases E agent st s0 Hd).
  destruct (state_at_fetch_frame E st s0 Hd) as (_ & _ & Hlog & _).
  destruct (fetch_log_any E (state_at_fetch E st)) as [n Hn].
  rewrite Hlog in Hn.
  destruct (fetch_alpaca_data E (state_at_fetch E st)) as [[data | e] s] eqn:Hf;
    cbn [snd] in Hn.
  - assert (Hall : api_log s
                   = (api_log st ++ fetch_calls (configured_client E))%list).
    { apply fetch_ok_iff in Hf.
      destruct Hf as (key & secret & account & positions & positions_data
                      & cash & pv & bp & equity & Hkey & _ & Hsec & _ & _ & _ & _
                      & _ & _ & _ & _ & _ & _ & ->).
      cbn [api_log]. rewrite Hlog.
      rewrite (job_client_configured E key secret Hkey Hsec). reflexivity. }
    pose proof (save_data_touches_one_file_helper E data agent (state_at_save s))
      as Hsave.
    destruct (save_data E data agent (state_at_save s)) as [[path | e] s']
      eqn:Hs; cbn [snd] in Hsave; cbn [run_job_outcome snd print api_log].
    + split.
      * exists 3%nat. rewrite Hsave. exact Hall.
      * intros msg st' H. injection H as _ <-. cbn [api_log].
        rewrite Hsave. exact Hall.
    + split.
      * exists 3%nat. rewrite Hsave. exact Hall.
      * intros msg st' H. discriminate H.
  - cbn [run_job_outcome snd api_log]. split.
    + exists n. exact Hn.
    + intros msg st' H. discriminate H.
Qed.



(** X15.  A run that returns [True] has fetched a record and left it in
    the file at DATA_DIR / <agent>_<stamp>.json, where the stamp is the
    fifth reading of the clock since the run began: the file holds the
    whole JSON text of the record, and for an agent name without a slash it
    is the entry <agent>_<stamp>.json of the snapshot directory.  No
    traceback was printed. *)
Theorem successful_job_has_written_the_record (E : Env) (agent : string)
    (st st' : State) (msg : string)
    (H : run_job E agent st = (Ok (true, msg), st')) :
  let filename :=
    agent ++ "_"
    ++ strftime_Ymd_HMS (utc_clock E (4 + ticks st) + 8 * 3600 * 1000000)
    ++ ".json" in
  let name := file_key (DATA_DIR E) (joinpath (DATA_DIR E) filename) in
  exists data s text,
    fetch_alpaca_data E (state_at_fetch E st) = (Ok data, s)
    /\ json_dump E data = (text, None)
    /\ option_map f_content (read_snapshot name st') = Some text
    /\ (plain_name agent = true ->
        name = filename /\ In filename (snapshot_names st'))
    /\ stderr st' = stderr st
    /\ msg = success_msg.
Proof.
  cbv zeta.
  destruct (debug_environment E st) as [[[] | e0] s0] eqn:Hd.
  2: { rewrite (run_job_debug_raises E agent st e0 s0 Hd) in H. discriminate H. }
  rewrite (run_job_cases E agent st s0 Hd) in H.
  destruct (fetch_alpaca_data E (state_at_fetch E st)) as [[data | e] s] eqn:Hf;
    [| discriminate H].
  destruct (save_data E data agent (state_at_save s)) as [[path | e] s'] eqn:Hs;
    [| discriminate H].
  injection H as <- <-.
  destruct (state_at_fetch_frame E st s0 Hd) as (Ht & Herr & _ & _).
  pose proof (fetch_ok_ticks E _ _ _ Hf) as Hticks. rewrite Ht in Hticks.
  pose proof (fetch_keeps_stderr E (state_at_fetch E st)) as Herr'.
  rewrite Hf, Herr in Herr'. cbn [snd] in Herr'.
  assert (Hfilename : snapshot_filename E agent (state_at_save s)
                      = agent ++ "_"
                        ++ strftime_Ymd_HMS
                             (utc_clock E (4 + ticks st) + 8 * 3600 * 1000000)
                        ++ ".json").
  { unfold snapshot_filename, utc8, state_at_save. cbn [print snd ticks].
    rewrite Hticks. reflexivity. }
  rewrite <- Hfilename. clear Hfilename.
  fold (snapshot_file E agent (state_at_save s)).
  fold (snapshot_name E agent (state_at_save s)).
  apply save_data_ok_iff in Hs.
  destruct Hs as (text & Hdir & _ & Hdump & _ & _ & _ & ->).
  pose proof (snapshot_file_plain E agent (state_at_save s)) as Hplain.
  pose proof (plain_snapshot_filename E agent (state_at_save s)) as Hentry.
  set (filename := snapshot_filename E agent (state_at_save s)) in *.
  set (name := snapshot_name E agent (state_at_save s)) in *.
  clearbody name filename.
  exists data, s, text. split; [reflexivity |]. split; [exact Hdump |].
  split; [| split; [| split; [| reflexivity]]].
  - cbn [print snd].
    change (option_map f_content
              (read_snapshot name
                 (later 0 [success_msg]
                    (set_snapshot name
                       (mkFile text (mtime_at E (S (ticks (state_at_save s)))))
                       (later 1
                          (("Attempting to save data to: "
                            ++ snapshot_path E agent (state_at_save s))%string
                           :: save_output
                                (snapshot_path E agent (state_at_save s)) text)
                          (state_at_save s)))))
            = Some text).
    rewrite later_set_snapshot, read_set_snapshot; [reflexivity | exact Hdir].
  - intro Hp. destruct (Hplain Hp) as (_ & _ & Hname). split; [exact Hname |].
    subst name. rewrite <- Hentry in Hp.
    unfold has_place in Hdir. rewrite Hp in Hdir.
    unfold snapshot_names, set_snapshot, later. rewrite Hp.
    cbn [print snd snapshots].
    destruct (snapshots (state_at_save s)) as [l |]; [| discriminate Hdir].
    cbn [option_map]. apply names_put_in.
  - cbn [print snd stderr]. unfold set_snapshot.
    destruct (plain_name name); cbn [stderr later]; exact Herr'.
Qed.

Lemma sample_job_run :
  run_job Sample.env "default" Sample.start
  = (Ok (true, success_msg), sample_after_job).
Proof. vm_compute. reflexivity. Qed.

Lemma successful_job_has_written_the_record_witness :
  exists text,
    option_map f_content
      (read_snapshot "default_20240101_080004.json" sample_after_job)
    = Some text
    /\ In "default_20240101_080004.json" (snapshot_names sample_after_job)
    /\ stderr sample_after_job = [].
Proof.
  destruct (successful_job_has_written_the_record Sample.env "default"
              Sample.start sample_after_job success_msg sample_job_run)
    as (data & s & text & _ & _ & Hread & Hplain & Herr & _).
  destruct (Hplain eq_refl) as [Hname Hin].
  exists text. split; [| split].
  - rewrite Hname in Hread. exact Hread.
  - exact Hin.
  - exact Herr.
Defined.

(** ** The Malaysia time, field by field *)

Lemma utc8_fields t :
  dt_microsecond (t + 8 * 3600 * 1000000) = dt_microsecond t
  /\ dt_second (t + 8 * 3600 * 1000000) = dt_second t
  /\ dt_minute (t + 8 * 3600 * 1000000) = dt_minute t
  /\ dt_hour (t + 8 * 3600 * 1000000) = (dt_hour t + 8) mod 24
  /\ dt_ordinal (t + 8 * 3600 * 1000000)
     = dt_ordinal t + (if dt_hour t <? 16 then 0 else 1).
Proof.
  unfold dt_microsecond, dt_second, dt_minute, dt_hour, dt_ordinal,
    us_per_day, us_per_second.
  destruct (Z.ltb_spec ((t mod (86400 * 1000000)) / (3600 * 1000000)) 16);
    Z.div_mod_to_equations; repeat split; lia.
Qed.

(** X16.  The time [get_malaysia_time] returns has the minute, second and
    microsecond of the UTC reading and its hour plus eight modulo 24; the
    date is that of the reading before 16:00 UTC and the next day from
    16:00 on. *)
Theorem malaysia_time_field_by_field (E : Env) (st : State) :
  exists my st',
    get_malaysia_time E st = (Ok my, st')
    /\ dt_microsecond my = dt_microsecond (utc_clock E (ticks st))
    /\ dt_second my = dt_second (utc_clock E (ticks st))
    /\ dt_minute my = dt_minute (utc_clock E (ticks st))
    /\ dt_hour my = (dt_hour (utc_clock E (ticks st)) + 8) mod 24
    /\ dt_ordinal my
       = dt_ordinal (utc_clock E (ticks st))
         + (if dt_hour (utc_clock E (ticks st)) <? 16 then 0 else 1).
Proof.
  eexists. eexists. split; [apply get_malaysia_time_run |].
  apply utc8_fields.
Qed.

(** ** The diagnostic listing *)

Lemma insert_by_mtime_perm x l : Permutation (x :: l) (insert_by_mtime x l).
Proof.
  induction l as [| y r IH]; simpl; [reflexivity |].
  destruct (f_mtime (snd x) <? f_mtime (snd y)); [reflexivity |].
  rewrite perm_swap. apply perm_skip. exact IH.
Qed.

Lemma insert_by_mtime_sorted x l :
  StronglySorted older l -> StronglySorted older (insert_by_mtime x l).
Proof.
  induction 1 as [| y r Hr IH Hy]; simpl.
  - constructor; constructor.
  - destruct (Z.ltb_spec (f_mtime (snd x)) (f_mtime (snd y))) as [Hlt | Hge].
    + constructor; [constructor; assumption |].
      constructor; [unfold older; lia |].
      eapply Forall_impl; [| exact Hy]. unfold older. intros z Hz. lia.
    + constructor; [exact IH |].
      apply (Permutation_Forall (insert_by_mtime_perm x r)).
      constructor; [exact Hge | exact Hy].
Qed.

Lemma fold_insert_perm files acc :
  Permutation (acc ++ files)
    (fold_left (fun acc x => insert_by_mtime x acc) files acc).
Proof.
  revert acc. induction files as [| x r IH]; intro acc; simpl.
  - rewrite app_nil_r. reflexivity.
  - rewrite <- IH. rewrite <- insert_by_mtime_perm.
    symmetry. apply Permutation_middle.
Qed.

Lemma fold_insert_sorted files acc :
  StronglySorted older acc ->
  StronglySorted older (fold_left (fun acc x => insert_by_mtime x acc) files acc).
Proof.
  revert acc. induction files as [| x r IH]; intros acc H; simpl; [exact H |].
  apply IH, insert_by_mtime_sorted, H.
Qed.

Lemma sorted_by_mtime_perm files : Permutation files (sorted_by_mtime files).
Proof. apply (fold_insert_perm files []). Qed.

Lemma sorted_by_mtime_sorted files : StronglySorted older (sorted_by_mtime files).
Proof. apply fold_insert_sorted. constructor. Qed.

Lemma in_skipn_in {A} (x : A) n l : In x (skipn n l) -> In x l.
Proof.
  revert l. induction n as [| n IH]; intros l H; [exact H |].
  destruct l as [| y r]; [exact H |]. right. apply IH. exact H.
Qed.

Lemma sorted_split_older (l : list (string * file)) n f g :
  StronglySorted older l -> In g (firstn n l) -> In f (skipn n l) -> older g f.
Proof.
  intro H. revert n. induction H as [| y r Hr IH Hy]; intros n Hg Hf.
  - destruct n; contradiction Hf.
  - destruct n as [| n]; [contradiction Hg |].
    simpl in Hg, Hf. destruct Hg as [<- | Hg].
    + rewrite Forall_forall in Hy. apply Hy.
      eapply in_skipn_in. exact Hf.
    + eapply IH; eassumption.
Qed.

Lemma in_last_n_sorted n x files :
  In x (last_n n (sorted_by_mtime files)) -> In x files.
Proof.
  intro H. apply (Permutation_in x (Permutation_sym (sorted_by_mtime_perm files))).
  eapply in_skipn_in. exact H.
Qed.


(** *** What the listing can raise *)

Lemma bind_raise_inv {A B} (c : M A) (k : A -> M B) st e s :
  bind c k st = (Raise e, s) ->
  c st = (Raise e, s) \/ exists a s1, c st = (Ok a, s1) /\ k a s1 = (Raise e, s).
Proof.
  rewrite bind_eq. destruct (c st) as [[a | e'] s1]; intro H.
  - right. eauto.
  - left. injection H as -> ->. reflexivity.
Qed.

Lemma stat_mtime_raises E x st e s :
  stat_mtime E x st = (Raise e, s) -> stat_error E (fst x) = Some e.
Proof.
  unfold stat_mtime. destruct (stat_error E (fst x)); [| discriminate].
  unfold raise. intro H. injection H as -> _. reflexivity.
Qed.

Lemma stat_mtime_ok E x st t s :
  stat_mtime E x st = (Ok t, s) -> t = f_mtime (snd x).
Proof.
  unfold stat_mtime. destruct (stat_error E (fst x)); [discriminate |].
  unfold ret. intro H. injection H as <- _. reflexivity.
Qed.

Lemma for_each_raises {A B} (f : A -> M B) (P : A -> exn -> Prop) :
  (forall a st e s, f a st = (Raise e, s) -> P a e) ->
  forall l st e s,
    for_each f l st = (Raise e, s) -> exists a, In a l /\ P a e.
Proof.
  intros Hf l. induction l as [| a r IH]; intros st e s H; simpl in H.
  - discriminate H.
  - apply bind_raise_inv in H. destruct H as [H | (b & s1 & _ & H)].
    + exists a. split; [left; reflexivity | eapply Hf; exact H].
    + apply bind_raise_inv in H. destruct H as [H | (bs & s2 & _ & H)].
      * destruct (IH _ _ _ H) as (x & Hin & Hx). exists x.
        split; [right; exact Hin | exact Hx].
      * discriminate H.
Qed.

Lemma print_file_line_raises E x st e s :
  print_file_line E x st = (Raise e, s) -> unreadable E x e.
Proof.
  unfold print_file_line. intro H.
  apply bind_raise_inv in H. destruct H as [H | (t & s1 & Ht & H)].
  - left. eapply stat_mtime_raises. exact H.
  - apply stat_mtime_ok in Ht. subst t.
    apply bind_raise_inv in H. destruct H as [H | (d & s2 & _ & H)].
    + right. unfold lift in H. injection H as H _. exact H.
    + discriminate H.
Qed.

Lemma sorted_by_stat_raises E files st e s :
  sorted_by_stat E files st = (Raise e, s) ->
  exists x, In x files /\ unreadable E x e.
Proof.
  unfold sorted_by_stat. intro H.
  apply bind_raise_inv in H. destruct H as [H | (ts & s1 & _ & H)].
  - apply (for_each_raises _ (fun x e => stat_error E (fst x) = Some e)
             (stat_mtime_raises E)) in H.
    destruct H as (x & Hin & Hx). exists x. split; [exact Hin | left; exact Hx].
  - discriminate H.
Qed.

Lemma sorted_by_stat_ok E files st l s :
  sorted_by_stat E files st = (Ok l, s) -> l = sorted_by_mtime files.
Proof.
  unfold sorted_by_stat. intro H. bind_inv H ts s1 Hts.
  unfold ret in H. injection H as <- _. reflexivity.
Qed.

Lemma bind_raise_quiet n {A B} (c : M A) (k : A -> M B) st e s :
  quiet n c ->
  bind c k st = (Raise e, s) ->
  c st = (Raise e, s)
  \/ exists a out,
       c st = (Ok a, later n out st) /\ k a (later n out st) = (Raise e, s).
Proof.
  intros Hq H. specialize (Hq st). rewrite bind_eq in H.
  destruct (c st) as [[a | e'] s1].
  - destruct Hq as [out ->]. right. eauto.
  - left. injection H as -> ->. reflexivity.
Qed.

(** A step that returns is passed over when looking for what raised. *)
Ltac quiet_step n H :=
  apply (bind_raise_quiet n) in H; [| solve [auto with quiet]];
  destruct H as [H | (? & ? & _ & H)];
  [first [discriminate H
         | rewrite get_malaysia_time_run in H; discriminate H] |].

(** [debug_environment] raises only what [os.getcwd], [DATA_DIR.exists()],
    the [stat] of a listed file or [fromtimestamp] raised. *)
Lemma dir_exists_raises E st e s :
  dir_exists E st = (Raise e, s) -> exists_error E = Some e.
Proof.
  unfold dir_exists. destruct (exists_error E); [| discriminate].
  intro H. injection H as -> _. reflexivity.
Qed.

Lemma debug_environment_raises E st e s :
  debug_environment E st = (Raise e, s) ->
  getcwd E = Raise e \/ exists_error E = Some e
  \/ exists x, In x (json_files st) /\ unreadable E x e.
Proof.
  unfold debug_environment. intro H.
  quiet_step 0%nat H.
  apply (bind_raise_quiet 0) in H; [| auto with quiet].
  destruct H as [H | (cwd & out & _ & H)].
  { left. unfold lift in H. injection H as H _. exact H. }
  right.
  do 3 quiet_step 0%nat H.
  apply (bind_raise_quiet 0) in H; [| auto with quiet].
  destruct H as [H | (ex0 & out0 & _ & H)].
  { left. eapply dir_exists_raises. exact H. }
  quiet_step 0%nat H. quiet_step 1%nat H. quiet_step 0%nat H.
  quiet_step 1%nat H. do 4 quiet_step 0%nat H.
  apply (bind_raise_quiet 0) in H; [| auto with quiet].
  destruct H as [H | (ex1 & out1 & Hex1 & H)].
  { left. eapply dir_exists_raises. exact H. }
  right.
  apply bind_raise_inv in H. destruct H as [H | (u & s1 & _ & H)];
    [| discriminate H].
  destruct ex1; [| discriminate H].
  apply bind_raise_inv in H. destruct H as [H | (files & s2 & Hglob & H)];
    [discriminate H |].
  assert (Hfiles : files = json_files st)
    by (unfold glob_json in Hglob; injection Hglob as <- _; reflexivity).
  clear Hglob. rewrite <- Hfiles. clear Hfiles.
  apply bind_raise_inv in H. destruct H as [H | (u2 & s3 & _ & H)];
    [discriminate H |].
  destruct files as [| f0 r]; [discriminate H |].
  apply bind_raise_inv in H. destruct H as [H | (sorted & s4 & Hsorted & H)].
  { eapply sorted_by_stat_raises. exact H. }
  apply sorted_by_stat_ok in Hsorted. subst sorted.
  apply bind_raise_inv in H. destruct H as [H | (u3 & s5 & _ & H)];
    [discriminate H |].
  apply bind_raise_inv in H. destruct H as [H | (u4 & s6 & _ & H)];
    [| discriminate H].
  apply (for_each_raises _ (unreadable E) (print_file_line_raises E)) in H.
  destruct H as (shown & Hin & Hshown). exists shown.
  split; [| exact Hshown]. eapply in_last_n_sorted. exact Hin.
Qed.


(** On the machine with the link to a file that is gone it raises what
    the [stat] of the link raised. *)
Example debug_environment_raises_on_dangling_link :
  fst (debug_environment Sample4.env Sample4.start) = Raise Sample4.gone.
Proof. vm_compute. reflexivity. Qed.

(** ** The script body *)

Section WorkingFileSystem.

(** A machine on which [os.getcwd], [DATA_DIR.exists()], [stat] and
    [fromtimestamp] work. *)
Variable E : Env.
Variable cwd : string.
Hypothesis Hcwd : getcwd E = Ok cwd.
Hypothesis Hexists : exists_error E = None.
Hypothesis Hstat : forall name, stat_error E name = None.
Hypothesis Hfromtimestamp : forall t, exists d, fromtimestamp E t = Ok d.

Lemma reads_dir_exists : reads 0 (dir_exists E).
Proof.
  intro st. eexists; exists []. unfold dir_exists. rewrite Hexists, later_0_nil.
  reflexivity.
Qed.

Lemma reads_stat_mtime x : reads 0 (stat_mtime E x).
Proof. unfold stat_mtime. rewrite Hstat. apply reads_ret. Qed.

Lemma reads_print_file_line f : reads 0 (print_file_line E f).
Proof.
  unfold print_file_line.
  apply (reads_bind 0 0); [apply reads_stat_mtime | intro t].
  destruct (Hfromtimestamp t) as [d ->].
  apply (reads_bind 0 0); [| intro; apply reads_print].
  intro st. exists d, []. unfold lift. rewrite later_0_nil. reflexivity.
Qed.

Lemma reads_sorted_by_stat files : reads 0 (sorted_by_stat E files).
Proof.
  unfold sorted_by_stat.
  apply (reads_bind 0 0); [| intro; apply reads_ret].
  apply reads_for_each. exact reads_stat_mtime.
Qed.

Lemma reads_file_lines files : reads 0 (for_each (print_file_line E) files).
Proof. apply reads_for_each. exact reads_print_file_line. Qed.

(** On such a machine [debug_environment] returns. *)
Lemma reads_debug_environment : reads 2 (debug_environment E).
Proof.
  unfold debug_environment. rewrite Hcwd.
  apply (reads_bind 0 2); [auto with reads | intros _].
  apply (reads_bind 0 2).
  { intro st. exists cwd, []. unfold lift. rewrite later_0_nil. reflexivity. }
  intro cwd'.
  repeat (apply (reads_bind 0 2); [apply reads_print | intros _]).
  apply (reads_bind 0 2); [apply reads_dir_exists | intro ex].
  apply (reads_bind 0 2); [auto with reads | intros _].
  apply (reads_bind 1 1); [auto with reads | intro utc].
  apply (reads_bind 0 1); [auto with reads | intros _].
  apply (reads_bind 1 0); [auto with reads | intro my].
  repeat (apply (reads_bind 0 0); [apply reads_print | intros _]).
  apply (reads_bind 0 0); [apply reads_dir_exists | intro ex'].
  apply (reads_bind 0 0); [| intros _; apply reads_print].
  destruct ex'; [| apply reads_ret].
  apply (reads_bind 0 0); [auto with reads | intro files].
  apply (reads_bind 0 0); [auto with reads | intros _].
  destruct files; [apply reads_ret |].
  apply (reads_bind 0 0); [apply reads_sorted_by_stat | intro sorted].
  apply (reads_bind 0 0); [auto with reads | intros _].
  apply (reads_bind 0 0); [apply reads_file_lines | intros _; apply reads_ret].
Qed.

(** So that [run_job] returns, whatever its two steps come to. *)
Lemma run_job_returns agent st :
  exists ok msg s, run_job E agent st = (Ok (ok, msg), s).
Proof.
  destruct (reads_debug_environment st) as ([] & out & Hd).
  rewrite (run_job_cases E agent st _ Hd).
  destruct (fetch_alpaca_data E (state_at_fetch E st)) as [[data | e] s];
    [| unfold run_job_outcome; eauto].
  destruct (save_data E data agent (state_at_save s)) as [[path | e] s'];
    unfold run_job_outcome; eauto.
Qed.

(** The final listing of the script. *)
Lemma reads_final_check :
  reads 0 (print (newline ++ "Final check - Files in "
                  ++ path_str (DATA_DIR E) ++ ":") ;;
           ex <- dir_exists E ;;
           if ex : bool then
             listing <- glob_json ;;
             files <- sorted_by_stat E listing ;;
             for_each (print_file_line E) (last_n 5 files) ;;
             ret tt
           else print "  Data directory does not exist!").
Proof.
  apply (reads_bind 0 0); [apply reads_print | intros _].
  apply (reads_bind 0 0); [apply reads_dir_exists | intro ex].
  destruct ex; [| apply reads_print].
  apply (reads_bind 0 0); [apply reads_glob_json | intro listing].
  apply (reads_bind 0 0); [apply reads_sorted_by_stat | intro files].
  apply (reads_bind 0 0); [apply reads_file_lines | intros _; apply reads_ret].
Qed.

Lemma main_run st :
  exists ok msg s st',
    run_job E "default" (state_at_job E st) = (Ok (ok, msg), s)
    /\ main E st = (Ok tt, st')
    /\ exists out,
         stdout st'
         = (stdout s
            ++ ("Job completed. Success: " ++ bool_str ok)%string
            :: ("Message: " ++ msg)%string :: out)%list.
Proof.
  destruct (run_job_returns "default" (state_at_job E st))
    as (ok & msg & s & Hrun).
  destruct (reads_final_check
              (mkState (ticks s)
                 ((stdout s ++ ["Job completed. Success: " ++ bool_str ok])
                  ++ ["Message: " ++ msg])
                 (stderr s) (api_log s) (snapshots s) (elsewhere s)))
    as (u & out & Hfinal).
  exists ok, msg, s. eexists. split; [exact Hrun |]. split.
  - unfold main.
    eapply bind_ok; [apply get_malaysia_time_run | unfold later; next].
    eapply bind_ok; [reflexivity | next].
    eapply bind_ok.
    { unfold state_at_job, utc8, later in Hrun.
      cbn [ticks stdout stderr api_log snapshots elsewhere] in Hrun.
      rewrite app_nil_r. exact Hrun. }
    next. eapply bind_ok; [reflexivity | next].
    eapply bind_ok; [reflexivity | next].
    cbn [fst snd]. rewrite Hfinal. destruct u. reflexivity.
  - exists out. unfold later. cbn [stdout].
    rewrite <- !app_assoc. reflexivity.
Qed.

End WorkingFileSystem.



(** Where a [stat] fails the script body raises, and prints no outcome. *)
Example main_raises_on_dangling_link :
  fst (main Sample4.env Sample4.start) = Raise Sample4.gone.
Proof. vm_compute. reflexivity. Qed.
